(** * Relay and session lifecycle of the voice-chat backend (app.py)

    A shallow embedding of the handlers of [app.py] that create, rekey and
    delete session records and that relay messages between the client socket
    and the upstream (ElevenLabs) socket, of the notification socket, of
    the conversation history and of [setup_logger] of [logger.py].

    Conventions of the embedding.
    - A JSON document on the wire is modelled by the tree it denotes
      ([json]) instead of by its characters: [json.loads] gives that tree,
      and [json.dumps] is the partial [to_json] on the values the handlers
      build ([pyval]).
    - A raised exception is the [Raise] case of [result]; [try]/[except] is a
      [match] on it.
    - What the outside world answers (what a [recv] returns, whether a [send]
      raises) is an explicit argument of the handler that asks.
    - Every handler is embedded as one run without interference from other
      requests: the registry it is given is the registry it works on.
    - Log calls are left out, except for the expressions inside them that can
      raise. *)

From stdpp Require Import gmap strings list.
From Stdlib Require Import ZArith QArith_base Qcanon DecimalString.
From Stdlib.Strings Require Import Byte Ascii.

(** ** Exceptions *)

Inductive exn_class : Type :=
| TimeoutError | JSONDecodeError | KeyError | TypeError | AttributeError
| ConnectionClosed | WebSocketDisconnect | RuntimeError
| HTTPException (status_code : Z)
| OtherException.

(** [exn_msg] is the message of the exception, the [detail] of an
    [HTTPException]. *)
Record exn : Type := Exn { exn_cls : exn_class; exn_msg : string }.

Inductive result (A : Type) : Type :=
| Ok (a : A)
| Raise (e : exn).
Arguments Ok {A} a.
Arguments Raise {A} e.

(** An awaited call that returns nothing: [None] when it returns, [Some e]
    when it raises [e]. *)
Definition outcome : Type := option exn.

Definition run (o : outcome) : result unit :=
  match o with None => Ok tt | Some e => Raise e end.

(** ** Values *)

Unset Elimination Schemes.

(** JSON documents, and with them the Python values that [json.loads]
    builds: [None], [bool], [int], [float], [str], [list], [dict].
    [JFloat q] is a finite float, by its exact value. *)
Inductive json : Type :=
| JNull
| JBool (b : bool)
| JInt (n : Z)
| JFloat (q : Q)
| JStr (s : string)
| JArr (l : list json)
| JObj (m : list (string * json)).

(** Python values that the handlers build and serialise: those of [json],
    plus [bytes] objects.  A [dict] keeps its items in insertion order. *)
Inductive pyval : Type :=
| PNone
| PBool (b : bool)
| PInt (n : Z)
| PFloat (q : Q)
| PStr (s : string)
| PBytes (b : list byte)
| PList (l : list pyval)
| PDict (d : list (string * pyval)).

Set Elimination Schemes.

Fixpoint assoc {A : Type} (k : string) (d : list (string * A)) : option A :=
  match d with
  | [] => None
  | (k', v) :: d' => if String.eqb k k' then Some v else assoc k d'
  end.

(** A decoded value, as a Python value. *)
Fixpoint of_json (j : json) : pyval :=
  match j with
  | JNull => PNone
  | JBool b => PBool b
  | JInt n => PInt n
  | JFloat q => PFloat q
  | JStr s => PStr s
  | JArr l => PList (map of_json l)
  | JObj m => PDict (map (fun kv => (fst kv, of_json (snd kv))) m)
  end.

(** [json.dumps]: [None] stands for its [TypeError] ("Object of type bytes
    is not JSON serializable"). *)
Fixpoint to_json (v : pyval) : option json :=
  match v with
  | PNone => Some JNull
  | PBool b => Some (JBool b)
  | PInt n => Some (JInt n)
  | PFloat q => Some (JFloat q)
  | PStr s => Some (JStr s)
  | PBytes _ => None
  | PList l =>
      option_map JArr
        ((fix go (l : list pyval) : option (list json) :=
            match l with
            | [] => Some []
            | x :: r =>
                match to_json x, go r with
                | Some j, Some js => Some (j :: js)
                | _, _ => None
                end
            end) l)
  | PDict d =>
      option_map JObj
        ((fix go (d : list (string * pyval)) : option (list (string * json)) :=
            match d with
            | [] => Some []
            | (k, x) :: r =>
                match to_json x, go r with
                | Some j, Some js => Some ((k, j) :: js)
                | _, _ => None
                end
            end) d)
  end.

Definition json_dumps (v : pyval) : result json :=
  match to_json v with
  | Some j => Ok j
  | None => Raise (Exn TypeError "Object of type bytes is not JSON serializable")
  end.

(** A text frame: a JSON document, or text that [json.loads] rejects with
    the message [err]. *)
Inductive text : Type :=
| JsonText (j : json)
| BadText (raw : string) (err : string).

Definition json_loads (t : text) : result json :=
  match t with
  | JsonText j => Ok j
  | BadText _ err => Raise (Exn JSONDecodeError err)
  end.

(** ** Operators on decoded values *)

Definition type_name (v : json) : string :=
  match v with
  | JNull => "NoneType" | JBool _ => "bool" | JInt _ => "int"
  | JFloat _ => "float" | JStr _ => "str"
  | JArr _ => "list" | JObj _ => "dict"
  end.

(** [v == s] for a string literal [s]. *)
Definition eq_str (v : json) (s : string) : bool :=
  match v with JStr s' => String.eqb s' s | _ => false end.

(** [v.get(k, dflt)] and [v.get(k)]: only a [dict] has the method. *)
Definition py_get_default (v : json) (k : string) (dflt : json) : result json :=
  match v with
  | JObj d => Ok (default dflt (assoc k d))
  | _ => Raise (Exn AttributeError
                  ("'" +:+ type_name v +:+ "' object has no attribute 'get'"))
  end.

Definition py_get (v : json) (k : string) : result json :=
  py_get_default v k JNull.

Fixpoint is_substring (s t : string) : bool :=
  String.prefix s t ||
  match t with
  | EmptyString => false
  | String _ t' => is_substring s t'
  end.

(** [k in v] for a string [k]: key test on a [dict], element test on a
    [list], substring test on a [str]; the other values are not iterable. *)
Definition py_in (k : string) (v : json) : result bool :=
  match v with
  | JObj d => Ok (bool_decide (is_Some (assoc k d)))
  | JArr l => Ok (existsb (fun x => eq_str x k) l)
  | JStr s => Ok (is_substring k s)
  | _ => Raise (Exn TypeError
                  ("argument of type '" +:+ type_name v +:+ "' is not iterable"))
  end.

(** [v[k]] for a string [k]. *)
Definition py_item (v : json) (k : string) : result json :=
  match v with
  | JObj d =>
      match assoc k d with
      | Some x => Ok x
      | None => Raise (Exn KeyError ("'" +:+ k +:+ "'"))
      end
  | JStr _ => Raise (Exn TypeError "string indices must be integers, not 'str'")
  | JArr _ => Raise (Exn TypeError "list indices must be integers or slices, not str")
  | _ => Raise (Exn TypeError
                  ("'" +:+ type_name v +:+ "' object is not subscriptable"))
  end.

(** [len(v)]. *)
Definition py_len (v : json) : result nat :=
  match v with
  | JStr s => Ok (String.length s)
  | JArr l => Ok (length l)
  | JObj d => Ok (length d)
  | _ => Raise (Exn TypeError
                  ("object of type '" +:+ type_name v +:+ "' has no len()"))
  end.

(** [bool(s)] for an optional string: [None] and the empty string are
    false. *)
Definition truthy (o : option string) : bool :=
  match o with None => false | Some s => negb (String.eqb s "") end.

(** [s.split(sep)] for a one-character separator. *)
Fixpoint split (sep : ascii) (s : string) : list string :=
  match s with
  | EmptyString => [EmptyString]
  | String c s' =>
      if Ascii.eqb c sep then EmptyString :: split sep s'
      else match split sep s' with
           | [] => [String c EmptyString]
           | p :: ps => String c p :: ps
           end
  end.

(** [str(n)] for an [int]. *)
Definition str_int (n : Z) : string := NilZero.string_of_int (Z.to_int n).

(** [int(x)] for a float: truncation toward zero. *)
Definition int_float (x : Q) : Z := Z.quot (Qnum x) (Z.pos (Qden x)).

(** [str(e)]: Starlette prints an [HTTPException] as "status: detail". *)
Definition str_exn (e : exn) : string :=
  match exn_cls e with
  | HTTPException c => str_int c +:+ ": " +:+ exn_msg e
  | _ => exn_msg e
  end.

(** What an f-string prints for an optional string. *)
Definition fmt (o : option string) : string := default "None" o.

Definition opt_str (o : option string) : pyval :=
  match o with Some s => PStr s | None => PNone end.

(** ** Session records and the registry *)

Inductive status_t : Type := pending | pending_notification | active.

#[global] Instance status_eq_dec : EqDecision status_t.
Proof. solve_decision. Defined.

(** One value of [active_conversations].  The dictionary the code stores has
    a fixed set of keys per creator; a key that a creator leaves out is
    [None] here: [signed_url] (absent until a notification is accepted),
    [system_prompt], [language], [conversation_id] and the notification
    fields.  [websocket] is [None] or the socket object. *)
Record conversation : Type := Conversation {
  user_id : string;
  agent_id : option string;
  status : status_t;
  first_message : option string;
  system_prompt : option string;
  websocket : option nat;
  signed_url : option string;
  needs_db_storage : bool;
  language : option string;
  notification_title : option string;
  notification_body : option string;
  created_at : option Q;
  conversation_id : option string
}.

(** A key of [active_conversations].  The handlers are given strings; the
    id that the upstream metadata carries is used as a key whatever hashable
    value it is, and numbers that are equal are the same key. *)
Inductive key : Type :=
| KStr (s : string)
| KNone
| KNum (q : Qc).

#[global] Instance key_eq_dec : EqDecision key.
Proof. solve_decision. Defined.

#[global] Instance key_countable : Countable key :=
  inj_countable'
    (fun k => match k with
              | KStr s => inl s
              | KNone => inr (inl tt)
              | KNum q => inr (inr q)
              end)
    (fun x => match x with
              | inl s => KStr s
              | inr (inl _) => KNone
              | inr (inr q) => KNum q
              end)
    (fun k => match k with KStr _ | KNone | KNum _ => eq_refl end).

(** The key a decoded value is as a [dict] key; a [list] or a [dict] is not
    hashable. *)
Definition hash_key (v : json) : result key :=
  match v with
  | JStr s => Ok (KStr s)
  | JNull => Ok KNone
  | JBool b => Ok (KNum (Q2Qc (inject_Z (if b then 1 else 0))))
  | JInt n => Ok (KNum (Q2Qc (inject_Z n)))
  | JFloat q => Ok (KNum (Q2Qc q))
  | JArr _ => Raise (Exn TypeError "unhashable type: 'list'")
  | JObj _ => Raise (Exn TypeError "unhashable type: 'dict'")
  end.

(** ** Observable calls *)

(** The calls a handler makes on a socket or on the database, in program
    order.  An event records that the call was made; whether it returned or
    raised is the caller's [outcome] argument. *)
Inductive event : Type :=
| ClientAccept (w : nat)
| ClientSendJson (w : nat) (j : json)
| ClientSendBytes (w : nat) (b : list byte)
| ClientClose (w : nat) (code : Z) (reason : option string)
| UpstreamConnect (url : string)
| UpstreamSend (j : json)
| UpstreamClose (code : Z) (reason : string)
| DbStore (cid : key) (user : string) (details : pyval).

(** ** Computations: state, emitted calls, exceptions *)

(** A computation over a state [S] returns or raises, leaves a state and
    has made a list of calls.  The HTTP and socket handlers run over the
    registry ([M]); the two pumps of a relay session touch no state of
    their own and run over [unit]. *)
Definition Eff (S A : Type) : Type := S -> result A * S * list event.

Abbreviation M := (Eff (gmap key conversation)) (only parsing).

Definition ret {S A : Type} (a : A) : Eff S A := fun s => (Ok a, s, []).

Definition bind {S A B : Type} (m : Eff S A) (k : A -> Eff S B) : Eff S B := fun s =>
  match m s with
  | (Ok a, s1, t1) => let '(b, s2, t2) := k a s1 in (b, s2, t1 ++ t2)
  | (Raise e, s1, t1) => (Raise e, s1, t1)
  end.

Notation "'let*' x ':=' m 'in' k" := (bind m (fun x => k))
  (at level 10, x name, m at level 100, k at level 200).

Definition raise {S A : Type} (e : exn) : Eff S A := fun s => (Raise e, s, []).

Definition lift {S A : Type} (x : result A) : Eff S A := fun s => (x, s, []).

(** [try: m except Exception as e: h e]. *)
Definition try_except {S A : Type} (m : Eff S A) (h : exn -> Eff S A) : Eff S A :=
  fun s =>
  match m s with
  | (Ok a, s1, t1) => (Ok a, s1, t1)
  | (Raise e, s1, t1) => let '(b, s2, t2) := h e s1 in (b, s2, t1 ++ t2)
  end.

Definition get_registry : M (gmap key conversation) := fun r => (Ok r, r, []).

Definition modify (f : gmap key conversation -> gmap key conversation) : M unit :=
  fun r => (Ok tt, f r, []).

(** An awaited call on the outside world. *)
Definition call {S : Type} (e : event) (o : outcome) : Eff S unit :=
  fun s => (run o, s, [e]).

(** [WebSocket.send_json(v)] serialises [v] and sends it. *)
Definition send_json {S : Type} (w : nat) (v : pyval) (o : outcome) : Eff S unit :=
  let* j := lift (json_dumps v) in call (ClientSendJson w j) o.

Record response : Type := JSONResponse { content : pyval; resp_status : Z }.

(** ** The connection state of a client socket *)

Inductive WebSocketState : Type := CONNECTING | CONNECTED | DISCONNECTED.

(** [state.CONNECTED]: the attribute [CONNECTED] read on a member of the
    enumeration is the member [CONNECTED] of its class, whichever member
    [state] is. *)
Definition dot_CONNECTED (state : WebSocketState) : WebSocketState := CONNECTED.

(** [bool(m)] for a member of the enumeration: the class defines no
    [__bool__], every member is true. *)
Definition state_truthy (m : WebSocketState) : bool := true.

(** ** POST /trigger-notification *)

Record NotificationRequest : Type := {
  req_user_id : string;
  req_notification_title : string;
  req_notification_body : string;
  req_first_message : option string;
  req_system_prompt : option string
}.

Definition incoming_call_agent : string := "agent_01jvvkzxr3e54rre8hjq5rxban".

Definition notification_id_of (request : NotificationRequest) (now : Q) : string :=
  "notif_" +:+ req_user_id request +:+ "_" +:+ str_int (int_float now).

Definition notification_record (request : NotificationRequest) (now : Q) : conversation :=
  {| user_id := req_user_id request;
     agent_id := Some incoming_call_agent;
     status := pending_notification;
     first_message := req_first_message request;
     system_prompt := req_system_prompt request;
     websocket := None;
     signed_url := None;
     needs_db_storage := true;
     language := None;
     notification_title := Some (req_notification_title request);
     notification_body := Some (req_notification_body request);
     created_at := Some now;
     conversation_id := None |}.

Definition internal_error {S A : Type} (e : exn) : Eff S A :=
  raise (Exn (HTTPException 500) (str_exn e)).

(** [now1] and [now2] are the two readings of [time.time()];
    [notification_connections] is the registry of notification sockets and
    [push] the outcome of the send on the user's one, if any. *)
Definition trigger_notification (request : NotificationRequest) (now1 now2 : Q)
    (notification_connections : gmap string nat) (push : outcome) : M response :=
  try_except
    (let notification_id := notification_id_of request now1 in
     let* _ := modify (insert (KStr notification_id)
                                (notification_record request now2)) in
     let notification_data := PDict [
       ("type", PStr "notification");
       ("notification_id", PStr notification_id);
       ("title", PStr (req_notification_title request));
       ("body", PStr (req_notification_body request));
       ("first_message", opt_str (req_first_message request));
       ("system_prompt", opt_str (req_system_prompt request));
       ("status", PStr "pending_notification")] in
     let* _ :=
       match notification_connections !! req_user_id request with
       | Some w => try_except (send_json w notification_data push) (fun _ => ret tt)
       | None => ret tt
       end in
     ret (JSONResponse (PDict [
       ("success", PBool true);
       ("notification_id", PStr notification_id);
       ("title", PStr (req_notification_title request));
       ("body", PStr (req_notification_body request));
       ("first_message", opt_str (req_first_message request));
       ("system_prompt", opt_str (req_system_prompt request));
       ("status", PStr "pending_notification")]) 200))
    internal_error.

(** ** POST /accept-notification/{notification_id} *)

(** The id the signed URL carries: the first [&]-separated part that starts
    with [conversation_id=], cut at [=]. *)
Fixpoint url_conversation_id (url_parts : list string) : option string :=
  match url_parts with
  | [] => None
  | part :: rest =>
      if String.prefix "conversation_id=" part
      then nth_error (split "="%char part) 1
      else url_conversation_id rest
  end.

(** The answer of the provisioning request: its status code and its body. *)
Record http_response : Type := { http_status : Z; http_body : text }.

Definition accept_notification (notification_id : string)
    (get : result http_response) : M response :=
  let* reg := get_registry in
  match reg !! KStr notification_id with
  | None => raise (Exn (HTTPException 404) "Notification not found")
  | Some conv =>
    if negb (bool_decide (status conv = pending_notification))
    then raise (Exn (HTTPException 400) "Notification already processed")
    else
      try_except
        (let* resp := lift get in
         if negb (Z.eqb (http_status resp) 200)
         then raise (Exn (HTTPException (http_status resp)) "Failed to get signed URL")
         else
           let* data := lift (json_loads (http_body resp)) in
           let* url := lift (py_item data "signed_url") in
           match url with
           | JStr signed =>
               let url_parts := split "&"%char signed in
               let found := url_conversation_id url_parts in
               let cid :=
                 if negb (truthy found)
                 then "conv_" +:+ user_id conv +:+ "_" +:+ fmt (agent_id conv)
                 else default "" found in
               let conv' :=
                 {| user_id := user_id conv;
                    agent_id := agent_id conv;
                    status := pending;
                    first_message := first_message conv;
                    system_prompt := system_prompt conv;
                    websocket := websocket conv;
                    signed_url := Some signed;
                    needs_db_storage := needs_db_storage conv;
                    language := language conv;
                    notification_title := notification_title conv;
                    notification_body := notification_body conv;
                    created_at := created_at conv;
                    conversation_id := Some cid |} in
               let* _ := modify (fun r => delete (KStr notification_id)
                                                (<[KStr cid := conv']> r)) in
               ret (JSONResponse (PDict [
                 ("success", PBool true);
                 ("conversation_id", PStr cid);
                 ("status", PStr "pending");
                 ("first_message", opt_str (first_message conv'));
                 ("system_prompt", opt_str (system_prompt conv'))]) 200)
           | _ => raise (Exn AttributeError
                           ("'" +:+ type_name url +:+ "' object has no attribute 'split'"))
           end)
        internal_error
  end.

(** ** POST /end-call/{conversation_id} *)

(** [client_state] is the state of the attached socket when the handler
    looks at it, [send] the outcome of the [send_json] on it.  A socket
    object is true, so [websocket and ...] is the second operand whenever a
    socket is attached. *)
Definition end_call (cid : string) (client_state : WebSocketState)
    (send : outcome) : M response :=
  let* reg := get_registry in
  match reg !! KStr cid with
  | Some conv =>
      let* _ :=
        match websocket conv with
        | Some w =>
            if state_truthy (dot_CONNECTED client_state)
            then send_json w (PDict [("type", PStr "end_call")]) send
            else ret tt
        | None => ret tt
        end in
      let* _ := modify (delete (KStr cid)) in
      ret (JSONResponse (PDict [("success", PBool true)]) 200)
  | None =>
      ret (JSONResponse (PDict [("error", PStr "Conversation not found")]) 404)
  end.

(** ** The relay: one iteration of each pump *)

(** How one iteration of a pump loop ends. *)
Inductive control : Type := Continue | Break | Return.

(** [a and b], where only [b] can raise and is evaluated only if [a]. *)
Definition and_then (a : bool) (b : result bool) : result bool :=
  if a then b else Ok false.

(** What [websocket.receive()] gives the client pump: the message of a
    binary frame (it has the key ["bytes"]), the message of a text frame
    (the key ["text"]), a message with neither key (the disconnect
    message), or an exception. *)
Inductive client_recv : Type :=
| ReceiveBytes (b : list byte)
| ReceiveText (t : text)
| ReceiveOther
| ReceiveRaises (e : exn).

(** One iteration of the client pump: what is received, the outcome of the
    send on the upstream connection if the iteration makes one (it makes at
    most one), and [elevenlabs_ws.open] as read after it. *)
Record client_step : Type := {
  c_recv : client_recv;
  c_send : outcome;
  c_open : bool
}.

(** The branch [if "bytes" in client_msg]. *)
Definition on_client_bytes (audio_bytes : list byte) (send : outcome)
    (still_open : bool) : Eff unit control :=
  try_except
    (let user_audio_data := PDict [
       ("type", PStr "audio");
       ("audio_event", PDict [("audio_base_64", PBytes audio_bytes)])] in
     if negb (Nat.eqb (length audio_bytes mod 2) 0) then ret Continue
     else
       (* the debug log formats json.dumps(user_audio_data) *)
       let* _ := lift (json_dumps user_audio_data) in
       let* j := lift (json_dumps user_audio_data) in
       let* _ := call (UpstreamSend j) send in
       if still_open then ret Continue else ret Break)
    (fun _ => ret Continue).

(** The branch [elif "text" in client_msg]. *)
Definition on_client_text (t : text) (send : outcome) : Eff unit control :=
  try_except
    (let* data := lift (json_loads t) in
     let* ty := lift (py_get data "type") in
     if eq_str ty "end_call" then ret Return
     else
       let* is_update :=
         lift (and_then (eq_str ty "contextual_update") (py_in "text" data)) in
       let* _ :=
         if is_update then
           let* txt := lift (py_item data "text") in
           let* j := lift (json_dumps (PDict [
                       ("type", PStr "contextual_update");
                       ("text", of_json txt)])) in
           call (UpstreamSend j) send
         else ret tt in
       let* is_audio :=
         lift (and_then (eq_str ty "audio") (py_in "audio_event" data)) in
       let* _ :=
         if is_audio then
           let* audio_event := lift (py_item data "audio_event") in
           let* chunk := lift (py_item audio_event "audio_base_64") in
           let audio_data := PDict [("user_audio_chunk", of_json chunk)] in
           (* the log formats len(data['audio_event']['audio_base_64']) *)
           let* _ := lift (py_len chunk) in
           let* j := lift (json_dumps audio_data) in
           call (UpstreamSend j) send
         else ret tt in
       ret Continue)
    (fun _ => ret Continue).

(** The body of the loop of [handle_client_audio]. *)
Definition client_message (st : client_step) : Eff unit control :=
  match c_recv st with
  | ReceiveRaises _ => ret Break
  | ReceiveBytes audio_bytes => on_client_bytes audio_bytes (c_send st) (c_open st)
  | ReceiveText t => on_client_text t (c_send st)
  | ReceiveOther => ret Continue
  end.

(** One iteration of the upstream pump: what [elevenlabs_ws.recv()] gives
    and the outcome of the send the iteration makes, if any (it makes at
    most one, upstream or to the client). *)
Record upstream_step : Type := {
  u_recv : result text;
  u_send : outcome
}.

Section Upstream.

(** [base64.b64decode] on a decoded value. *)
Variable b64decode : json -> result (list byte).

(** The client socket of the session. *)
Variable w : nat.

(** The inner [try] of the loop of [handle_elevenlabs_messages]. *)
Definition on_upstream_text (t : text) (send : outcome) : Eff unit control :=
  try_except
    (let* data := lift (json_loads t) in
     let* ty := lift (py_get data "type") in
     let* is_ping := lift (and_then (eq_str ty "ping") (py_in "ping_event" data)) in
     if is_ping then
       let* ping_event := lift (py_item data "ping_event") in
       let* event_id := lift (py_item ping_event "event_id") in
       let* j := lift (json_dumps (PDict [
                   ("type", PStr "pong");
                   ("event_id", of_json event_id)])) in
       let* _ := call (UpstreamSend j) send in
       ret Continue
     else
       let* is_audio :=
         lift (and_then (eq_str ty "audio") (py_in "audio_event" data)) in
       if is_audio then
         let* audio_event := lift (py_item data "audio_event") in
         let* audio_data := lift (py_item audio_event "audio_base_64") in
         let* audio_bytes := lift (b64decode audio_data) in
         let* _ := call (ClientSendBytes w audio_bytes) send in
         ret Continue
       else if eq_str ty "error" then
         let* err := lift (py_get_default data "error" (JObj [])) in
         let* _ := lift (py_get_default err "message" (JStr "Unknown error")) in
         let* err' := lift (py_get_default data "error" (JObj [])) in
         let* _ := lift (py_get_default err' "code" (JStr "No error code")) in
         let* _ := send_json w (of_json data) send in
         ret Continue
       else
         (* the transcript and response types, and every other type *)
         let* _ := send_json w (of_json data) send in
         ret Continue)
    (fun _ => ret Continue).

(** The body of the loop of [handle_elevenlabs_messages]. *)
Definition upstream_message (st : upstream_step) : Eff unit control :=
  match u_recv st with
  | Raise _ => ret Break
  | Ok t => on_upstream_text t (u_send st)
  end.

End Upstream.

(** ** The relay: the two pumps *)

(** A pump given finitely many iterations either left its loop ([Stopped])
    or is suspended in its next receive ([Waiting]). *)
Inductive pump_end : Type := Waiting | Stopped.

Fixpoint client_loop (steps : list client_step) : Eff unit pump_end :=
  match steps with
  | [] => ret Waiting
  | st :: rest =>
      let* c := client_message st in
      match c with
      | Continue => client_loop rest
      | Break | Return => ret Stopped
      end
  end.

(** [handle_client_audio]: the loop, and on leaving it the [finally] block
    that closes the upstream connection if [elevenlabs_ws.open].
    [open_at_exit] is what the read of that attribute gives: a truth value,
    or the exception it raises on a connection object that has no such
    attribute. *)
Definition handle_client_audio (steps : list client_step)
    (open_at_exit : result bool) (close : outcome) : Eff unit pump_end :=
  let* e := client_loop steps in
  match e with
  | Waiting => ret Waiting
  | Stopped =>
      let* _ :=
        try_except
          (let* is_open := lift open_at_exit in
           if is_open
           then call (UpstreamClose 1000 "Client disconnected") close
           else ret tt)
          (fun _ => ret tt) in
      ret Stopped
  end.

Section UpstreamPump.

Variable b64decode : json -> result (list byte).
Variable w : nat.

Fixpoint upstream_loop (steps : list upstream_step) : Eff unit pump_end :=
  match steps with
  | [] => ret Waiting
  | st :: rest =>
      let* c := upstream_message b64decode w st in
      match c with
      | Continue => upstream_loop rest
      | Break | Return => ret Stopped
      end
  end.

(** [handle_elevenlabs_messages]: the loop, and on leaving it the [finally]
    block that tells the client. *)
Definition handle_elevenlabs_messages (steps : list upstream_step)
    (client_state : WebSocketState) (notify : outcome) : Eff unit pump_end :=
  let* e := upstream_loop steps in
  match e with
  | Waiting => ret Waiting
  | Stopped =>
      let* _ :=
        try_except
          (if state_truthy (dot_CONNECTED client_state)
           then send_json w (PDict [("type", PStr "end_call");
                                    ("reason", PStr "connection_closed")]) notify
           else ret tt)
          (fun _ => ret tt) in
      ret Stopped
  end.

End UpstreamPump.

(** One order in which the calls of two concurrent tasks reach the outside:
    [true] takes the next call of the first, [false] of the second. *)
Fixpoint interleave {A : Type} (schedule : list bool) (l1 l2 : list A) : list A :=
  match schedule with
  | [] => l1 ++ l2
  | true :: sch =>
      match l1 with
      | [] => l2
      | x :: l1' => x :: interleave sch l1' l2
      end
  | false :: sch =>
      match l2 with
      | [] => l1
      | y :: l2' => y :: interleave sch l1 l2'
      end
  end.

(** [asyncio.gather] of the two pumps. *)
Definition gather {S : Type} (schedule : list bool)
    (p1 p2 : Eff unit pump_end) : Eff S (pump_end * pump_end) := fun s =>
  let '(x1, _, t1) := p1 tt in
  let '(x2, _, t2) := p2 tt in
  (match x1, x2 with
   | Ok a, Ok b => Ok (a, b)
   | Raise e, _ => Raise e
   | _, Raise e => Raise e
   end, s, interleave schedule t1 t2).

(** ** The relay socket /ws/{conversation_id} *)

Definition set_active (c : conversation) (w : nat) : conversation :=
  {| user_id := user_id c; agent_id := agent_id c; status := active;
     first_message := first_message c; system_prompt := system_prompt c;
     websocket := Some w; signed_url := signed_url c;
     needs_db_storage := needs_db_storage c; language := language c;
     notification_title := notification_title c;
     notification_body := notification_body c;
     created_at := created_at c; conversation_id := conversation_id c |}.

Definition set_stored (c : conversation) : conversation :=
  {| user_id := user_id c; agent_id := agent_id c; status := status c;
     first_message := first_message c; system_prompt := system_prompt c;
     websocket := websocket c; signed_url := signed_url c;
     needs_db_storage := false; language := language c;
     notification_title := notification_title c;
     notification_body := notification_body c;
     created_at := created_at c; conversation_id := conversation_id c |}.

Definition default_first_message : string :=
  "Hello! I am your caregiver. How can I help you today?".

(** The message [init_config] built from the session record. *)
Definition init_config (c : conversation) : pyval :=
  PDict [
    ("type", PStr "conversation_initiation_client_data");
    ("conversation_config_override", PDict [
       ("agent", PDict (
          [("first_message",
            PStr (if truthy (first_message c)
                  then default "" (first_message c)
                  else default_first_message));
           ("start_conversation_immediately", PBool true)]
          ++ (if truthy (system_prompt c)
              then [("prompt", PDict [("prompt", opt_str (system_prompt c))])]
              else [])))])].

(** What the outside world answers during one run of the endpoint. *)
Record session_env : Type := {
  e_accept : outcome;              (* websocket.accept() *)
  e_connect : outcome;             (* websockets.connect(signed_url) *)
  e_first_recv : result text;      (* wait_for(elevenlabs_ws.recv(), 5.0) *)
  e_forward_metadata : outcome;    (* websocket.send_json(metadata) *)
  e_now : Q;                       (* time.time() *)
  e_db_store : outcome;            (* db.store_conversation(...) *)
  e_send_config : outcome;         (* elevenlabs_ws.send(init_config) *)
  e_close : outcome;               (* websocket.close(code=...) *)
  e_client_steps : list client_step;
  e_open_at_exit : result bool;    (* elevenlabs_ws.open in the finally *)
  e_upstream_close : outcome;      (* elevenlabs_ws.close(1000, ...) *)
  e_upstream_steps : list upstream_step;
  e_client_state : WebSocketState; (* websocket.client_state *)
  e_notify : outcome;              (* the end_call notice of the pump *)
  e_schedule : list bool;          (* how the two pumps interleave *)
  e_final_close : outcome          (* websocket.close() in the finally *)
}.

(** The reason string of the close after a failed handshake: one for
    [asyncio.TimeoutError], one for every other exception. *)
Definition abort_reason (e : exn) : string :=
  match exn_cls e with
  | TimeoutError => "Timeout waiting for ElevenLabs response"
  | _ => "Error: " +:+ str_exn e
  end.

Section Endpoint.

Variable b64decode : json -> result (list byte).
Variable w : nat.
Variable cid : string.
Variable conversation : conversation.
Variable env : session_env.

(** The move of the record under the id [real] that the metadata carries,
    and the deferred write to the database. *)
Definition adopt_real_id (real : json) : M key :=
  let* reg := get_registry in
  match reg !! KStr cid with
  | None => raise (Exn KeyError ("'" +:+ cid +:+ "'"))
  | Some c =>
      let* k := lift (hash_key real) in
      let* _ := modify (fun r => delete (KStr cid) (<[k := c]> r)) in
      let* _ :=
        if needs_db_storage c then
          try_except
            (let* _ := call (DbStore k (user_id c) (PDict [
                         ("status", PStr "active");
                         ("agent_id", opt_str (agent_id c));
                         ("first_message", opt_str (first_message c));
                         ("started_at", PFloat (e_now env))]))
                         (e_db_store env) in
             modify (<[k := set_stored c]>))
            (fun _ => ret tt)
        else ret tt in
      ret k
  end.

(** The handshake up to the point where [init_config] is built: the value
    of the variable [conversation_id] afterwards, and whether the code goes
    on to send [init_config]. *)
Definition read_metadata : M (key * bool) :=
  let* metadata_msg := lift (e_first_recv env) in
  let* metadata := lift (json_loads metadata_msg) in
  let* _ := send_json w (of_json metadata) (e_forward_metadata env) in
  let* ty := lift (py_get metadata "type") in
  if eq_str ty "conversation_initiation_metadata" then
    let* has_event := lift (py_in "conversation_initiation_metadata_event" metadata) in
    if has_event then
      let* event_data := lift (py_item metadata "conversation_initiation_metadata_event") in
      let* has_id := lift (py_in "conversation_id" event_data) in
      let* k :=
        if has_id then
          let* real_conversation_id := lift (py_item event_data "conversation_id") in
          if negb (eq_str real_conversation_id cid)
          then adopt_real_id real_conversation_id
          else ret (KStr cid)
        else ret (KStr cid) in
      ret (k, true)
    else ret (KStr cid, false)
  else ret (KStr cid, false).

(** The two [except] clauses of the handshake: close the client socket with
    1001 and return.  If this close raises, the outer handler of the
    endpoint catches it; either way the cleanup is next. *)
Definition abort_handshake (k : key) (e : exn) : M (key * bool) :=
  let* _ := try_except (call (ClientClose w 1001 (Some (abort_reason e)))
                          (e_close env))
                       (fun _ => ret tt) in
  ret (k, false).

(** The handshake: the value of [conversation_id] afterwards, and whether
    the pumps are started. *)
Definition handshake : M (key * bool) :=
  try_except
    (let* p := read_metadata in
     if snd p then
       try_except
         ((* the log formats json.dumps(init_config) *)
          let* _ := lift (json_dumps (init_config conversation)) in
          let* j := lift (json_dumps (init_config conversation)) in
          let* _ := call (UpstreamSend j) (e_send_config env) in
          ret (fst p, true))
         (abort_handshake (fst p))
     else ret (fst p, true))
    (abort_handshake (KStr cid)).

Inductive session_end : Type := Relaying | Closed.

(** The [finally] block of the endpoint. *)
Definition cleanup (k : key) : M unit :=
  let* _ := modify (delete k) in
  if state_truthy (dot_CONNECTED (e_client_state env))
  then call (ClientClose w 1000 None) (e_final_close env)
  else ret tt.

(** The [try] block of the endpoint, from the connection to the upstream
    on. *)
Definition relay : M (key * session_end) :=
  match signed_url conversation with
  | None => raise (Exn KeyError "'signed_url'")
  | Some url =>
      let* _ := call (UpstreamConnect url) (e_connect env) in
      let* h := handshake in
      if snd h then
        let* ends :=
          try_except
            (gather (e_schedule env)
               (handle_client_audio (e_client_steps env)
                  (e_open_at_exit env) (e_upstream_close env))
               (handle_elevenlabs_messages b64decode w (e_upstream_steps env)
                  (e_client_state env) (e_notify env)))
            (fun _ => ret (Stopped, Stopped)) in
        match ends with
        | (Stopped, Stopped) => ret (fst h, Closed)
        | _ => ret (fst h, Relaying)
        end
      else ret (fst h, Closed)
  end.

End Endpoint.

(** [websocket_endpoint]: [Relaying] while a pump is still suspended in a
    receive, [Closed] once the handler has returned. *)
Definition websocket_endpoint (b64decode : json -> result (list byte))
    (w : nat) (cid : string) (env : session_env) : M session_end :=
  let* _ := call (ClientAccept w) (e_accept env) in
  let* reg := get_registry in
  match reg !! KStr cid with
  | None =>
      let* _ := call (ClientClose w 1000 None) (e_close env) in
      ret Closed
  | Some c =>
      let conversation := set_active c w in
      let* _ := modify (<[KStr cid := conversation]>) in
      let* p := try_except (relay b64decode w cid conversation env)
                           (fun _ => ret (KStr cid, Closed)) in
      match snd p with
      | Relaying => ret Relaying
      | Closed => let* _ := cleanup w env (fst p) in ret Closed
      end
  end.

(** ** POST /initiate-call *)

Record InitiateCallRequest : Type := {
  call_user_id : string;
  call_agent_id : option string;
  call_first_message : option string;
  call_language : option string
}.

(** [a or b] on optional strings. *)
Definition or_else (a b : option string) : option string :=
  if truthy a then a else b.

(** An HTTP answer of which the handler also reads [response.text]: the
    status code and the decoded body, and the body as text. *)
Record http_reply : Type := {
  reply : http_response;
  reply_text : string
}.

Definition new_call_record (request : InitiateCallRequest)
    (agent : option string) (signed : string) : conversation :=
  {| user_id := call_user_id request;
     agent_id := agent;
     status := pending;
     first_message := call_first_message request;
     system_prompt := None;
     websocket := None;
     signed_url := Some signed;
     needs_db_storage := true;
     language := call_language request;
     notification_title := None;
     notification_body := None;
     created_at := None;
     conversation_id := None |}.

(** [default_agent] is [ELEVENLABS_AGENT_ID], [get] the outcome of the
    provisioning request and [now] the reading of [time.time()].  Every
    exception ends in a 500 response, none leaves the handler. *)
Definition initiate_call (request : InitiateCallRequest)
    (default_agent : option string) (get : result http_reply)
    (now : Q) : M response :=
  try_except
    (let agent := or_else (call_agent_id request) default_agent in
     let* resp := lift get in
     if negb (Z.eqb (http_status (reply resp)) 200)
     then ret (JSONResponse
                 (PDict [("error", PStr ("Failed to get signed URL: "
                                         +:+ reply_text resp))])
                 (http_status (reply resp)))
     else
       let* data := lift (json_loads (http_body (reply resp))) in
       let* url := lift (py_item data "signed_url") in
       match url with
       | JStr signed =>
           let found := url_conversation_id (split "&"%char signed) in
           let cid :=
             if negb (truthy found)
             then "conv_" +:+ call_user_id request +:+ "_"
                  +:+ str_int (int_float now)
             else default "" found in
           let* _ := modify (<[KStr cid := new_call_record request agent signed]>) in
           ret (JSONResponse (PDict [
             ("success", PBool true);
             ("conversation_id", PStr cid);
             ("status", PStr "pending")]) 200)
       | _ => raise (Exn AttributeError
                       ("'" +:+ type_name url +:+ "' object has no attribute 'split'"))
       end)
    (fun e => ret (JSONResponse (PDict [("error", PStr (str_exn e))]) 500)).

(** ** The notification socket /ws/notifications/{user_id} *)

Definition connection_established : pyval :=
  PDict [("type", PStr "connection_established");
         ("message", PStr "WebSocket connection established successfully")].

(** The handler up to its loop: accept, register the socket under the user
    (in place of any socket registered before), greet. *)
Definition notification_open (user : string) (w : nat)
    (accept greet : outcome) : Eff (gmap string nat) unit :=
  let* _ := call (ClientAccept w) accept in
  let* _ := (fun conns => (Ok tt, <[user := w]> conns, [])) in
  send_json w connection_established greet.

(** The loop: [receive_text] until it raises.  What is received is only
    logged. *)
Fixpoint notification_loop {S : Type} (steps : list (result string))
    : Eff S pump_end :=
  match steps with
  | [] => ret Waiting
  | Ok _ :: rest => notification_loop rest
  | Raise _ :: _ => ret Stopped
  end.

(** The [finally] block: whatever socket is registered under the user is
    unregistered. *)
Definition notification_finally (user : string) : Eff (gmap string nat) unit :=
  fun conns => (Ok tt, delete user conns, []).

(** [notification_websocket]: [Ok Waiting] while the handler is suspended in
    a receive, [Ok Stopped] when it has returned, [Raise] when an exception
    leaves it (after the [finally] block). *)
Definition notification_websocket (user : string) (w : nat)
    (accept greet : outcome) (steps : list (result string))
    : Eff (gmap string nat) pump_end :=
  fun conns =>
  match bind (notification_open user w accept greet)
             (fun _ => notification_loop steps) conns with
  | (Ok Waiting, conns1, t1) => (Ok Waiting, conns1, t1)
  | (r, conns1, t1) =>
      let '(_, conns2, t2) := notification_finally user conns1 in
      (r, conns2, t1 ++ t2)
  end.

(** The handler from a suspended [receive_text] on: the loop over what is
    received from there, and the [finally] block when the loop is left. *)
Definition notification_resume (user : string) (steps : list (result string))
    : Eff (gmap string nat) pump_end :=
  let* e := notification_loop steps in
  match e with
  | Waiting => ret Waiting
  | Stopped => let* _ := notification_finally user in ret Stopped
  end.

(** ** GET /conversations/{user_id} *)

Definition rbind {A B : Type} (r : result A) (k : A -> result B) : result B :=
  match r with Ok a => k a | Raise e => Raise e end.

Notation "'let?' x ':=' r 'in' k" := (rbind r (fun x => k))
  (at level 10, x name, r at level 100, k at level 200).

(** [d[k] = v] on a [dict]: the value is replaced where the key is, a new
    key goes last. *)
Fixpoint dict_set (k : string) (v : json) (d : list (string * json))
    : list (string * json) :=
  match d with
  | [] => [(k, v)]
  | (k', x) :: d' =>
      if String.eqb k k' then (k', v) :: d' else (k', x) :: dict_set k v d'
  end.

(** [bool(v)] on a decoded value. *)
Definition json_truthy (v : json) : bool :=
  match v with
  | JNull => false
  | JBool b => b
  | JInt n => negb (Z.eqb n 0)
  | JFloat q => negb (Z.eqb (Qnum q) 0)
  | JStr s => negb (String.eqb s "")
  | JArr l => negb (Nat.eqb (length l) 0)
  | JObj d => negb (Nat.eqb (length d) 0)
  end.

Fixpoint chars (s : string) : list json :=
  match s with
  | EmptyString => []
  | String c s' => JStr (String c EmptyString) :: chars s'
  end.

(** [for item in v]: the elements of a [list], the keys of a [dict], the
    characters of a [str]. *)
Definition py_iter (v : json) : result (list json) :=
  match v with
  | JArr l => Ok l
  | JObj d => Ok (map (fun kv => JStr (fst kv)) d)
  | JStr s => Ok (chars s)
  | _ => Raise (Exn TypeError ("'" +:+ type_name v +:+ "' object is not iterable"))
  end.

(** The comprehension that keeps [role] and [message] of every item whose
    [message] is not [None]. *)
Fixpoint simplify_transcript (items : list json) : result (list json) :=
  match items with
  | [] => Ok []
  | item :: rest =>
      let? message := py_item item "message" in
      match message with
      | JNull => simplify_transcript rest
      | _ =>
          let? role := py_item item "role" in
          let? message := py_item item "message" in
          let? tail := simplify_transcript rest in
          Ok (JObj [("role", role); ("message", message)] :: tail)
      end
  end.

Section History.

(** [analyze_transcript_with_claude(transcript, agent_id,
    evaluation_criteria)]. *)
Variable analyze : list json -> json -> json -> result json.

(** The body of [if response.status_code == 200] after [response.json()]. *)
Definition details_of_data (data : json) : result json :=
  let? has_transcript := py_in "transcript" data in
  if has_transcript then
    let? transcript := py_item data "transcript" in
    let? items := py_iter transcript in
    let? simplified_transcript := simplify_transcript items in
    match data with
    | JObj d =>
        let d1 := dict_set "transcript" (JArr simplified_transcript) d in
        let? client_data :=
          py_get_default (JObj d1) "conversation_initiation_client_data" (JObj []) in
        let? variables := py_get_default client_data "dynamic_variables" (JObj []) in
        let? agent_id := py_get variables "system__agent_id" in
        if json_truthy agent_id then
          let? settings := py_get_default (JObj d1) "platform_settings" (JObj []) in
          let? evaluation := py_get_default settings "evaluation" (JObj []) in
          let? analysis_result := analyze simplified_transcript agent_id evaluation in
          Ok (JObj (dict_set "claude_analysis" analysis_result d1))
        else
          Ok (JObj (dict_set "claude_analysis"
                      (JObj [("error", JStr "No agent ID found")]) d1))
    | _ => Raise (Exn TypeError
                    ("'" +:+ type_name data
                     +:+ "' object does not support item assignment"))
    end
  else Ok data.

Definition error_details (e : exn) : json := JObj [("error", JStr (str_exn e))].

(** What becomes [conv['elevenlabs_details']] for one answer of
    [asyncio.gather(..., return_exceptions=True)]. *)
Definition elevenlabs_details (response : result http_reply) : json :=
  match response with
  | Raise e => error_details e
  | Ok resp =>
      match
        (if Z.eqb (http_status (reply resp)) 200 then
           let? data := json_loads (http_body (reply resp)) in
           details_of_data data
         else
           Ok (JObj [("error", JStr ("API error: "
                                     +:+ str_int (http_status (reply resp))));
                     ("details", JStr (reply_text resp))]))
      with
      | Ok details => details
      | Raise e => error_details e
      end
  end.

(** [rows] is what [db.get_user_conversations] gives, each row (a [dict]
    of values that serialise: the query turns dates into strings and
    decodes the stored details) with the answer to the request made for
    it. *)
Definition get_conversation_history
    (rows : result (list (list (string * json) * result http_reply)))
    : response :=
  match
    (let? conversations := rows in
     let? _ := (fix ids (l : list (list (string * json) * result http_reply))
                  : result unit :=
                  match l with
                  | [] => Ok tt
                  | (conv, _) :: l' =>
                      let? _ := py_item (JObj conv) "conversation_id" in ids l'
                  end) conversations in
     Ok (map (fun cr => JObj (dict_set "elevenlabs_details"
                                (elevenlabs_details (snd cr)) (fst cr)))
             conversations))
  with
  | Ok conversations =>
      JSONResponse (PDict [("success", PBool true);
                           ("conversations", PList (map of_json conversations))])
                   200
  | Raise e => JSONResponse (PDict [("error", PStr (str_exn e))]) 500
  end.

End History.

(** ** logger.py *)

Inductive handler_kind : Type :=
| RotatingFile (path : string) (max_bytes : Z) (backup_count : Z) (encoding : string)
| Console.

Record log_handler : Type := {
  h_kind : handler_kind;
  h_level : Z;
  h_format : string;
  h_datefmt : option string
}.

Record logger : Type := {
  l_level : Z;
  l_handlers : list log_handler
}.

Definition LOGS_DIR : string := "logs".
Definition LOG_FORMAT : string := "%(asctime)s - %(name)s - %(levelname)s - %(message)s".
Definition MAX_BYTES : Z := 10 * 1024 * 1024.
Definition BACKUP_COUNT : Z := 5.
Definition DATE_FORMAT : string := "%Y-%m-%d %H:%M:%S".

(** [os.path.join(a, b)] on POSIX paths: an absolute [b] replaces [a]. *)
Definition path_join (a b : string) : string :=
  if String.prefix "/" b then b
  else if String.eqb a "" then b
  else if String.prefix "/" (String.string_of_list_ascii
                               (rev (String.list_ascii_of_string a)))
       then a +:+ b
       else a +:+ "/" +:+ b.

(** [logging] keeps one root logger: [getLogger] gives it for the empty
    name and for the name [root]; every other name has a logger of its
    own. *)
Definition logger_key (name : string) : string :=
  if String.eqb name "" then "root" else name.

(** [logging.getLogger(name)]: the logger kept for that name, made on first
    use with no handler and the level [NOTSET]; the root logger starts at
    [WARNING]. *)
Definition getLogger (name : string) (loggers : gmap string logger) : logger :=
  default {| l_level := if String.eqb (logger_key name) "root" then 30 else 0;
             l_handlers := [] |}
          (loggers !! logger_key name).

(** [setup_logger(name, log_level)] on the loggers of the process: what it
    returns or raises, and the loggers afterwards.  [open_file] is the
    outcome of opening the log file, which [RotatingFileHandler] does when
    it is constructed; the level is set before that, and the handlers are
    attached after it. *)
Definition setup_logger (name : string) (log_level : Z) (open_file : outcome)
    (loggers : gmap string logger) : result logger * gmap string logger :=
  let lg := getLogger name loggers in
  let leveled := {| l_level := log_level; l_handlers := l_handlers lg |} in
  let loggers1 := <[logger_key name := leveled]> loggers in
  if negb (Nat.eqb (length (l_handlers lg)) 0)
  then (Ok leveled, loggers1)
  else
    match open_file with
    | Some e => (Raise e, loggers1)
    | None =>
        let file_handler :=
          {| h_kind := RotatingFile (path_join LOGS_DIR (name +:+ ".log"))
                         MAX_BYTES BACKUP_COUNT "utf-8";
             h_level := log_level;
             h_format := LOG_FORMAT;
             h_datefmt := Some DATE_FORMAT |} in
        let console_handler :=
          {| h_kind := Console;
             h_level := log_level;
             h_format := "%(levelname)s - %(message)s";
             h_datefmt := None |} in
        let configured :=
          {| l_level := log_level;
             l_handlers := l_handlers lg ++ [file_handler; console_handler] |} in
        (Ok configured, <[logger_key name := configured]> loggers1)
    end.

(** * Vocabulary of the properties, and scenarios *)

Definition result_of {S A : Type} (x : result A * S * list event) : result A := fst (fst x).
Definition state_of {S A : Type} (x : result A * S * list event) : S := snd (fst x).
Definition trace_of {S A : Type} (x : result A * S * list event) : list event := snd x.

(** An iteration of the client pump that receives a binary frame. *)
Definition binary_step (f : list byte * outcome * bool) : client_step :=
  {| c_recv := ReceiveBytes (fst (fst f)); c_send := snd (fst f); c_open := snd f |}.

Definition active_record (w : nat) : conversation :=
  {| user_id := "u1"; agent_id := Some "agent_a"; status := active;
     first_message := Some "Hi"; system_prompt := None;
     websocket := Some w; signed_url := Some "wss://upstream/?token=t";
     needs_db_storage := false; language := Some "en";
     notification_title := None; notification_body := None;
     created_at := None; conversation_id := None |}.

Definition end_call_notice : json := JObj [("type", JStr "end_call")].

Definition success_response : response :=
  JSONResponse (PDict [("success", PBool true)]) 200.

Definition not_found_response : response :=
  JSONResponse (PDict [("error", PStr "Conversation not found")]) 404.

Definition send_after_close : exn :=
  Exn RuntimeError "Cannot call send once a close message has been sent.".

(** Two requests to end the same call, one after the other: the answers, and
    the registry after the second. *)
Definition two_end_calls (cid : string) (st1 st2 : WebSocketState)
    (send1 send2 : outcome) (reg : gmap key conversation)
    : result response * result response * gmap key conversation :=
  let out1 := end_call cid st1 send1 reg in
  let out2 := end_call cid st2 send2 (state_of out1) in
  (result_of out1, result_of out2, state_of out2).

Definition pong (event_id : json) : json :=
  JObj [("type", JStr "pong"); ("event_id", event_id)].

(** A decoded message that is a ping carrying [event_id]. *)
Definition ping_with (data : json) (event_id : json) : Prop :=
  exists d ping_event,
    data = JObj d /\
    assoc "type" d = Some (JStr "ping") /\
    assoc "ping_event" d = Some (JObj ping_event) /\
    assoc "event_id" ping_event = Some event_id.

Definition received (st : upstream_step) : Prop :=
  exists t, u_recv st = Ok t.

Definition b64_unused (v : json) : result (list byte) :=
  Raise (Exn OtherException "binascii.Error").

Definition transcript_step : upstream_step :=
  {| u_recv := Ok (JsonText (JObj [("type", JStr "agent_response");
                                   ("agent_response_event",
                                    JObj [("agent_response", JStr "Hello")])]));
     u_send := None |}.

Definition ping_42 : json :=
  JObj [("type", JStr "ping"); ("ping_event", JObj [("event_id", JInt 42)])].

(** The first upstream message is an initiation-metadata event that carries
    the id [real]. *)
Definition announces (env : session_env) (real : string) : Prop :=
  exists d event_data,
    e_first_recv env = Ok (JsonText (JObj d)) /\
    assoc "type" d = Some (JStr "conversation_initiation_metadata") /\
    assoc "conversation_initiation_metadata_event" d = Some (JObj event_data) /\
    assoc "conversation_id" event_data = Some (JStr real).

Definition pending_record : conversation :=
  {| user_id := "u1"; agent_id := Some "agent_a"; status := pending;
     first_message := Some "Good morning"; system_prompt := Some "Be brief";
     websocket := None; signed_url := Some "wss://upstream/?token=t";
     needs_db_storage := true; language := Some "en";
     notification_title := None; notification_body := None;
     created_at := None; conversation_id := None |}.

(** A run in which every call returns; [first] is what the handshake read
    gives and [client_steps] what the client pump receives. *)
Definition calm_env (first : result text) (client_steps : list client_step)
    : session_env :=
  {| e_accept := None; e_connect := None; e_first_recv := first;
     e_forward_metadata := None; e_now := inject_Z 1700000000;
     e_db_store := None; e_send_config := None; e_close := None;
     e_client_steps := client_steps; e_open_at_exit := Ok true;
     e_upstream_close := None; e_upstream_steps := [];
     e_client_state := CONNECTED; e_notify := None; e_schedule := [];
     e_final_close := None |}.

Definition metadata_abc123 : json :=
  JObj [("type", JStr "conversation_initiation_metadata");
        ("conversation_initiation_metadata_event",
         JObj [("conversation_id", JStr "abc123");
               ("agent_output_audio_format", JStr "pcm_16000")])].

(** The handshake read gave no decodable message: it raised [e] (the
    timeout of [wait_for], or whatever [recv] raises), or it gave text that
    [json.loads] rejects with [e]. *)
Definition unreadable (env : session_env) (e : exn) : Prop :=
  e_first_recv env = Raise e \/
  exists raw err, e_first_recv env = Ok (BadText raw err) /\
                  e = Exn JSONDecodeError err.

Definition metadata_wrong_type : json :=
  JObj [("type", JStr "agent_response");
        ("agent_response_event", JObj [("agent_response", JStr "Hello")])].

(** The documents sent on the upstream connection, in order. *)
Fixpoint upstream_sends (t : list event) : list json :=
  match t with
  | [] => []
  | UpstreamSend j :: t' => j :: upstream_sends t'
  | _ :: t' => upstream_sends t'
  end.

(** A document of type [conversation_initiation_client_data]. *)
Definition is_config (j : json) : bool :=
  match j with
  | JObj d =>
      match assoc "type" d with
      | Some v => eq_str v "conversation_initiation_client_data"
      | None => false
      end
  | _ => false
  end.

(** The initiation config that carries the overrides of the record [c]: its
    [first_message] unless that is missing or empty, and its
    [system_prompt] if it has a non-empty one. *)
Definition config_json (c : conversation) : json :=
  JObj [
    ("type", JStr "conversation_initiation_client_data");
    ("conversation_config_override", JObj [
       ("agent", JObj (
          [("first_message",
            JStr (match first_message c with
                  | Some s => if String.eqb s "" then default_first_message else s
                  | None => default_first_message
                  end));
           ("start_conversation_immediately", JBool true)]
          ++ match system_prompt c with
             | Some s => if String.eqb s "" then []
                         else [("prompt", JObj [("prompt", JStr s)])]
             | None => []
             end))])].

(** An event that is not the sending of an initiation config. *)
Definition not_config (e : event) : Prop :=
  match e with
  | UpstreamSend j => is_config j = false
  | _ => True
  end.

(** An event that is not a send on the upstream connection. *)
Definition not_upstream_send (e : event) : Prop :=
  match e with
  | UpstreamSend _ => False
  | _ => True
  end.

(** Every call that [m] makes satisfies [P]. *)
Definition emits {S A : Type} (P : event -> Prop) (m : Eff S A) : Prop :=
  forall s, Forall P (trace_of (m s)).

(** What the claim asks of the documents a session sends upstream: the
    first one is an initiation config and no later one is. *)
Definition exactly_one_config_first (sends : list json) : Prop :=
  exists cfg rest,
    sends = cfg :: rest /\
    is_config cfg = true /\
    Forall (fun j => is_config j = false) rest.

Definition audio_text_step : client_step :=
  {| c_recv := ReceiveText (JsonText (JObj [
                 ("type", JStr "audio");
                 ("audio_event", JObj [("audio_base_64", JStr "AAAA")])]));
     c_send := None; c_open := true |}.

Definition metadata_without_event : json :=
  JObj [("type", JStr "conversation_initiation_metadata")].

(** [sep.join(parts)]. *)
Fixpoint join (sep : ascii) (parts : list string) : string :=
  match parts with
  | [] => EmptyString
  | [p] => p
  | p :: rest => p +:+ String sep (join sep rest)
  end.

(** The character [c] does not occur in [s]. *)
Fixpoint free_of (c : ascii) (s : string) : Prop :=
  match s with
  | EmptyString => True
  | String c' s' => c' <> c /\ free_of c s'
  end.

(** No part is a [conversation_id=] parameter. *)
Definition no_id_part (parts : list string) : Prop :=
  Forall (fun part => String.prefix "conversation_id=" part = false) parts.

Definition call_response (cid : string) : response :=
  JSONResponse (PDict [("success", PBool true);
                       ("conversation_id", PStr cid);
                       ("status", PStr "pending")]) 200.

Definition provisioned (signed : string) : http_reply :=
  {| reply := {| http_status := 200;
                 http_body := JsonText (JObj [("signed_url", JStr signed)]) |};
     reply_text := "" |}.

Definition call_request : InitiateCallRequest :=
  {| call_user_id := "u1"; call_agent_id := None;
     call_first_message := Some "Hello"; call_language := Some "en" |}.

Definition accepted_response (cid : string) (c : conversation) : response :=
  JSONResponse (PDict [("success", PBool true);
                       ("conversation_id", PStr cid);
                       ("status", PStr "pending");
                       ("first_message", opt_str (first_message c));
                       ("system_prompt", opt_str (system_prompt c))]) 200.

Definition notified_record : conversation :=
  {| user_id := "u1"; agent_id := Some incoming_call_agent;
     status := pending_notification;
     first_message := Some "Time for your walk"; system_prompt := Some "Be kind";
     websocket := None; signed_url := None; needs_db_storage := true;
     language := None; notification_title := Some "Incoming Call";
     notification_body := Some "You have an incoming call. Click to answer.";
     created_at := Some (inject_Z 1000); conversation_id := None |}.

(** The calls to the database in a trace. *)
Fixpoint db_stores (t : list event) : list event :=
  match t with
  | [] => []
  | DbStore k u d :: t' => DbStore k u d :: db_stores t'
  | _ :: t' => db_stores t'
  end.

(** What is written to the database for the record [c] at time [now]. *)
Definition stored_details (c : conversation) (now : Q) : pyval :=
  PDict [("status", PStr "active");
         ("agent_id", opt_str (agent_id c));
         ("first_message", opt_str (first_message c));
         ("started_at", PFloat now)].

(** The registry [s] and the value [k] of [conversation_id] that a handshake
    can leave, started on [reg] for the socket id [cid]: nothing changed, or
    the record moved from [cid] to another key [k]. *)
Definition rekeyed_or_same (cid : string) (reg : gmap key conversation)
    (k : key) (s : gmap key conversation) : Prop :=
  (k = KStr cid /\ s = reg) \/
  (k <> KStr cid /\ s !! KStr cid = None /\
   forall k', k' <> k -> k' <> KStr cid -> s !! k' = reg !! k').

(** The URLs of the upstream connections made, in order. *)
Fixpoint upstream_connects (t : list event) : list string :=
  match t with
  | [] => []
  | UpstreamConnect url :: t' => url :: upstream_connects t'
  | _ :: t' => upstream_connects t'
  end.

(** The calls of the relay once the upstream connection is made: everything
    but an accept, a connect and a write to the database. *)
Definition relay_event (e : event) : Prop :=
  match e with
  | ClientAccept _ | UpstreamConnect _ | DbStore _ _ _ => False
  | _ => True
  end.

(** An event that is not the making of an upstream connection. *)
Definition not_connect (e : event) : Prop :=
  match e with
  | UpstreamConnect _ => False
  | _ => True
  end.

(** A run in which the upstream announces the id [abc123] and then both
    sides hang up. *)
Definition hangup_env : session_env :=
  {| e_accept := None; e_connect := None;
     e_first_recv := Ok (JsonText metadata_abc123);
     e_forward_metadata := None; e_now := inject_Z 1700000000;
     e_db_store := None; e_send_config := None; e_close := None;
     e_client_steps := [{| c_recv := ReceiveRaises (Exn WebSocketDisconnect "1001");
                           c_send := None; c_open := true |}];
     e_open_at_exit := Ok true;
     e_upstream_close := None;
     e_upstream_steps := [{| u_recv := Raise (Exn ConnectionClosed "1000");
                             u_send := None |}];
     e_client_state := DISCONNECTED; e_notify := None; e_schedule := [];
     e_final_close := None |}.

(** What the client pump may do to the outside: send a contextual update or
    an audio chunk upstream, and close the upstream connection with 1000. *)
Definition client_pump_event (e : event) : Prop :=
  match e with
  | UpstreamSend j =>
      (exists txt, j = JObj [("type", JStr "contextual_update"); ("text", txt)]) \/
      (exists chunk, j = JObj [("user_audio_chunk", chunk)])
  | UpstreamClose code reason => code = 1000%Z /\ reason = "Client disconnected"
  | _ => False
  end.

(** An iteration of the client pump that receives the text frame of the
    JSON object [d]. *)
Definition text_step (d : list (string * json)) (send : outcome) (still_open : bool)
    : client_step :=
  {| c_recv := ReceiveText (JsonText (JObj d)); c_send := send; c_open := still_open |}.

(** The notice the upstream pump leaves the client with. *)
Definition connection_closed_notice : json :=
  JObj [("type", JStr "end_call"); ("reason", JStr "connection_closed")].

(** What the upstream pump may do to the outside while it reads [steps]:
    hand the client a document it received, as it received it, or the bytes
    that [b64decode] gave, or the closing notice; and send a pong
    upstream. *)
Definition upstream_pump_event (b64decode : json -> result (list byte))
    (w : nat) (steps : list upstream_step) (e : event) : Prop :=
  match e with
  | ClientSendJson w' j =>
      w' = w /\
      (j = connection_closed_notice \/
       exists st, In st steps /\ u_recv st = Ok (JsonText j))
  | ClientSendBytes w' b => w' = w /\ exists x, b64decode x = Ok b
  | UpstreamSend j => exists event_id, j = pong event_id
  | _ => False
  end.

(** An iteration of the upstream pump whose receive raises. *)
Definition closed_step (e : exn) (send : outcome) : upstream_step :=
  {| u_recv := Raise e; u_send := send |}.

(** An item of a simplified transcript: a [dict] with the keys [role] and
    [message], in that order, whose message is not [None]. *)
Definition transcript_entry (o : json) : Prop :=
  exists role message,
    o = JObj [("role", role); ("message", message)] /\ message <> JNull.

(** What a row of the history is answered as, given what became its
    [elevenlabs_details]. *)
Definition history_entry (row : list (string * json)) (details : json) : json :=
  JObj (dict_set "elevenlabs_details" details row).

Definition history_response (conversations : list json) : response :=
  JSONResponse (PDict [("success", PBool true);
                       ("conversations", PList (map of_json conversations))]) 200.

(** An analysis that answers with the number of items it was given. *)
Definition count_items (transcript : list json) (agent_id evaluation : json)
    : result json :=
  Ok (JObj [("items", JInt (Z.of_nat (length transcript)))]).

(** A value that can be a key of a [dict]. *)
Definition hashable (v : json) : bool :=
  match v with
  | JArr _ | JObj _ => false
  | _ => true
  end.

(** The handshake gets through the event field [event_data]: the test
    ["conversation_id" in event_data] and, where it holds, the lookup of the
    id and its use as a key raise nothing.  That is so on an object with no
    [conversation_id] or with one that is hashable, and on a list or a
    string in which the test fails. *)
Definition id_lookup_passes (event_data : json) : bool :=
  match event_data with
  | JObj ev =>
      match assoc "conversation_id" ev with
      | Some real => hashable real
      | None => true
      end
  | JArr l => negb (existsb (fun x => eq_str x "conversation_id") l)
  | JStr s => negb (is_substring "conversation_id" s)
  | _ => false
  end.

(** The object [d] has the type of the initiation metadata. *)
Definition metadata_type (d : list (string * json)) : bool :=
  eq_str (default JNull (assoc "type" d)) "conversation_initiation_metadata".

(** The first upstream message is an initiation-metadata event: an object
    of that type with the field [conversation_initiation_metadata_event],
    through which the handshake gets. *)
Definition initiation_event (first : result text) : bool :=
  match first with
  | Ok (JsonText (JObj d)) =>
      metadata_type d &&
      match assoc "conversation_initiation_metadata_event" d with
      | Some event_data => id_lookup_passes event_data
      | None => false
      end
  | _ => false
  end.

(** The first upstream message is an object that is no initiation-metadata
    event: it has another type, or it lacks the event field. *)
Definition other_object (first : result text) : bool :=
  match first with
  | Ok (JsonText (JObj d)) =>
      negb (metadata_type d) ||
      match assoc "conversation_initiation_metadata_event" d with
      | Some _ => false
      | None => true
      end
  | _ => false
  end.

Definition returns (o : outcome) : bool :=
  match o with None => true | Some _ => false end.

(** The record for which a session sends its initiation config, if it
    sends one: the socket is accepted, the registry has a record with a
    signed URL under the socket's id, the upstream connection is made, and
    the first upstream message is an initiation-metadata event that could be
    forwarded to the client. *)
Definition config_due (cid : string) (env : session_env)
    (reg : gmap key conversation) : option conversation :=
  match reg !! KStr cid with
  | Some c =>
      if returns (e_accept env) && bool_decide (is_Some (signed_url c))
         && returns (e_connect env) && returns (e_forward_metadata env)
         && initiation_event (e_first_recv env)
      then Some c else None
  | None => None
  end.

(** The handshake raises nothing: the first upstream message could be
    forwarded to the client and is an object that is no initiation-metadata
    event, or is such an event and the send of the config returned. *)
Definition handshake_passes (env : session_env) : bool :=
  returns (e_forward_metadata env) &&
  (other_object (e_first_recv env) ||
   initiation_event (e_first_recv env) && returns (e_send_config env)).

(** The calls of a handshake before any close: the forward of the metadata
    to the client, the write to the database, the send of the config. *)
Definition handshake_call (e : event) : Prop :=
  match e with
  | ClientSendJson _ _ | DbStore _ _ _ | UpstreamSend _ => True
  | _ => False
  end.

(** The calls of the two pumps of a session, as they reach the outside. *)
Definition pump_calls (b64decode : json -> result (list byte)) (w : nat)
    (env : session_env) : list event :=
  interleave (e_schedule env)
    (trace_of (handle_client_audio (e_client_steps env) (e_open_at_exit env)
                 (e_upstream_close env) tt))
    (trace_of (handle_elevenlabs_messages b64decode w (e_upstream_steps env)
                 (e_client_state env) (e_notify env) tt)).

(** What the upstream pump does for a message [d] of type [ping]: it
    answers the event id of its [ping_event] with a pong; without a
    [ping_event] the message goes to the client like any other; with a
    [ping_event] that gives no [event_id] nothing is sent. *)
Definition ping_answer (w : nat) (d : list (string * json)) : list event :=
  match assoc "ping_event" d with
  | None => [ClientSendJson w (JObj d)]
  | Some ping_event =>
      match py_item ping_event "event_id" with
      | Ok event_id => [UpstreamSend (pong event_id)]
      | Raise _ => []
      end
  end.

(** A run in which the upstream announces the id [abc123] and the forward
    of that message to the client raises. *)
Definition forward_fails_env : session_env :=
  {| e_accept := None; e_connect := None;
     e_first_recv := Ok (JsonText metadata_abc123);
     e_forward_metadata := Some send_after_close;
     e_now := inject_Z 1700000000;
     e_db_store := None; e_send_config := None; e_close := None;
     e_client_steps := []; e_open_at_exit := Ok true;
     e_upstream_close := None; e_upstream_steps := [];
     e_client_state := DISCONNECTED; e_notify := None; e_schedule := [];
     e_final_close := None |}.

(** The first upstream message is an initiation-metadata event whose event
    field is an object that carries the id [real]. *)
Definition carries_id (env : session_env) (real : json) : Prop :=
  exists d event_data,
    e_first_recv env = Ok (JsonText (JObj d)) /\
    assoc "type" d = Some (JStr "conversation_initiation_metadata") /\
    assoc "conversation_initiation_metadata_event" d = Some (JObj event_data) /\
    assoc "conversation_id" event_data = Some real.

(** * Properties *)

(** ** Serialisation *)

Section JsonInduction.

Variable P : json -> Prop.
Hypothesis Hnull : P JNull.
Hypothesis Hbool : forall b, P (JBool b).
Hypothesis Hint : forall n, P (JInt n).
Hypothesis Hfloat : forall q, P (JFloat q).
Hypothesis Hstr : forall s, P (JStr s).
Hypothesis Harr : forall l, Forall P l -> P (JArr l).
Hypothesis Hobj : forall m, Forall (fun kv => P (snd kv)) m -> P (JObj m).

Fixpoint json_nested_ind (j : json) : P j :=
  match j with
  | JNull => Hnull
  | JBool b => Hbool b
  | JInt n => Hint n
  | JFloat q => Hfloat q
  | JStr s => Hstr s
  | JArr l =>
      Harr l ((fix go (l : list json) : Forall P l :=
                 match l with
                 | [] => @List.Forall_nil _ P
                 | x :: r => @List.Forall_cons _ P x r (json_nested_ind x) (go r)
                 end) l)
  | JObj m =>
      Hobj m ((fix go (m : list (string * json)) : Forall (fun kv => P (snd kv)) m :=
                 match m with
                 | [] => @List.Forall_nil _ _
                 | kv :: r => @List.Forall_cons _ (fun kv => P (snd kv)) kv r (json_nested_ind (snd kv)) (go r)
                 end) m)
  end.

End JsonInduction.

(** Serialising a decoded value gives back the document. *)
Lemma to_json_of_json (j : json) : to_json (of_json j) = Some j.
Proof.
  induction j using json_nested_ind; simpl; try reflexivity.
  - induction H as [|x r Hx _ IH]; simpl; [reflexivity|].
    rewrite Hx. simpl in IH.
    destruct ((fix go (l : list pyval) : option (list json) := _) (map of_json r));
      simpl in IH; [|discriminate].
    injection IH as ->. reflexivity.
  - induction H as [|[k x] r Hx _ IH]; simpl; [reflexivity|].
    simpl in Hx. rewrite Hx. simpl in IH.
    destruct ((fix go (d : list (string * pyval)) : option (list (string * json)) := _)
                (map (fun kv => (fst kv, of_json (snd kv))) r));
      simpl in IH; [|discriminate].
    injection IH as ->. reflexivity.
Qed.

Lemma json_dumps_of_json (j : json) : json_dumps (of_json j) = Ok j.
Proof. unfold json_dumps. rewrite to_json_of_json. reflexivity. Qed.

(** A [dict] that holds a [bytes] object under some key does not
    serialise. *)
Lemma json_dumps_audio_bytes (b : list byte) :
  json_dumps (PDict [("type", PStr "audio");
                     ("audio_event", PDict [("audio_base_64", PBytes b)])])
  = Raise (Exn TypeError "Object of type bytes is not JSON serializable").
Proof. reflexivity. Qed.

(** ** The client pump and binary frames *)

(** The binary branch makes no call and continues the loop, on an odd
    length by the parity check, on an even length because [json.dumps]
    raises on the [bytes] in the envelope and the handler of the branch
    swallows the exception. *)
Lemma on_client_bytes_drops (audio_bytes : list byte) (send : outcome)
    (still_open : bool) :
  on_client_bytes audio_bytes send still_open tt = (Ok Continue, tt, []).
Proof.
  unfold on_client_bytes, try_except.
  destruct (negb (length audio_bytes mod 2 =? 0)); reflexivity.
Qed.

(** C1 (the code departs from the claim): whatever binary frame the client
    pump receives, of even length too, the iteration sends nothing
    upstream: no audio event with the bytes of the frame, nor anything
    else.  The pump goes on. *)
Theorem binary_frame_is_never_forwarded
    (audio_bytes : list byte) (send : outcome) (still_open : bool) :
  client_message {| c_recv := ReceiveBytes audio_bytes;
                    c_send := send; c_open := still_open |} tt
  = (Ok Continue, tt, []).
Proof. apply on_client_bytes_drops. Qed.

(** C6 (the code departs from the claim): a run of binary frames, of odd or
    even length, is dropped as a whole; the pump sends nothing upstream and
    is still in its loop afterwards.  So the odd frame is dropped without
    ending the pump, but the even frame after it is not forwarded either. *)
Theorem binary_frames_are_all_dropped (frames : list (list byte * outcome * bool)) :
  client_loop (map binary_step frames) tt = (Ok Waiting, tt, []).
Proof.
  induction frames as [|f frames IH]; [reflexivity|].
  change (map binary_step (f :: frames))
    with (binary_step f :: map binary_step frames).
  unfold client_loop; fold client_loop. unfold bind.
  unfold binary_step at 1, client_message. cbn [c_recv c_send c_open].
  rewrite on_client_bytes_drops. rewrite IH. reflexivity.
Qed.

(** A 3-byte frame and then a 4-byte frame: the pump runs to its next
    receive and has sent nothing. *)
Example three_bytes_then_four_bytes :
  handle_client_audio
    [binary_step (["000"; "001"; "002"]%byte, None, true);
     binary_step (["000"; "001"; "002"; "003"]%byte, None, true)]
    (Ok true) None tt
  = (Ok Waiting, tt, []).
Proof. reflexivity. Qed.

(** ** Session lifecycle handlers *)

(** C10: whatever the request, the clock, the notification sockets and the
    outcome of the push, the handler answers 200 and leaves under the
    notification id a record with the fixed agent id, the status
    [pending_notification], and the request's [first_message] and
    [system_prompt] as they came.  The request model has no agent field, so
    no agent id of the caller reaches the handler. *)
Theorem trigger_notification_record
    (request : NotificationRequest) (now1 now2 : Q)
    (notification_connections : gmap string nat) (push : outcome)
    (reg : gmap key conversation) :
  let out := trigger_notification request now1 now2 notification_connections push reg in
  (exists body, result_of out = Ok (JSONResponse body 200)) /\
  exists c,
    state_of out !! KStr (notification_id_of request now1) = Some c /\
    agent_id c = Some "agent_01jvvkzxr3e54rre8hjq5rxban" /\
    status c = pending_notification /\
    first_message c = req_first_message request /\
    system_prompt c = req_system_prompt request.
Proof.
  unfold trigger_notification, try_except, bind, modify, ret,
    result_of, state_of; cbn zeta beta iota.
  destruct (notification_connections !! req_user_id request) as [w|].
  - unfold send_json, bind, lift, call, json_dumps.
    assert (Hs : exists j, to_json (PDict [
       ("type", PStr "notification");
       ("notification_id", PStr (notification_id_of request now1));
       ("title", PStr (req_notification_title request));
       ("body", PStr (req_notification_body request));
       ("first_message", opt_str (req_first_message request));
       ("system_prompt", opt_str (req_system_prompt request));
       ("status", PStr "pending_notification")]) = Some j).
    { destruct (req_first_message request), (req_system_prompt request);
        simpl; eauto. }
    destruct Hs as [j ->]. cbn beta iota.
    destruct push as [e|]; cbn; (split; [eauto|]);
      eexists; (split; [apply lookup_insert_eq|]); repeat split.
  - cbn. split; [eauto|].
    eexists; (split; [apply lookup_insert_eq|]); repeat split.
Qed.

(** C8: accepting an id that is not in the registry raises the 404
    exception, accepting a record whose status is not
    [pending_notification] raises the 400 exception; both leave the registry
    as it is and make no call. *)
Theorem accept_notification_rejects
    (notification_id : string) (get : result http_response)
    (reg : gmap key conversation) :
  (reg !! KStr notification_id = None ->
   accept_notification notification_id get reg
   = (Raise (Exn (HTTPException 404) "Notification not found"), reg, []))
  /\
  (forall c, reg !! KStr notification_id = Some c ->
   status c <> pending_notification ->
   accept_notification notification_id get reg
   = (Raise (Exn (HTTPException 400) "Notification already processed"), reg, [])).
Proof.
  split.
  - intros Hnone. unfold accept_notification, bind, get_registry.
    rewrite Hnone. reflexivity.
  - intros c Hc Hst. unfold accept_notification, bind, get_registry.
    rewrite Hc. rewrite bool_decide_eq_false_2 by exact Hst. reflexivity.
Qed.

Lemma accept_notification_rejects_witness :
  (accept_notification "missing" (Raise (Exn OtherException "unused")) ∅
   = (Raise (Exn (HTTPException 404) "Notification not found"), ∅, []))
  /\
  (accept_notification "conv_u1_1000" (Raise (Exn OtherException "unused"))
     {[ KStr "conv_u1_1000" := active_record 7 ]}
   = (Raise (Exn (HTTPException 400) "Notification already processed"),
      {[ KStr "conv_u1_1000" := active_record 7 ]}, [])).
Proof.
  split.
  - apply (accept_notification_rejects "missing"). reflexivity.
  - apply (accept_notification_rejects "conv_u1_1000") with (c := active_record 7).
    + vm_compute. reflexivity.
    + discriminate.
Defined.

(** Ending a session that has no socket attached makes no call, deletes the
    record and answers success. *)
Lemma end_call_without_socket (cid : string) (st : WebSocketState)
    (send : outcome) (reg : gmap key conversation) (c : conversation) :
  reg !! KStr cid = Some c -> websocket c = None ->
  end_call cid st send reg = (Ok success_response, delete (KStr cid) reg, []).
Proof.
  intros Hc Hw. unfold end_call, bind, get_registry. rewrite Hc, Hw.
  reflexivity.
Qed.

(** With a socket attached and a send that returns, the notice is sent once,
    the record is deleted and the answer is success. *)
Lemma end_call_send_returns (cid : string) (st : WebSocketState)
    (reg : gmap key conversation) (c : conversation) (w : nat) :
  reg !! KStr cid = Some c -> websocket c = Some w ->
  end_call cid st None reg
  = (Ok success_response, delete (KStr cid) reg, [ClientSendJson w end_call_notice]).
Proof.
  intros Hc Hw. unfold end_call, bind, get_registry. rewrite Hc, Hw.
  reflexivity.
Qed.

(** An id that is not in the registry is answered 404. *)
Lemma end_call_unknown (cid : string) (st : WebSocketState) (send : outcome)
    (reg : gmap key conversation) :
  reg !! KStr cid = None ->
  end_call cid st send reg = (Ok not_found_response, reg, []).
Proof.
  intros Hc. unfold end_call, bind, get_registry. rewrite Hc. reflexivity.
Qed.

(** With a socket attached and a send that raises, the exception leaves
    the handler before the deletion. *)
Lemma end_call_send_raises (cid : string) (st : WebSocketState)
    (e : exn) (reg : gmap key conversation) (c : conversation) (w : nat) :
  reg !! KStr cid = Some c -> websocket c = Some w ->
  end_call cid st (Some e) reg
  = (Raise e, reg, [ClientSendJson w end_call_notice]).
Proof.
  intros Hc Hw. unfold end_call, bind, get_registry. rewrite Hc, Hw.
  reflexivity.
Qed.

(** C7 (the code departs from the claim): with a socket attached, the
    notice is sent whatever the state of the socket, and when that send
    raises, the exception is the result of the handler: the caller gets no
    success response and the record is still in the registry. *)
Theorem end_call_send_failure_keeps_record (cid : string) (st : WebSocketState)
    (e : exn) (reg : gmap key conversation) (c : conversation) (w : nat) :
  reg !! KStr cid = Some c -> websocket c = Some w ->
  let out := end_call cid st (Some e) reg in
  result_of out = Raise e /\
  state_of out !! KStr cid = Some c /\
  trace_of out = [ClientSendJson w end_call_notice].
Proof.
  intros Hc Hw out. subst out. rewrite (end_call_send_raises cid st e reg c w Hc Hw).
  repeat split. exact Hc.
Qed.

Lemma end_call_send_failure_keeps_record_witness :
  let out := end_call "conv_u1_1000" DISCONNECTED (Some send_after_close)
               {[ KStr "conv_u1_1000" := active_record 7 ]} in
  result_of out = Raise send_after_close /\
  state_of out !! KStr "conv_u1_1000" = Some (active_record 7) /\
  trace_of out = [ClientSendJson 7 end_call_notice].
Proof.
  apply (end_call_send_failure_keeps_record "conv_u1_1000" DISCONNECTED
           send_after_close _ (active_record 7) 7).
  - vm_compute. reflexivity.
  - reflexivity.
Defined.

(** When the first request gets through (no socket attached, or the send
    returns), it answers success and the second one answers 404. *)
Lemma two_end_calls_when_send_returns (cid : string) (st1 st2 : WebSocketState)
    (send2 : outcome) (reg : gmap key conversation) (c : conversation) :
  reg !! KStr cid = Some c ->
  two_end_calls cid st1 st2 None send2 reg
  = (Ok success_response, Ok not_found_response, delete (KStr cid) reg).
Proof.
  intros Hc. unfold two_end_calls.
  destruct (websocket c) as [w|] eqn:Hw.
  - rewrite (end_call_send_returns cid st1 reg c w Hc Hw).
    unfold state_of, result_of; cbn [fst snd].
    rewrite end_call_unknown by apply lookup_delete_eq. reflexivity.
  - rewrite (end_call_without_socket cid st1 None reg c Hc Hw).
    unfold state_of, result_of; cbn [fst snd].
    rewrite end_call_unknown by apply lookup_delete_eq. reflexivity.
Qed.

(** C9 (the code departs from the claim): when the send of the first request
    raises, the first request does not answer success and leaves the record
    in place, so the second request finds it and answers success, not 404. *)
Theorem second_end_call_after_failed_send (cid : string)
    (st1 st2 : WebSocketState) (e : exn) (reg : gmap key conversation)
    (c : conversation) (w : nat) :
  reg !! KStr cid = Some c -> websocket c = Some w ->
  two_end_calls cid st1 st2 (Some e) None reg
  = (Raise e, Ok success_response, delete (KStr cid) reg).
Proof.
  intros Hc Hw. unfold two_end_calls.
  rewrite (end_call_send_raises cid st1 e reg c w Hc Hw).
  unfold state_of, result_of; cbn [fst snd].
  rewrite (end_call_send_returns cid st2 reg c w Hc Hw). reflexivity.
Qed.

Lemma second_end_call_after_failed_send_witness :
  two_end_calls "conv_u1_1000" DISCONNECTED CONNECTED (Some send_after_close) None
    {[ KStr "conv_u1_1000" := active_record 7 ]}
  = (Raise send_after_close, Ok success_response,
     delete (KStr "conv_u1_1000") {[ KStr "conv_u1_1000" := active_record 7 ]}).
Proof.
  apply (second_end_call_after_failed_send "conv_u1_1000" DISCONNECTED CONNECTED
           send_after_close _ (active_record 7) 7).
  - vm_compute. reflexivity.
  - reflexivity.
Defined.

(** ** The upstream pump *)

Ltac run_eff :=
  unfold send_json; unfold bind, lift, call, ret, raise, run;
  cbn beta iota zeta.

Ltac clear_units :=
  repeat match goal with u : unit |- _ => destruct u end.

(** Case analysis on an innermost scrutinee of the goal. *)
Ltac case_inner :=
  match goal with
  | |- context [match ?x with _ => _ end] =>
      lazymatch x with
      | context [match _ with _ => _ end] => fail
      | _ => destruct x eqn:?
      end
  end; cbn beta iota zeta.

(** An iteration of the upstream pump that received a message never leaves
    the loop, whatever the message and the outcome of its send. *)
Lemma on_upstream_text_continues (b64decode : json -> result (list byte))
    (w : nat) (t : text) (send : outcome) :
  exists tr, on_upstream_text b64decode w t send tt = (Ok Continue, tt, tr).
Proof.
  unfold on_upstream_text, try_except. run_eff.
  repeat case_inner; clear_units; eauto.
Qed.

(** The calls of the loop over iterations that all received a message,
    followed by more iterations, are the calls of the former and then the
    calls of the latter. *)
Lemma upstream_loop_app (b64decode : json -> result (list byte)) (w : nat)
    (pre rest : list upstream_step) :
  Forall received pre ->
  upstream_loop b64decode w (pre ++ rest) tt
  = (result_of (upstream_loop b64decode w rest tt), tt,
     trace_of (upstream_loop b64decode w pre tt)
     ++ trace_of (upstream_loop b64decode w rest tt)).
Proof.
  induction 1 as [|st pre [t Ht] _ IH].
  - cbn [app]. destruct (upstream_loop b64decode w rest tt) as [[x []] tr].
    reflexivity.
  - change ((st :: pre) ++ rest) with (st :: (pre ++ rest)).
    cbn [upstream_loop]. unfold bind, upstream_message. rewrite Ht.
    destruct (on_upstream_text_continues b64decode w t (u_send st)) as [tr ->].
    rewrite IH.
    destruct (upstream_loop b64decode w pre tt) as [[x []] tr'].
    unfold trace_of, result_of; cbn [fst snd]. rewrite app_assoc. reflexivity.
Qed.

Section Pings.

Variable b64decode : json -> result (list byte).
Variable w : nat.

(** The iteration of the upstream pump on a message of type [ping]. *)
Lemma on_upstream_ping_message (d : list (string * json)) (send : outcome) :
  assoc "type" d = Some (JStr "ping") ->
  on_upstream_text b64decode w (JsonText (JObj d)) send tt
  = (Ok Continue, tt, ping_answer w d).
Proof.
  intros Hty. unfold on_upstream_text, ping_answer, try_except. run_eff.
  cbn [json_loads py_get py_get_default py_in].
  rewrite Hty. cbn [default from_option id eq_str String.eqb Ascii.eqb Bool.eqb and_then].
  destruct (assoc "ping_event" d) as [ping_event|] eqn:Hpe.
  - rewrite bool_decide_eq_true_2 by eauto. cbn beta iota zeta.
    cbn [py_item]. rewrite Hpe.
    destruct (py_item ping_event "event_id") as [event_id|e]; [|reflexivity].
    change (PDict [("type", PStr "pong"); ("event_id", of_json event_id)])
      with (of_json (pong event_id)).
    rewrite json_dumps_of_json. destruct send; reflexivity.
  - rewrite bool_decide_eq_false_2 by (intros [? ?]; discriminate).
    cbn beta iota zeta. rewrite json_dumps_of_json. destruct send; reflexivity.
Qed.

(** The pump after iterations that all received a message goes on with the
    iterations that follow. *)
Lemma handle_elevenlabs_messages_app (pre rest : list upstream_step)
    (client_state : WebSocketState) (notify : outcome) :
  Forall received pre ->
  handle_elevenlabs_messages b64decode w (pre ++ rest) client_state notify tt
  = (result_of (handle_elevenlabs_messages b64decode w rest client_state notify tt),
     tt,
     trace_of (upstream_loop b64decode w pre tt)
     ++ trace_of (handle_elevenlabs_messages b64decode w rest client_state notify tt)).
Proof.
  intros Hpre. unfold handle_elevenlabs_messages, bind.
  rewrite (upstream_loop_app b64decode w pre rest Hpre).
  destruct (upstream_loop b64decode w rest tt) as [[[p|e] []] tr];
    unfold result_of, trace_of; cbn [fst snd]; [|reflexivity].
  destruct p.
  - unfold ret. rewrite !app_nil_r. reflexivity.
  - destruct (try_except _ _ tt) as [[[[]|e] []] tr']; unfold ret; cbn [fst snd];
      rewrite ?app_nil_r, <- ?app_assoc; reflexivity.
Qed.

End Pings.

(** C4 (amended): for a message of type [ping] received after messages that
    were all received, the upstream pump does for it what [ping_answer]
    says, after its calls for the earlier messages and before any call for
    a later message or the closing notice.  For a ping that carries a
    [ping_event] with an [event_id] that is one pong with the identical
    event id, sent upstream, whatever that send answers.  A ping without a
    [ping_event] gets no pong: it is sent on to the client. *)
Theorem ping_is_answered_before_next_message
    (b64decode : json -> result (list byte)) (w : nat)
    (pre rest : list upstream_step) (d : list (string * json)) (send : outcome)
    (client_state : WebSocketState) (notify : outcome) :
  Forall received pre ->
  assoc "type" d = Some (JStr "ping") ->
  let ping := {| u_recv := Ok (JsonText (JObj d)); u_send := send |} in
  let pump steps :=
    handle_elevenlabs_messages b64decode w steps client_state notify tt in
  trace_of (pump (pre ++ ping :: rest))
  = trace_of (upstream_loop b64decode w pre tt)
    ++ ping_answer w d ++ trace_of (pump rest) /\
  result_of (pump (pre ++ ping :: rest)) = result_of (pump rest) /\
  (forall event_id, ping_with (JObj d) event_id ->
     ping_answer w d = [UpstreamSend (pong event_id)]) /\
  (assoc "ping_event" d = None -> ping_answer w d = [ClientSendJson w (JObj d)]).
Proof.
  intros Hpre Hty ping pump. subst ping pump. cbn beta.
  set (ping := {| u_recv := Ok (JsonText (JObj d)); u_send := send |}).
  assert (Hping : upstream_loop b64decode w [ping] tt
                  = (Ok Waiting, tt, ping_answer w d)).
  { cbn [upstream_loop]. unfold bind, upstream_message, ping. cbn [u_recv u_send].
    rewrite (on_upstream_ping_message b64decode w d send Hty).
    unfold ret. rewrite app_nil_r. reflexivity. }
  assert (Hboth : Forall received (pre ++ [ping])).
  { apply Forall_app. split; [exact Hpre|].
    repeat constructor. eexists. reflexivity. }
  change (pre ++ ping :: rest) with (pre ++ [ping] ++ rest). rewrite app_assoc.
  rewrite (handle_elevenlabs_messages_app b64decode w (pre ++ [ping]) rest
             client_state notify Hboth).
  rewrite (upstream_loop_app b64decode w pre [ping] Hpre). rewrite Hping.
  unfold trace_of at 1 2 3, result_of at 1; cbn [fst snd].
  rewrite <- app_assoc.
  split; [reflexivity|]. split; [reflexivity|]. split.
  - intros event_id (d' & pe & Hd & _ & Hpe & Hid). injection Hd as <-.
    unfold ping_answer. rewrite Hpe. cbn [py_item]. rewrite Hid. reflexivity.
  - intros Hnone. unfold ping_answer. rewrite Hnone. reflexivity.
Qed.

Lemma ping_is_answered_before_next_message_witness :
  let ping := {| u_recv := Ok (JsonText ping_42); u_send := None |} in
  let pump steps := handle_elevenlabs_messages b64_unused 7 steps CONNECTED None tt in
  trace_of (pump ([transcript_step] ++ ping :: [transcript_step]))
  = trace_of (upstream_loop b64_unused 7 [transcript_step] tt)
    ++ [UpstreamSend (pong (JInt 42))] ++ trace_of (pump [transcript_step]).
Proof.
  apply (ping_is_answered_before_next_message b64_unused 7
           [transcript_step] [transcript_step]
           [("type", JStr "ping"); ("ping_event", JObj [("event_id", JInt 42)])]
           None CONNECTED None).
  - repeat constructor. eexists. reflexivity.
  - reflexivity.
Defined.

(** C4 as stated fails: a message of type [ping] without a [ping_event] is
    not answered with a pong; the pump sends it on to the client. *)
Lemma bare_ping_gets_no_pong :
  handle_elevenlabs_messages b64_unused 7
    [{| u_recv := Ok (JsonText (JObj [("type", JStr "ping")])); u_send := None |}]
    CONNECTED None tt
  = (Ok Waiting, tt, [ClientSendJson 7 (JObj [("type", JStr "ping")])]).
Proof. reflexivity. Qed.

(** ** The handshake *)

Lemma eqb_neq_false (s t : string) : s <> t -> String.eqb s t = false.
Proof. intros H. apply String.eqb_neq. exact H. Qed.

(** C5 (amended): when the metadata carry an id [real] other than the id
    [cid] of the socket and could be forwarded to the client, then after
    the handshake (whatever the database and the upstream send answer) the
    registry has no entry under [cid], has under [real] the record that was
    under [cid] with the same [first_message] and [system_prompt], and is
    unchanged at every other key.  When the forward to the client raises,
    the handshake is aborted before the rekey: the registry is as it was,
    with the record under [cid] and nothing new under [real]. *)
Theorem handshake_rekeys (w : nat) (cid real : string)
    (conv : conversation) (env : session_env)
    (reg : gmap key conversation) (c : conversation) :
  reg !! KStr cid = Some c ->
  announces env real ->
  real <> cid ->
  let reg' := state_of (handshake w cid conv env reg) in
  (e_forward_metadata env = None ->
   reg' !! KStr cid = None /\
   (exists c', reg' !! KStr real = Some c' /\
               first_message c' = first_message c /\
               system_prompt c' = system_prompt c) /\
   (forall k, k <> KStr cid -> k <> KStr real -> reg' !! k = reg !! k)) /\
  (forall e, e_forward_metadata env = Some e ->
   reg' = reg /\
   result_of (handshake w cid conv env reg) = Ok (KStr cid, false)).
Proof.
  intros Hc (d & ev & Hrecv & Hty & Hev & Hid) Hne reg'. subst reg'.
  assert (Hk : KStr real <> KStr cid) by congruence.
  split.
  - intros Hfwd.
    unfold handshake, read_metadata, adopt_real_id, abort_handshake, try_except.
    unfold get_registry, modify. run_eff.
    rewrite Hrecv, Hfwd. cbn [json_loads py_get py_get_default py_in py_item].
    rewrite json_dumps_of_json. cbn beta iota zeta.
    rewrite Hty, Hev.
    cbn [from_option id eq_str String.eqb Ascii.eqb Bool.eqb].
    rewrite bool_decide_eq_true_2 by eauto. cbn beta iota zeta.
    cbn [py_in py_item]. rewrite Hid.
    rewrite bool_decide_eq_true_2 by eauto. cbn beta iota zeta.
    cbn [eq_str]. rewrite (eqb_neq_false real cid Hne). cbn [negb].
    rewrite Hc. cbn [hash_key]. cbn beta iota zeta.
    repeat case_inner; unfold state_of; cbn [fst snd];
      (split; [|split]);
      try (intros k Hk1 Hk2);
      rewrite ?lookup_insert_ne, ?lookup_delete_ne, ?lookup_insert_ne by congruence;
      try apply lookup_delete_eq; try reflexivity.
    all: eexists; split;
      [ first [ apply lookup_insert_eq
              | rewrite lookup_delete_ne by congruence; apply lookup_insert_eq ]
      | split; reflexivity ].
  - intros e Hfwd.
    unfold handshake, read_metadata, abort_handshake, try_except. run_eff.
    rewrite Hrecv, Hfwd. cbn [json_loads]. rewrite json_dumps_of_json.
    cbn beta iota zeta.
    destruct (e_close env); split; reflexivity.
Qed.

Lemma handshake_rekeys_witness :
  let reg : gmap key conversation :=
    {[ KStr "conv_u1_1000" := set_active pending_record 7 ]} in
  let reg' := state_of (handshake 7 "conv_u1_1000" (set_active pending_record 7)
                          (calm_env (Ok (JsonText metadata_abc123)) []) reg) in
  reg' !! KStr "conv_u1_1000" = None /\
  (exists c', reg' !! KStr "abc123" = Some c' /\
              first_message c' = first_message (set_active pending_record 7) /\
              system_prompt c' = system_prompt (set_active pending_record 7)) /\
  (forall k, k <> KStr "conv_u1_1000" -> k <> KStr "abc123" -> reg' !! k = reg !! k).
Proof.
  assert (Hreg : ({[ KStr "conv_u1_1000" := set_active pending_record 7 ]}
                    : gmap key conversation) !! KStr "conv_u1_1000"
                 = Some (set_active pending_record 7)) by (vm_compute; reflexivity).
  apply (proj1 (handshake_rekeys 7 "conv_u1_1000" "abc123" (set_active pending_record 7)
                  (calm_env (Ok (JsonText metadata_abc123)) [])
                  {[ KStr "conv_u1_1000" := set_active pending_record 7 ]}
                  (set_active pending_record 7) Hreg
                  (ex_intro _ _ (ex_intro _ _
                     (conj eq_refl (conj eq_refl (conj eq_refl eq_refl)))))
                  ltac:(discriminate))).
  reflexivity.
Defined.

(** C5 as stated fails: the metadata carry the id [abc123], other than the
    id of the socket, but their forward to the client raises; the handshake
    is aborted, the record is still under the id of the socket and there is
    no entry under [abc123]. *)
Lemma rekey_skipped_when_forward_fails :
  let reg : gmap key conversation :=
    {[ KStr "conv_u1_1000" := set_active pending_record 7 ]} in
  let out := handshake 7 "conv_u1_1000" (set_active pending_record 7)
               forward_fails_env reg in
  announces forward_fails_env "abc123" /\
  state_of out !! KStr "conv_u1_1000" = Some (set_active pending_record 7) /\
  state_of out !! KStr "abc123" = None /\
  trace_of out
  = [ClientSendJson 7 metadata_abc123;
     ClientClose 7 1001 (Some (abort_reason send_after_close))].
Proof.
  cbn zeta. split.
  { eexists _, _. repeat split; reflexivity. }
  assert (Heq : handshake 7 "conv_u1_1000" (set_active pending_record 7)
                  forward_fails_env
                  {[ KStr "conv_u1_1000" := set_active pending_record 7 ]}
                = (Ok (KStr "conv_u1_1000", false),
                   {[ KStr "conv_u1_1000" := set_active pending_record 7 ]},
                   [ClientSendJson 7 metadata_abc123;
                    ClientClose 7 1001 (Some (abort_reason send_after_close))])).
  { vm_compute. reflexivity. }
  rewrite Heq. unfold state_of, trace_of; cbn [fst snd].
  split; [vm_compute; reflexivity|]. split; [vm_compute; reflexivity|reflexivity].
Qed.

(** When the handshake read times out, raises, or gives text that does not
    decode, the handshake closes the client socket with 1001 and the reason
    of the exception, makes no other call, leaves the registry as it is and
    does not start the pumps. *)
Lemma unreadable_metadata_aborts_handshake (w : nat) (cid : string)
    (conv : conversation) (env : session_env) (reg : gmap key conversation)
    (e : exn) :
  unreadable env e ->
  handshake w cid conv env reg
  = (Ok (KStr cid, false), reg, [ClientClose w 1001 (Some (abort_reason e))]).
Proof.
  intros Hun.
  unfold handshake, read_metadata, abort_handshake, try_except. run_eff.
  destruct Hun as [Hr | (raw & err & Hr & ->)]; rewrite Hr;
    cbn [json_loads]; cbn beta iota zeta;
    destruct (e_close env); reflexivity.
Qed.

(** ** What a session sends upstream *)

Section EmitsRules.

Context {S : Type} (P : event -> Prop).

Lemma emits_ret {A : Type} (a : A) : emits P (ret (S := S) a).
Proof. intros s. constructor. Qed.

Lemma emits_raise {A : Type} (e : exn) : emits P (raise (S := S) (A := A) e).
Proof. intros s. constructor. Qed.

Lemma emits_lift {A : Type} (r : result A) : emits P (lift (S := S) r).
Proof. intros s. constructor. Qed.

Lemma emits_call (e : event) (o : outcome) : P e -> emits P (call (S := S) e o).
Proof. intros He s. repeat constructor. exact He. Qed.

Lemma emits_bind {A B : Type} (m : Eff S A) (k : A -> Eff S B) :
  emits P m -> (forall a, emits P (k a)) -> emits P (bind m k).
Proof.
  intros Hm Hk s. unfold bind, trace_of. specialize (Hm s).
  destruct (m s) as [[[a|e] s1] t1]; cbn [snd trace_of] in *; [|exact Hm].
  specialize (Hk a s1). destruct (k a s1) as [[b s2] t2].
  cbn [snd trace_of] in *. apply Forall_app. split; assumption.
Qed.

(** The continuation only runs on what [r] returned. *)
Lemma emits_bind_lift {A B : Type} (r : result A) (k : A -> Eff S B) :
  (forall a, r = Ok a -> emits P (k a)) -> emits P (bind (lift r) k).
Proof.
  intros Hk s. unfold bind, lift, trace_of.
  destruct r as [a|e]; [|constructor].
  specialize (Hk a eq_refl s). destruct (k a s) as [[b s2] t2].
  cbn [snd trace_of] in *. exact Hk.
Qed.

Lemma emits_try_except {A : Type} (m : Eff S A) (h : exn -> Eff S A) :
  emits P m -> (forall e, emits P (h e)) -> emits P (try_except m h).
Proof.
  intros Hm Hh s. unfold try_except, trace_of. specialize (Hm s).
  destruct (m s) as [[[a|e] s1] t1]; cbn [snd trace_of] in *; [exact Hm|].
  specialize (Hh e s1). destruct (h e s1) as [[b s2] t2].
  cbn [snd trace_of] in *. apply Forall_app. split; assumption.
Qed.

Lemma emits_send_json (w : nat) (v : pyval) (o : outcome) :
  (forall j, P (ClientSendJson w j)) -> emits P (send_json (S := S) w v o).
Proof.
  intros H. unfold send_json. apply emits_bind_lift. intros j _.
  apply emits_call. apply H.
Qed.

End EmitsRules.


(** A serialised [dict] whose first key is ["type"] is a config only if
    that type is the one of the config. *)
Lemma json_dumps_typed (ty : string) (rest : list (string * pyval)) (j : json) :
  json_dumps (PDict (("type", PStr ty) :: rest)) = Ok j ->
  is_config j = String.eqb ty "conversation_initiation_client_data".
Proof.
  unfold json_dumps. cbn [to_json].
  destruct ((fix go (d : list (string * pyval)) : option (list (string * json)) := _) rest);
    cbn [option_map]; intros H; [|discriminate].
  injection H as <-. reflexivity.
Qed.

Lemma json_dumps_audio_chunk (v : pyval) (j : json) :
  json_dumps (PDict [("user_audio_chunk", v)]) = Ok j -> is_config j = false.
Proof.
  unfold json_dumps. cbn [to_json].
  destruct (to_json v); cbn [option_map]; intros H; [|discriminate].
  injection H as <-. reflexivity.
Qed.

Ltac emits_step :=
  first
    [ apply emits_ret | apply emits_raise | apply emits_lift
    | apply emits_try_except; [| intros ?]
    | apply emits_bind_lift; intros ? ?
    | apply emits_bind; [| intros ?]
    | apply emits_send_json; intros ?; exact I
    | match goal with |- emits _ (if ?b then _ else _) => destruct b end
    | match goal with |- emits _ (match ?x with _ => _ end) => destruct x end
    | apply emits_call ].

Ltac not_config_send :=
  match goal with
  | H : json_dumps (PDict (("type", PStr _) :: _)) = Ok ?j |- not_config (UpstreamSend ?j) =>
      cbn [not_config]; rewrite (json_dumps_typed _ _ _ H); reflexivity
  | H : json_dumps (PDict [("user_audio_chunk", _)]) = Ok ?j |- not_config (UpstreamSend ?j) =>
      cbn [not_config]; apply (json_dumps_audio_chunk _ _ H)
  | |- not_config _ => exact I
  end.

(** The client pump sends no initiation config. *)
Lemma client_message_not_config (st : client_step) :
  emits not_config (client_message st).
Proof.
  unfold client_message, on_client_bytes, on_client_text.
  repeat emits_step; not_config_send.
Qed.

Lemma client_loop_not_config (steps : list client_step) :
  emits not_config (client_loop steps).
Proof.
  induction steps as [|st steps IH]; cbn [client_loop].
  - apply emits_ret.
  - apply emits_bind; [apply client_message_not_config|].
    intros []; [exact IH | apply emits_ret | apply emits_ret].
Qed.

Lemma handle_client_audio_not_config (steps : list client_step)
    (open_at_exit : result bool) (close : outcome) :
  emits not_config (handle_client_audio steps open_at_exit close).
Proof.
  unfold handle_client_audio.
  apply emits_bind; [apply client_loop_not_config|].
  intros ?. repeat emits_step; exact I.
Qed.

(** The upstream pump sends no initiation config. *)
Lemma upstream_message_not_config (b64decode : json -> result (list byte))
    (w : nat) (st : upstream_step) :
  emits not_config (upstream_message b64decode w st).
Proof.
  unfold upstream_message, on_upstream_text.
  repeat emits_step; not_config_send.
Qed.

Lemma upstream_loop_not_config (b64decode : json -> result (list byte))
    (w : nat) (steps : list upstream_step) :
  emits not_config (upstream_loop b64decode w steps).
Proof.
  induction steps as [|st steps IH]; cbn [upstream_loop].
  - apply emits_ret.
  - apply emits_bind; [apply upstream_message_not_config|].
    intros []; [exact IH | apply emits_ret | apply emits_ret].
Qed.

Lemma handle_elevenlabs_messages_not_config
    (b64decode : json -> result (list byte)) (w : nat)
    (steps : list upstream_step) (client_state : WebSocketState)
    (notify : outcome) :
  emits not_config (handle_elevenlabs_messages b64decode w steps client_state notify).
Proof.
  unfold handle_elevenlabs_messages.
  apply emits_bind; [apply upstream_loop_not_config|].
  intros ?. repeat emits_step; exact I.
Qed.

Lemma interleave_Forall {A : Type} (P : A -> Prop) (schedule : list bool)
    (l1 l2 : list A) :
  Forall P l1 -> Forall P l2 -> Forall P (interleave schedule l1 l2).
Proof.
  revert l1 l2. induction schedule as [|[] sch IH]; intros l1 l2 H1 H2;
    cbn [interleave].
  - apply Forall_app. split; assumption.
  - destruct H1 as [|x l1' Hx H1]; [assumption|].
    constructor; [exact Hx|]. apply IH; assumption.
  - destruct H2 as [|y l2' Hy H2]; [assumption|].
    constructor; [exact Hy|]. apply IH; [assumption|assumption].
Qed.

Lemma gather_emits {S : Type} (P : event -> Prop) (schedule : list bool)
    (p1 p2 : Eff unit pump_end) :
  emits P p1 -> emits P p2 -> emits P (gather (S := S) schedule p1 p2).
Proof.
  intros H1 H2 s. unfold gather, trace_of.
  specialize (H1 tt). specialize (H2 tt).
  destruct (p1 tt) as [[x1 []] t1], (p2 tt) as [[x2 []] t2].
  cbn [snd trace_of] in *. apply interleave_Forall; assumption.
Qed.

Lemma upstream_sends_app (t1 t2 : list event) :
  upstream_sends (t1 ++ t2) = upstream_sends t1 ++ upstream_sends t2.
Proof.
  induction t1 as [|e t1 IH]; [reflexivity|].
  destruct e; cbn [app upstream_sends]; rewrite IH; reflexivity.
Qed.

Lemma upstream_sends_silent (t : list event) :
  Forall not_upstream_send t -> upstream_sends t = [].
Proof.
  induction 1 as [|e t He _ IH]; [reflexivity|].
  destruct e; cbn [upstream_sends]; try exact IH. destruct He.
Qed.

Lemma upstream_sends_not_config (t : list event) :
  Forall not_config t -> Forall (fun j => is_config j = false) (upstream_sends t).
Proof.
  induction 1 as [|e t He _ IH]; [constructor|].
  destruct e; cbn [upstream_sends]; try exact IH.
  constructor; [exact He | exact IH].
Qed.

Lemma trace_bind {S A B : Type} (m : Eff S A) (k : A -> Eff S B) (s : S) :
  trace_of (bind m k s)
  = trace_of (m s)
    ++ match result_of (m s) with
       | Ok a => trace_of (k a (state_of (m s)))
       | Raise _ => []
       end.
Proof.
  unfold bind, trace_of, result_of, state_of.
  destruct (m s) as [[[a|e] s1] t1]; cbn [fst snd].
  - destruct (k a s1) as [[b s2] t2]. reflexivity.
  - rewrite app_nil_r. reflexivity.
Qed.

Lemma trace_try_except {S A : Type} (m : Eff S A) (h : exn -> Eff S A) (s : S) :
  trace_of (try_except m h s)
  = trace_of (m s)
    ++ match result_of (m s) with
       | Ok _ => []
       | Raise e => trace_of (h e (state_of (m s)))
       end.
Proof.
  unfold try_except, trace_of, result_of, state_of.
  destruct (m s) as [[[a|e] s1] t1]; cbn [fst snd].
  - rewrite app_nil_r. reflexivity.
  - destruct (h e s1) as [[b s2] t2]. reflexivity.
Qed.

Lemma trace_bind_call {S B : Type} (e : event) (o : outcome)
    (k : unit -> Eff S B) (s : S) :
  trace_of (bind (call e o) k s)
  = e :: match o with None => trace_of (k tt s) | Some _ => [] end.
Proof.
  unfold bind, call, trace_of. destruct o; cbn [run snd]; [reflexivity|].
  destruct (k tt s) as [[b s2] t2]. reflexivity.
Qed.

Lemma trace_bind_get {B : Type}
    (k : gmap key conversation -> Eff (gmap key conversation) B)
    (s : gmap key conversation) :
  trace_of (bind get_registry k s) = trace_of (k s s).
Proof.
  unfold bind, get_registry, trace_of. destruct (k s s) as [[b s2] t2].
  reflexivity.
Qed.

Lemma trace_bind_modify {B : Type}
    (f : gmap key conversation -> gmap key conversation)
    (k : unit -> Eff (gmap key conversation) B) (s : gmap key conversation) :
  trace_of (bind (modify f) k s) = trace_of (k tt (f s)).
Proof.
  unfold bind, modify, trace_of. destruct (k tt (f s)) as [[b s2] t2].
  reflexivity.
Qed.

(** A handler that sends nothing upstream adds nothing to what is sent
    upstream. *)
Lemma sends_try_except_silent {S A : Type} (m : Eff S A) (h : exn -> Eff S A)
    (s : S) :
  (forall e, emits not_upstream_send (h e)) ->
  upstream_sends (trace_of (try_except m h s)) = upstream_sends (trace_of (m s)).
Proof.
  intros Hh. rewrite trace_try_except, upstream_sends_app.
  destruct (result_of (m s)) as [a|e]; cbn [upstream_sends].
  - apply app_nil_r.
  - rewrite (upstream_sends_silent _ (Hh e _)). apply app_nil_r.
Qed.

(** The serialised [init_config] is the config that carries the overrides
    of the record. *)
Lemma init_config_json (c : conversation) :
  json_dumps (init_config c) = Ok (config_json c).
Proof.
  unfold init_config, config_json, truthy.
  destruct (first_message c) as [fm|], (system_prompt c) as [sp|];
    try destruct (String.eqb fm ""); try destruct (String.eqb sp "");
    reflexivity.
Qed.

Section HandshakeSends.

Variable w : nat.
Variable cid : string.
Variable conv : conversation.
Variable env : session_env.

(** Up to the point where [init_config] is built, nothing is sent
    upstream. *)
Lemma read_metadata_silent : emits not_upstream_send (read_metadata w cid env).
Proof.
  unfold read_metadata, adopt_real_id, get_registry, modify.
  repeat first
    [ emits_step
    | match goal with |- emits _ (fun _ => _) => intros ?; constructor end ];
    try exact I.
Qed.

Lemma abort_handshake_silent (k : key) (e : exn) :
  emits not_upstream_send (abort_handshake w env k e).
Proof. unfold abort_handshake. repeat emits_step; exact I. Qed.

End HandshakeSends.

Section SessionSends.

Variable b64decode : json -> result (list byte).
Variable w : nat.
Variable cid : string.
Variable env : session_env.

(** What runs after the handshake sends no initiation config. *)
Lemma pumps_not_config (h : key * bool) :
  emits (S := gmap key conversation) not_config
    (if snd h then
       let* ends :=
         try_except
           (gather (e_schedule env)
              (handle_client_audio (e_client_steps env)
                 (e_open_at_exit env) (e_upstream_close env))
              (handle_elevenlabs_messages b64decode w (e_upstream_steps env)
                 (e_client_state env) (e_notify env)))
           (fun _ => ret (Stopped, Stopped)) in
       match ends with
       | (Stopped, Stopped) => ret (fst h, Closed)
       | _ => ret (fst h, Relaying)
       end
     else ret (fst h, Closed)).
Proof.
  destruct (snd h); [|apply emits_ret].
  apply emits_bind.
  - apply emits_try_except; [|intros ?; apply emits_ret].
    apply gather_emits.
    + apply handle_client_audio_not_config.
    + apply handle_elevenlabs_messages_not_config.
  - intros [[] []]; apply emits_ret.
Qed.

Lemma cleanup_silent (k : key) : emits not_upstream_send (cleanup w env k).
Proof.
  unfold cleanup, modify.
  apply emits_bind; [intros ?; constructor|]. intros ?.
  repeat emits_step; exact I.
Qed.

(** What the endpoint sends upstream is what [relay] sends on the record
    marked active. *)
Lemma endpoint_sends (reg : gmap key conversation) :
  upstream_sends (trace_of (websocket_endpoint b64decode w cid env reg))
  = match e_accept env, reg !! KStr cid with
    | None, Some c =>
        upstream_sends
          (trace_of (relay b64decode w cid (set_active c w) env
                       (<[KStr cid := set_active c w]> reg)))
    | _, _ => []
    end.
Proof.
  unfold websocket_endpoint. rewrite trace_bind_call. cbn [upstream_sends].
  destruct (e_accept env) as [e|]; [reflexivity|].
  rewrite trace_bind_get.
  destruct (reg !! KStr cid) as [c|].
  - rewrite trace_bind_modify, trace_bind, upstream_sends_app.
    rewrite sends_try_except_silent by (intros; apply emits_ret).
    match goal with
    | |- ?a ++ upstream_sends ?t = ?a =>
        assert (Ht : upstream_sends t = []); [|rewrite Ht; apply app_nil_r]
    end.
    destruct (result_of _) as [p|e]; [|reflexivity].
    destruct (snd p); [reflexivity|].
    rewrite trace_bind, upstream_sends_app.
    rewrite (upstream_sends_silent _ (cleanup_silent _ _)).
    destruct (result_of _); reflexivity.
  - rewrite trace_bind_call. destruct (e_close env); reflexivity.
Qed.

End SessionSends.

(** ** The handshake, case by case *)

Section HandshakeCases.

Variable w : nat.
Variable cid : string.
Variable env : session_env.

(** The handshake in terms of the reading of the metadata. *)
Lemma handshake_unfold (conv : conversation) (reg : gmap key conversation) :
  handshake w cid conv env reg
  = match read_metadata w cid env reg with
    | (Ok (k, true), s1, t1) =>
        match e_send_config env with
        | None => (Ok (k, true), s1, t1 ++ [UpstreamSend (config_json conv)])
        | Some e =>
            (Ok (k, false), s1,
             t1 ++ [UpstreamSend (config_json conv);
                    ClientClose w 1001 (Some (abort_reason e))])
        end
    | (Ok (k, false), s1, t1) => (Ok (k, true), s1, t1)
    | (Raise e, s1, t1) =>
        (Ok (KStr cid, false), s1, t1 ++ [ClientClose w 1001 (Some (abort_reason e))])
    end.
Proof.
  unfold handshake, try_except at 1, bind at 1.
  destruct (read_metadata w cid env reg) as [[[[k go]|e] s1] t1].
  - destruct go; cbn [fst snd].
    + unfold try_except, bind. rewrite init_config_json.
      unfold lift, call, run, abort_handshake, try_except, bind, ret.
      destruct (e_send_config env) as [e|]; cbn [app];
        [destruct (e_close env)|]; rewrite ?app_nil_r, <- ?app_assoc; reflexivity.
    + unfold ret. rewrite app_nil_r. reflexivity.
  - unfold abort_handshake, try_except, bind, call, run, ret.
    destruct (e_close env); rewrite ?app_nil_r; reflexivity.
Qed.

Lemma eq_str_hashable (v : json) (s : string) : eq_str v s = true -> hashable v = true.
Proof. destruct v; cbn; congruence. Qed.

(** What the reading of the metadata gives, by the first message and the
    outcome of its forward to the client, when the record is under [cid]. *)
Lemma read_metadata_cases (reg : gmap key conversation) (c0 : conversation) :
  reg !! KStr cid = Some c0 ->
  match result_of (read_metadata w cid env reg) with
  | Ok (k, true) =>
      returns (e_forward_metadata env) = true /\
      initiation_event (e_first_recv env) = true
  | Ok (k, false) =>
      returns (e_forward_metadata env) = true /\
      other_object (e_first_recv env) = true /\
      initiation_event (e_first_recv env) = false
  | Raise _ =>
      returns (e_forward_metadata env)
      && (initiation_event (e_first_recv env) || other_object (e_first_recv env))
      = false
  end.
Proof.
  intros Hc.
  unfold read_metadata, adopt_real_id, try_except, get_registry, modify. run_eff.
  destruct (e_first_recv env) as [[metadata|raw err]|e]; cbn [json_loads];
    [|apply andb_false_r|apply andb_false_r].
  rewrite json_dumps_of_json. cbn beta iota zeta.
  destruct (e_forward_metadata env) as [e|]; [reflexivity|].
  cbn [returns andb].
  destruct metadata as [| | | | |l|d]; try reflexivity.
  unfold initiation_event, other_object, metadata_type.
  unfold py_get, py_get_default, py_in, py_item.
  destruct (eq_str (default JNull (assoc "type" d)) "conversation_initiation_metadata");
    [|cbn; split; [reflexivity|split; reflexivity]].
  cbn [negb orb andb].
  destruct (assoc "conversation_initiation_metadata_event" d) as [event_data|].
  2:{ rewrite bool_decide_eq_false_2 by (intros [? ?]; discriminate).
      cbn. split; [reflexivity|split; reflexivity]. }
  rewrite bool_decide_eq_true_2 by eauto. cbn beta iota zeta.
  destruct event_data as [| | | |s|l|ev]; try reflexivity; cbn [id_lookup_passes].
  - destruct (is_substring "conversation_id" s); cbn; [reflexivity|].
    split; reflexivity.
  - destruct (existsb _ l); cbn; [reflexivity|]. split; reflexivity.
  - destruct (assoc "conversation_id" ev) as [real|].
    2:{ rewrite bool_decide_eq_false_2 by (intros [? ?]; discriminate).
        cbn. split; reflexivity. }
    rewrite bool_decide_eq_true_2 by eauto. cbn beta iota zeta.
    destruct (eq_str real cid) eqn:Heq; cbn [negb].
    + cbn. rewrite (eq_str_hashable _ _ Heq). split; reflexivity.
    + rewrite Hc.
      destruct real; cbn [hash_key hashable]; cbn beta iota zeta; try reflexivity;
        repeat case_inner; unfold result_of in *; cbn [fst snd andb orb negb] in *;
        try discriminate; try (split; reflexivity);
        match goal with H : Ok _ = Ok _ |- _ => injection H as <- <- end;
        split; reflexivity.
Qed.

Lemma initiation_not_other (first : result text) :
  initiation_event first = true -> other_object first = false.
Proof.
  destruct first as [[[| | | | | |d]|]|]; cbn [initiation_event other_object];
    try discriminate.
  destruct (metadata_type d); [|discriminate].
  destruct (assoc "conversation_initiation_metadata_event" d); [reflexivity|discriminate].
Qed.

(** Whether the reading of the metadata returns, and whether the config is
    then to be sent. *)
Lemma read_metadata_flag (reg : gmap key conversation) (c0 : conversation) :
  reg !! KStr cid = Some c0 ->
  match result_of (read_metadata w cid env reg) with
  | Ok (_, go) => Some go
  | Raise _ => None
  end
  = if returns (e_forward_metadata env) then
      if initiation_event (e_first_recv env) then Some true
      else if other_object (e_first_recv env) then Some false
      else None
    else None.
Proof.
  intros Hc. pose proof (read_metadata_cases reg c0 Hc) as H.
  destruct (result_of (read_metadata w cid env reg)) as [[k [|]]|e].
  - destruct H as [-> ->]. reflexivity.
  - destruct H as (-> & -> & ->). reflexivity.
  - destruct (returns (e_forward_metadata env)); [|reflexivity].
    cbn [andb] in H. apply orb_false_elim in H as [-> ->]. reflexivity.
Qed.

(** What the handshake sends upstream: the config of the record, exactly
    when the first message could be forwarded and is an initiation
    event. *)
Lemma handshake_sends_exact (conv : conversation) (reg : gmap key conversation)
    (c0 : conversation) :
  reg !! KStr cid = Some c0 ->
  upstream_sends (trace_of (handshake w cid conv env reg))
  = if returns (e_forward_metadata env) && initiation_event (e_first_recv env)
    then [config_json conv] else [].
Proof.
  intros Hc. rewrite handshake_unfold.
  pose proof (read_metadata_flag reg c0 Hc) as Hflag.
  pose proof (read_metadata_silent w cid env reg) as Hsilent.
  destruct (read_metadata w cid env reg) as [[[[k go]|e] s1] t1].
  all: unfold result_of, trace_of in *; cbn [fst snd] in *.
  all: apply upstream_sends_silent in Hsilent.
  - destruct (returns (e_forward_metadata env)); [|discriminate].
    destruct (initiation_event (e_first_recv env)).
    + injection Hflag as ->. cbn [andb].
      destruct (e_send_config env); cbn [snd];
        rewrite upstream_sends_app, Hsilent; reflexivity.
    + destruct (other_object (e_first_recv env)); [|discriminate].
      injection Hflag as ->. cbn [snd andb]. exact Hsilent.
  - cbn [snd]. rewrite upstream_sends_app, Hsilent. cbn [upstream_sends app].
    destruct (returns (e_forward_metadata env)); [|reflexivity].
    destruct (initiation_event (e_first_recv env)); [discriminate|reflexivity].
Qed.

(** The handshake starts the pumps exactly when it passes; when it does not,
    its last call is the close with 1001, after handshake calls only. *)
Lemma handshake_outcome (conv : conversation) (reg : gmap key conversation)
    (c0 : conversation) :
  reg !! KStr cid = Some c0 ->
  (exists k, result_of (handshake w cid conv env reg) = Ok (k, handshake_passes env)) /\
  if handshake_passes env
  then Forall handshake_call (trace_of (handshake w cid conv env reg))
  else exists calls reason,
         trace_of (handshake w cid conv env reg)
         = calls ++ [ClientClose w 1001 (Some reason)] /\
         Forall handshake_call calls.
Proof.
  intros Hc. rewrite handshake_unfold. unfold handshake_passes.
  pose proof (read_metadata_flag reg c0 Hc) as Hflag.
  assert (Hcalls : Forall handshake_call (trace_of (read_metadata w cid env reg))).
  { generalize reg. change (emits handshake_call (read_metadata w cid env)).
    unfold read_metadata, adopt_real_id, get_registry, modify.
    repeat first
      [ emits_step
      | match goal with |- emits _ (fun _ => _) => intros ?; constructor end ];
      try exact I. }
  destruct (read_metadata w cid env reg) as [[[[k go]|e] s1] t1].
  all: unfold result_of, trace_of in *; cbn [fst snd] in *.
  - destruct (returns (e_forward_metadata env)); [|discriminate].
    destruct (initiation_event (e_first_recv env)) eqn:Hinit.
    + injection Hflag as ->. rewrite (initiation_not_other _ Hinit). cbn [andb orb].
      destruct (e_send_config env) as [e|]; cbn [returns fst snd].
      * split; [eauto|].
        exists (t1 ++ [UpstreamSend (config_json conv)]), (abort_reason e).
        split; [rewrite <- app_assoc; reflexivity|].
        apply Forall_app. split; [exact Hcalls | repeat constructor].
      * split; [eauto|]. apply Forall_app. split; [exact Hcalls | repeat constructor].
    + destruct (other_object (e_first_recv env)); [|discriminate].
      injection Hflag as ->. cbn [andb orb fst snd]. split; [eauto | exact Hcalls].
  - assert (Hp : returns (e_forward_metadata env)
                 && (other_object (e_first_recv env)
                     || initiation_event (e_first_recv env) && returns (e_send_config env))
                 = false).
    { destruct (returns (e_forward_metadata env)); [|reflexivity].
      destruct (initiation_event (e_first_recv env)); [discriminate|].
      destruct (other_object (e_first_recv env)); [discriminate|reflexivity]. }
    rewrite Hp. cbn [fst snd]. split; [eauto|].
    exists t1, (abort_reason e). split; [reflexivity | exact Hcalls].
Qed.

End HandshakeCases.

Section SessionCases.

Variable b64decode : json -> result (list byte).
Variable w : nat.
Variable cid : string.
Variable env : session_env.

(** What [relay] sends upstream: once connected, what the handshake sends
    and then documents that are no initiation config. *)
Lemma relay_sends_exact (conv : conversation) (reg : gmap key conversation) :
  exists rest,
    Forall (fun j => is_config j = false) rest /\
    upstream_sends (trace_of (relay b64decode w cid conv env reg))
    = match signed_url conv, e_connect env with
      | Some _, None =>
          upstream_sends (trace_of (handshake w cid conv env reg)) ++ rest
      | _, _ => []
      end.
Proof.
  unfold relay. destruct (signed_url conv) as [url|].
  2:{ exists []. split; [constructor|reflexivity]. }
  rewrite trace_bind_call. cbn [upstream_sends].
  destruct (e_connect env) as [e|].
  { exists []. split; [constructor|reflexivity]. }
  rewrite trace_bind, upstream_sends_app.
  destruct (result_of (handshake w cid conv env reg)) as [h|e].
  - eexists. split; [|reflexivity].
    apply upstream_sends_not_config. apply pumps_not_config.
  - exists []. split; [constructor|reflexivity].
Qed.

(** The calls of a session that got as far as the upstream connection: the
    handshake, then the pumps if the handshake started them, then the final
    close if the handler returned. *)
Lemma session_unfold (reg : gmap key conversation) (c : conversation)
    (url : string) :
  e_accept env = None ->
  reg !! KStr cid = Some c ->
  signed_url c = Some url ->
  e_connect env = None ->
  trace_of (websocket_endpoint b64decode w cid env reg)
  = ClientAccept w :: UpstreamConnect url ::
    trace_of (handshake w cid (set_active c w) env (<[KStr cid := set_active c w]> reg))
    ++ match result_of (handshake w cid (set_active c w) env
                          (<[KStr cid := set_active c w]> reg)) with
       | Ok (_, true) =>
           pump_calls b64decode w env
           ++ match result_of (websocket_endpoint b64decode w cid env reg) with
              | Ok Relaying => []
              | _ => [ClientClose w 1000 None]
              end
       | _ => [ClientClose w 1000 None]
       end.
Proof.
  intros Hacc Hc Hurl Hconn.
  unfold websocket_endpoint, relay, cleanup, pump_calls, gather, try_except,
    get_registry, modify, state_truthy, dot_CONNECTED.
  unfold bind, call, run, ret. rewrite Hacc, Hc. cbn [signed_url set_active].
  rewrite Hurl, Hconn.
  destruct (handshake w cid (set_active c w) env (<[KStr cid := set_active c w]> reg))
    as [[[[k go]|e] s] t].
  - destruct go; cbn [fst snd].
    + destruct (handle_client_audio _ _ _ tt) as [[x1 []] t1].
      destruct (handle_elevenlabs_messages _ _ _ _ _ tt) as [[x2 []] t2].
      unfold trace_of, result_of; cbn [fst snd].
      destruct x1 as [[]|], x2 as [[]|]; cbn [fst snd];
        try destruct (e_final_close env); cbn [fst snd app];
        rewrite ?app_nil_r, <- ?app_assoc; reflexivity.
    + unfold trace_of, result_of; cbn [fst snd].
      destruct (e_final_close env); cbn [app]; rewrite ?app_nil_r; reflexivity.
  - unfold trace_of, result_of; cbn [fst snd].
    destruct (e_final_close env); cbn [app]; rewrite ?app_nil_r; reflexivity.
Qed.

End SessionCases.

(** ** The initiation config *)

(** C2 (amended): a session sends at most one initiation config upstream.
    It sends one exactly when the socket is accepted, the registry has a
    record with a signed URL under the socket's id, the upstream connection
    is made, and the first upstream message could be forwarded to the
    client and is an initiation-metadata event ([config_due]); in every
    other case it sends none.  The config it sends carries the overrides of
    that record and is the first document sent upstream: whatever a pump
    forwards comes after it and is no initiation config. *)
Theorem session_sends_config_at_most_once
    (b64decode : json -> result (list byte)) (w : nat) (cid : string)
    (env : session_env) (reg : gmap key conversation) :
  let sends := upstream_sends (trace_of (websocket_endpoint b64decode w cid env reg)) in
  exists rest,
    Forall (fun j => is_config j = false) rest /\
    sends = match config_due cid env reg with
            | Some c => config_json c :: rest
            | None => rest
            end.
Proof.
  cbn zeta. rewrite endpoint_sends. unfold config_due.
  destruct (reg !! KStr cid) as [c|] eqn:Hc.
  2:{ exists []. split; [constructor|]. destruct (e_accept env); reflexivity. }
  destruct (e_accept env) as [e|]; cbn [returns andb].
  { exists []. split; [constructor|reflexivity]. }
  destruct (relay_sends_exact b64decode w cid env (set_active c w)
              (<[KStr cid := set_active c w]> reg)) as (rest & Hrest & ->).
  cbn [signed_url set_active].
  destruct (signed_url c) as [url|].
  2:{ exists []. split; [constructor|].
      rewrite bool_decide_eq_false_2 by (intros [? ?]; discriminate). reflexivity. }
  rewrite bool_decide_eq_true_2 by eauto. cbn [andb].
  destruct (e_connect env) as [e|]; cbn [returns andb].
  { exists []. split; [constructor|reflexivity]. }
  rewrite (handshake_sends_exact w cid env (set_active c w) _ (set_active c w)
             (lookup_insert_eq _ _ _)).
  exists rest. split; [exact Hrest|].
  destruct (returns (e_forward_metadata env) && initiation_event (e_first_recv env));
    reflexivity.
Qed.

Lemma session_sends_config_at_most_once_witness :
  exists rest,
    Forall (fun j => is_config j = false) rest /\
    upstream_sends
      (trace_of (websocket_endpoint b64_unused 7 "conv_u1_1000"
                   (calm_env (Ok (JsonText metadata_abc123)) [audio_text_step])
                   {[ KStr "conv_u1_1000" := pending_record ]}))
    = config_json pending_record :: rest.
Proof.
  exact (session_sends_config_at_most_once b64_unused 7 "conv_u1_1000"
           (calm_env (Ok (JsonText metadata_abc123)) [audio_text_step])
           {[ KStr "conv_u1_1000" := pending_record ]}).
Defined.


(** C2 as stated fails: when the initiation metadata comes without its event
    field, no initiation config is sent, the pumps are started all the same
    and client audio is forwarded upstream. *)
Lemma session_without_config :
  let env := calm_env (Ok (JsonText metadata_without_event)) [audio_text_step] in
  let reg : gmap key conversation := {[ KStr "conv_u1_1000" := pending_record ]} in
  let sends := upstream_sends
                 (trace_of (websocket_endpoint b64_unused 7 "conv_u1_1000" env reg)) in
  sends = [JObj [("user_audio_chunk", JStr "AAAA")]] /\
  ~ exactly_one_config_first sends.
Proof.
  cbn zeta.
  assert (Heq : upstream_sends
                  (trace_of (websocket_endpoint b64_unused 7 "conv_u1_1000"
                               (calm_env (Ok (JsonText metadata_without_event))
                                  [audio_text_step])
                               {[ KStr "conv_u1_1000" := pending_record ]}))
                = [JObj [("user_audio_chunk", JStr "AAAA")]]).
  { vm_compute. reflexivity. }
  rewrite Heq. split; [reflexivity|].
  intros (cfg & rest & Hs & Hcfg & _). injection Hs as <- _. discriminate Hcfg.
Qed.

(** The whole session after a first message of another type: the message is
    forwarded to the client, no config is sent, and the client pump relays
    what it receives. *)
Example session_after_wrong_type_metadata :
  websocket_endpoint b64_unused 7 "conv_u1_1000"
    (calm_env (Ok (JsonText metadata_wrong_type)) [audio_text_step])
    {[ KStr "conv_u1_1000" := pending_record ]}
  = (Ok Relaying,
     {[ KStr "conv_u1_1000" := set_active pending_record 7 ]},
     [ClientAccept 7;
      UpstreamConnect "wss://upstream/?token=t";
      ClientSendJson 7 metadata_wrong_type;
      UpstreamSend (JObj [("user_audio_chunk", JStr "AAAA")])]).
Proof. vm_compute. reflexivity. Qed.

(** ** A handshake that fails *)

(** C3 (amended): a session whose handshake does not pass is aborted.  On a
    session that got as far as the upstream connection: when the handshake
    does not pass (the first message is not received or does not decode,
    cannot be forwarded to the client, is no JSON object, is an
    initiation-metadata object on whose event field the id lookup raises,
    or the send of the config raises), the handshake ends with the close of
    the client socket with 1001 and a reason, and all the session does
    after it is the final close: neither pump makes a call.  When the
    handshake passes, which it does on an object of another type and on an
    initiation-metadata object without the event field, it closes nothing
    and the calls of the two pumps follow.  On a read that timed out or
    raised, or text that does not decode, the session is the accept, the
    connection, the close with 1001 and the reason of the exception, and
    the final close. *)
Theorem failed_handshake_is_fatal
    (b64decode : json -> result (list byte)) (w : nat) (cid : string)
    (env : session_env) (reg : gmap key conversation)
    (c : conversation) (url : string) :
  e_accept env = None ->
  reg !! KStr cid = Some c ->
  signed_url c = Some url ->
  e_connect env = None ->
  let session := websocket_endpoint b64decode w cid env reg in
  let hs := handshake w cid (set_active c w) env
              (<[KStr cid := set_active c w]> reg) in
  (handshake_passes env = false ->
     (exists calls reason,
        trace_of hs = calls ++ [ClientClose w 1001 (Some reason)] /\
        Forall handshake_call calls) /\
     trace_of session
     = ClientAccept w :: UpstreamConnect url :: trace_of hs
       ++ [ClientClose w 1000 None]) /\
  (handshake_passes env = true ->
     Forall handshake_call (trace_of hs) /\
     exists closing,
       (closing = [] \/ closing = [ClientClose w 1000 None]) /\
       trace_of session
       = ClientAccept w :: UpstreamConnect url :: trace_of hs
         ++ pump_calls b64decode w env ++ closing) /\
  (forall e, unreadable env e ->
     handshake_passes env = false /\
     trace_of session
     = [ClientAccept w; UpstreamConnect url;
        ClientClose w 1001 (Some (abort_reason e));
        ClientClose w 1000 None]).
Proof.
  intros Hacc Hc Hurl Hconn. cbn zeta.
  rewrite (session_unfold b64decode w cid env reg c url Hacc Hc Hurl Hconn).
  destruct (handshake_outcome w cid env (set_active c w)
              (<[KStr cid := set_active c w]> reg) (set_active c w)
              (lookup_insert_eq _ _ _)) as ([k Hres] & Htrace).
  rewrite Hres.
  split; [|split].
  - intros Hp. rewrite Hp in *. split; [exact Htrace | reflexivity].
  - intros Hp. rewrite Hp in *. split; [exact Htrace|].
    eexists. split; [|reflexivity].
    destruct (result_of (websocket_endpoint b64decode w cid env reg)) as [[]|];
      auto.
  - intros e Hun.
    assert (Hp : handshake_passes env = false).
    { unfold handshake_passes.
      destruct Hun as [Hr | (raw & err & Hr & _)]; rewrite Hr;
        cbn [other_object initiation_event andb orb]; apply andb_false_r. }
    split; [exact Hp|]. rewrite Hp.
    rewrite (unreadable_metadata_aborts_handshake w cid (set_active c w) env
               (<[KStr cid := set_active c w]> reg) e Hun).
    reflexivity.
Qed.

Lemma failed_handshake_is_fatal_witness :
  trace_of (websocket_endpoint b64_unused 7 "conv_u1_1000"
              (calm_env (Raise (Exn TimeoutError "")) [audio_text_step])
              {[ KStr "conv_u1_1000" := pending_record ]})
  = [ClientAccept 7; UpstreamConnect "wss://upstream/?token=t";
     ClientClose 7 1001 (Some (abort_reason (Exn TimeoutError "")));
     ClientClose 7 1000 None].
Proof.
  assert (Hreg : ({[ KStr "conv_u1_1000" := pending_record ]}
                    : gmap key conversation) !! KStr "conv_u1_1000"
                 = Some pending_record) by (vm_compute; reflexivity).
  apply (proj2 (proj2 (failed_handshake_is_fatal b64_unused 7 "conv_u1_1000"
                         (calm_env (Raise (Exn TimeoutError "")) [audio_text_step])
                         {[ KStr "conv_u1_1000" := pending_record ]}
                         pending_record "wss://upstream/?token=t"
                         eq_refl Hreg eq_refl eq_refl))
           (Exn TimeoutError "")).
  left. reflexivity.
Defined.

(** C3 as stated fails: a first message that decodes to an object of
    another type is forwarded to the client and nothing more; the client
    socket is not closed, and the pumps run: the audio that the client
    sends next is forwarded upstream. *)
Lemma wrong_type_metadata_is_not_fatal :
  let out := websocket_endpoint b64_unused 7 "conv_u1_1000"
               (calm_env (Ok (JsonText metadata_wrong_type)) [audio_text_step])
               {[ KStr "conv_u1_1000" := pending_record ]} in
  result_of out = Ok Relaying /\
  trace_of out
  = [ClientAccept 7; UpstreamConnect "wss://upstream/?token=t";
     ClientSendJson 7 metadata_wrong_type;
     UpstreamSend (JObj [("user_audio_chunk", JStr "AAAA")])] /\
  (forall code reason, ~ In (ClientClose 7 code reason) (trace_of out)).
Proof.
  cbn zeta.
  assert (Heq : websocket_endpoint b64_unused 7 "conv_u1_1000"
                  (calm_env (Ok (JsonText metadata_wrong_type)) [audio_text_step])
                  {[ KStr "conv_u1_1000" := pending_record ]}
                = (Ok Relaying,
                   {[ KStr "conv_u1_1000" := set_active pending_record 7 ]},
                   [ClientAccept 7; UpstreamConnect "wss://upstream/?token=t";
                    ClientSendJson 7 metadata_wrong_type;
                    UpstreamSend (JObj [("user_audio_chunk", JStr "AAAA")])])).
  { vm_compute. reflexivity. }
  rewrite Heq. split; [reflexivity|]. split; [reflexivity|].
  intros code reason Hin. cbn in Hin.
  destruct Hin as [H|[H|[H|[H|[]]]]]; discriminate H.
Qed.


(** ** The id in a signed URL *)

Lemma split_nonempty (sep : ascii) (s : string) : split sep s <> [].
Proof.
  destruct s as [|c s]; cbn [split]; [discriminate|].
  destruct (Ascii.eqb c sep); [discriminate|].
  destruct (split sep s); discriminate.
Qed.

(** Splitting at a separator splits the text before it and the text after
    it. *)
Lemma split_app_sep (sep : ascii) (a b : string) :
  split sep (a +:+ String sep b) = split sep a ++ split sep b.
Proof.
  induction a as [|c a IH].
  - change ("" +:+ String sep b) with (String sep b). cbn [split app].
    rewrite Ascii.eqb_refl. reflexivity.
  - change (String c a +:+ String sep b) with (String c (a +:+ String sep b)).
    cbn [split].
    destruct (Ascii.eqb c sep); [rewrite IH; reflexivity|].
    rewrite IH. pose proof (split_nonempty sep a) as Hne.
    destruct (split sep a) as [|p ps]; [congruence|]. reflexivity.
Qed.

Lemma split_free (sep : ascii) (s : string) :
  free_of sep s -> split sep s = [s].
Proof.
  induction s as [|c s IH]; cbn [free_of split]; [reflexivity|].
  intros [Hc Hs]. rewrite (proj2 (Ascii.eqb_neq c sep) Hc).
  rewrite (IH Hs). reflexivity.
Qed.

Lemma join_cons_char (sep c : ascii) (p : string) (ps : list string) :
  join sep (String c p :: ps) = String c (join sep (p :: ps)).
Proof. destruct ps; reflexivity. Qed.

(** Joining the parts of a split with the separator gives the text back,
    and the split never gives an empty list. *)
Lemma join_split (sep : ascii) (s : string) :
  join sep (split sep s) = s /\ split sep s <> [].
Proof.
  split; [|apply split_nonempty].
  induction s as [|c s IH]; cbn [split]; [reflexivity|].
  pose proof (split_nonempty sep s) as Hne.
  destruct (Ascii.eqb c sep) eqn:Hc.
  - apply Ascii.eqb_eq in Hc. subst c.
    destruct (split sep s) as [|p ps] eqn:Hs; [congruence|].
    change (join sep ("" :: p :: ps)) with (String sep (join sep (p :: ps))).
    rewrite IH. reflexivity.
  - destruct (split sep s) as [|p ps] eqn:Hs; [congruence|].
    rewrite join_cons_char, IH. reflexivity.
Qed.

Lemma prefix_append (s v : string) : String.prefix s (s +:+ v) = true.
Proof.
  induction s as [|c s IH]; [destruct v; reflexivity|].
  change (String c s +:+ v) with (String c (s +:+ v)). cbn [String.prefix].
  destruct (ascii_dec c c); [exact IH | congruence].
Qed.

Lemma url_conversation_id_skip (pre rest : list string) :
  no_id_part pre ->
  url_conversation_id (pre ++ rest) = url_conversation_id rest.
Proof.
  induction 1 as [|p pre Hp _ IH]; [reflexivity|].
  cbn [app url_conversation_id]. rewrite Hp. exact IH.
Qed.

(** X1: the id taken from the parts of a signed URL is the value of the
    first [conversation_id=] parameter, when that value has no [=] in it;
    parts before it that are no such parameter and parts after it do not
    matter.  With no such parameter at all there is no id. *)
Theorem url_conversation_id_found (pre post : list string) (v : string) :
  no_id_part pre ->
  free_of "="%char v ->
  url_conversation_id (pre ++ ("conversation_id=" +:+ v) :: post) = Some v /\
  url_conversation_id pre = None.
Proof.
  intros Hpre Hv. split.
  - rewrite (url_conversation_id_skip pre _ Hpre).
    cbn [url_conversation_id].
    rewrite prefix_append.
    change ("conversation_id=" +:+ v)
      with ("conversation_id" +:+ String "="%char v).
    rewrite split_app_sep. rewrite (split_free _ v Hv). reflexivity.
  - rewrite <- (app_nil_r pre). rewrite (url_conversation_id_skip pre [] Hpre).
    reflexivity.
Qed.

Lemma url_conversation_id_found_witness :
  url_conversation_id (["wss://api.example/v1/convai/conversation?agent_id=a"]
                       ++ ("conversation_id=" +:+ "abc123") :: ["token=t"])
  = Some "abc123" /\
  url_conversation_id ["wss://api.example/v1/convai/conversation?agent_id=a"] = None.
Proof.
  apply (url_conversation_id_found
           ["wss://api.example/v1/convai/conversation?agent_id=a"] ["token=t"] "abc123").
  - repeat constructor.
  - cbn. repeat split; discriminate.
Defined.

(** ** Starting a call *)

(** X2: [initiate_call] never raises and makes no socket call; whenever its
    answer is not 200 the registry is as it was; and when the provisioning
    request is answered with a status other than 200, that status is the
    status of the answer. *)
Theorem initiate_call_failure_is_answered
    (request : InitiateCallRequest) (default_agent : option string)
    (get : result http_reply) (now : Q) (reg : gmap key conversation) :
  let out := initiate_call request default_agent get now reg in
  exists r,
    result_of out = Ok r /\
    trace_of out = [] /\
    (resp_status r <> 200%Z -> state_of out = reg) /\
    (forall resp, get = Ok resp -> http_status (reply resp) <> 200%Z ->
       resp_status r = http_status (reply resp) /\ state_of out = reg).
Proof.
  unfold initiate_call, try_except. run_eff.
  destruct get as [resp|e]; cbn beta iota zeta.
  2:{ eexists. unfold result_of, state_of, trace_of; cbn [fst snd resp_status].
      split; [reflexivity|]. split; [reflexivity|]. split; [reflexivity|].
      intros resp' Heq. discriminate Heq. }
  destruct (Z.eqb_spec (http_status (reply resp)) 200) as [Hs|Hs]; cbn [negb].
  2:{ eexists. unfold result_of, state_of, trace_of; cbn [fst snd resp_status].
      split; [reflexivity|]. split; [reflexivity|]. split; [reflexivity|].
      intros resp' Heq _. injection Heq as <-. split; reflexivity. }
  unfold modify.
  repeat case_inner;
    eexists; unfold result_of, state_of, trace_of; cbn [fst snd resp_status];
    (split; [reflexivity|]); (split; [reflexivity|]);
    (split; [first [reflexivity | intros Hne; exfalso; apply Hne; reflexivity]|]);
    intros resp' Heq Hne; injection Heq as <-; congruence.
Qed.

Lemma initiate_call_failure_is_answered_witness :
  let out := initiate_call call_request None
               (Ok {| reply := {| http_status := 401;
                                  http_body := BadText "Unauthorized" "Expecting value" |};
                      reply_text := "Unauthorized" |})
               (inject_Z 1000) ∅ in
  exists r, result_of out = Ok r /\ resp_status r = 401%Z /\ state_of out = ∅.
Proof.
  destruct (initiate_call_failure_is_answered call_request None
              (Ok {| reply := {| http_status := 401;
                                 http_body := BadText "Unauthorized" "Expecting value" |};
                     reply_text := "Unauthorized" |})
              (inject_Z 1000) ∅) as (r & Hr & _ & _ & H).
  exists r. split; [exact Hr|]. apply (H _ eq_refl). discriminate.
Defined.

(** X3: when provisioning succeeds, the call is registered as a pending record
    that carries the request's user, first message and language, the
    request's agent or else the default one, and the signed URL; it has no
    socket and is still to be written to the database.  The id is the one
    in the URL if there is a non-empty one, else [conv_<user>_<seconds>];
    it is the id of the answer, and the other records are untouched. *)
Theorem initiate_call_registers_pending
    (request : InitiateCallRequest) (default_agent : option string)
    (resp : http_reply) (now : Q) (reg : gmap key conversation)
    (d : list (string * json)) (signed : string) :
  http_status (reply resp) = 200%Z ->
  http_body (reply resp) = JsonText (JObj d) ->
  assoc "signed_url" d = Some (JStr signed) ->
  let out := initiate_call request default_agent (Ok resp) now reg in
  exists cid,
    (forall v, url_conversation_id (split "&"%char signed) = Some v ->
               v <> "" -> cid = v) /\
    (truthy (url_conversation_id (split "&"%char signed)) = false ->
     cid = "conv_" +:+ call_user_id request +:+ "_" +:+ str_int (int_float now)) /\
    result_of out = Ok (call_response cid) /\
    state_of out !! KStr cid
    = Some {| user_id := call_user_id request;
              agent_id := if truthy (call_agent_id request)
                          then call_agent_id request else default_agent;
              status := pending;
              first_message := call_first_message request;
              system_prompt := None; websocket := None;
              signed_url := Some signed; needs_db_storage := true;
              language := call_language request;
              notification_title := None; notification_body := None;
              created_at := None; conversation_id := None |} /\
    (forall k, k <> KStr cid -> state_of out !! k = reg !! k).
Proof.
  intros Hs Hbody Hurl.
  unfold initiate_call, try_except, modify. run_eff.
  rewrite Hs, Hbody. cbn [Z.eqb Pos.eqb negb json_loads py_item].
  rewrite Hurl. cbn beta iota zeta.
  unfold result_of, state_of; cbn [fst snd].
  eexists. split; [|split; [|split; [reflexivity|split]]].
  - intros v Hv Hne. rewrite Hv. cbn [truthy].
    rewrite (proj2 (String.eqb_neq v "") Hne). reflexivity.
  - intros Hf. rewrite Hf. reflexivity.
  - apply lookup_insert_eq.
  - intros k Hk. apply lookup_insert_ne. congruence.
Qed.

Lemma initiate_call_registers_pending_witness :
  let out := initiate_call call_request (Some "agent_default")
               (Ok (provisioned "wss://x/y?agent_id=a&conversation_id=abc123"))
               (inject_Z 1000) ∅ in
  result_of out = Ok (call_response "abc123") /\
  exists c, state_of out !! KStr "abc123" = Some c /\
            agent_id c = Some "agent_default" /\ status c = pending.
Proof.
  destruct (initiate_call_registers_pending call_request (Some "agent_default")
              (provisioned "wss://x/y?agent_id=a&conversation_id=abc123")
              (inject_Z 1000) ∅
              [("signed_url", JStr "wss://x/y?agent_id=a&conversation_id=abc123")]
              "wss://x/y?agent_id=a&conversation_id=abc123"
              eq_refl eq_refl eq_refl)
    as (cid & Hfound & _ & Hres & Hreg & _).
  rewrite (Hfound "abc123" eq_refl ltac:(discriminate)) in Hres, Hreg.
  split; [exact Hres|]. eexists. split; [exact Hreg|]. split; reflexivity.
Defined.

(** ** Accepting a notification *)

(** X4: accepting a pending notification for which provisioning succeeds takes
    the record away from the notification id and puts it under the call id:
    the id in the signed URL if there is a non-empty one, else
    [conv_<user>_<agent>].  The moved record is pending, holds the signed
    URL and the call id, and keeps user, agent, first message and system
    prompt; the answer carries the call id and the two texts; no other
    record is touched. *)
Theorem accept_notification_moves_record
    (notification_id : string) (resp : http_response)
    (reg : gmap key conversation) (c : conversation)
    (d : list (string * json)) (signed : string) :
  reg !! KStr notification_id = Some c ->
  status c = pending_notification ->
  http_status resp = 200%Z ->
  http_body resp = JsonText (JObj d) ->
  assoc "signed_url" d = Some (JStr signed) ->
  let out := accept_notification notification_id (Ok resp) reg in
  exists cid,
    (forall v, url_conversation_id (split "&"%char signed) = Some v ->
               v <> "" -> cid = v) /\
    (truthy (url_conversation_id (split "&"%char signed)) = false ->
     cid = "conv_" +:+ user_id c +:+ "_" +:+ fmt (agent_id c)) /\
    result_of out = Ok (accepted_response cid c) /\
    trace_of out = [] /\
    state_of out !! KStr notification_id = None /\
    (cid <> notification_id ->
     exists c', state_of out !! KStr cid = Some c' /\
                status c' = pending /\
                signed_url c' = Some signed /\
                conversation_id c' = Some cid /\
                user_id c' = user_id c /\ agent_id c' = agent_id c /\
                first_message c' = first_message c /\
                system_prompt c' = system_prompt c) /\
    (forall k, k <> KStr cid -> k <> KStr notification_id ->
               state_of out !! k = reg !! k).
Proof.
  intros Hc Hst Hs Hbody Hurl.
  unfold accept_notification, try_except, get_registry, modify. run_eff.
  rewrite Hc. rewrite bool_decide_eq_true_2 by exact Hst. cbn [negb].
  rewrite Hs, Hbody. cbn [Z.eqb Pos.eqb negb json_loads py_item].
  rewrite Hurl. cbn beta iota zeta.
  unfold result_of, state_of, trace_of; cbn [fst snd].
  eexists. split; [|split; [|split; [reflexivity|split; [reflexivity|split; [|split]]]]].
  - intros v Hv Hne. rewrite Hv. cbn [truthy].
    rewrite (proj2 (String.eqb_neq v "") Hne). reflexivity.
  - intros Hf. rewrite Hf. reflexivity.
  - apply lookup_delete_eq.
  - intros Hne. eexists. split.
    + rewrite lookup_delete_ne by congruence. apply lookup_insert_eq.
    + repeat split.
  - intros k Hk1 Hk2. rewrite lookup_delete_ne by congruence.
    apply lookup_insert_ne. congruence.
Qed.

Lemma accept_notification_moves_record_witness :
  let reg : gmap key conversation := {[ KStr "notif_u1_1000" := notified_record ]} in
  let out := accept_notification "notif_u1_1000"
               (Ok {| http_status := 200;
                      http_body := JsonText (JObj [("signed_url",
                        JStr "wss://x/y?agent_id=a&conversation_id=abc123")]) |})
               reg in
  result_of out = Ok (accepted_response "abc123" notified_record) /\
  state_of out !! KStr "notif_u1_1000" = None /\
  exists c', state_of out !! KStr "abc123" = Some c' /\
             first_message c' = Some "Time for your walk" /\
             system_prompt c' = Some "Be kind".
Proof.
  assert (Hreg : ({[ KStr "notif_u1_1000" := notified_record ]}
                    : gmap key conversation) !! KStr "notif_u1_1000"
                 = Some notified_record) by (vm_compute; reflexivity).
  destruct (accept_notification_moves_record "notif_u1_1000"
              {| http_status := 200;
                 http_body := JsonText (JObj [("signed_url",
                   JStr "wss://x/y?agent_id=a&conversation_id=abc123")]) |}
              {[ KStr "notif_u1_1000" := notified_record ]} notified_record
              [("signed_url", JStr "wss://x/y?agent_id=a&conversation_id=abc123")]
              "wss://x/y?agent_id=a&conversation_id=abc123"
              Hreg eq_refl eq_refl eq_refl eq_refl)
    as (cid & Hfound & _ & Hres & _ & Hold & Hnew & _).
  rewrite (Hfound "abc123" eq_refl ltac:(discriminate)) in Hres, Hnew.
  split; [exact Hres|]. split; [exact Hold|].
  destruct (Hnew ltac:(discriminate)) as (c' & Hc' & _ & _ & _ & _ & _ & Hfm & Hsp).
  exists c'. split; [exact Hc'|]. split; [exact Hfm | exact Hsp].
Defined.

(** X5: accepting a pending notification makes no socket call and either
    succeeds or raises the 500 exception with the registry as it was.  A
    provisioning answer with a status other than 200 gives the 500
    exception, not that status: the exception raised for it is caught by
    the handler's own [except Exception]. *)
Theorem accept_notification_failure_is_500
    (notification_id : string) (get : result http_response)
    (reg : gmap key conversation) (c : conversation) :
  reg !! KStr notification_id = Some c ->
  status c = pending_notification ->
  let out := accept_notification notification_id get reg in
  trace_of out = [] /\
  ((exists body, result_of out = Ok (JSONResponse body 200)) \/
   (exists detail, result_of out = Raise (Exn (HTTPException 500) detail) /\
                   state_of out = reg)) /\
  (forall resp, get = Ok resp -> http_status resp <> 200%Z ->
     exists detail, result_of out = Raise (Exn (HTTPException 500) detail) /\
                    state_of out = reg).
Proof.
  intros Hc Hst.
  unfold accept_notification, try_except, get_registry, modify, internal_error.
  run_eff.
  rewrite Hc. rewrite bool_decide_eq_true_2 by exact Hst. cbn [negb].
  destruct get as [resp|e]; cbn beta iota zeta.
  2:{ unfold result_of, state_of, trace_of; cbn [fst snd].
      split; [reflexivity|]. split; [right; eauto|].
      intros resp Heq. discriminate Heq. }
  destruct (Z.eqb_spec (http_status resp) 200) as [Hs|Hs]; cbn [negb].
  2:{ unfold result_of, state_of, trace_of; cbn [fst snd].
      split; [reflexivity|]. split; [right; eauto|].
      intros resp' Heq _. eauto. }
  repeat case_inner; unfold result_of, state_of, trace_of; cbn [fst snd];
    (split; [reflexivity|]);
    (split; [first [left; eexists; reflexivity | right; eauto]|]);
    intros resp' Heq Hne; injection Heq as <-; congruence.
Qed.

Lemma accept_notification_failure_is_500_witness :
  let reg : gmap key conversation := {[ KStr "notif_u1_1000" := notified_record ]} in
  let out := accept_notification "notif_u1_1000"
               (Ok {| http_status := 401; http_body := BadText "Unauthorized" "Expecting value" |})
               reg in
  exists detail, result_of out = Raise (Exn (HTTPException 500) detail) /\
                 state_of out = reg.
Proof.
  cbn zeta.
  assert (Hreg : ({[ KStr "notif_u1_1000" := notified_record ]}
                    : gmap key conversation) !! KStr "notif_u1_1000"
                 = Some notified_record) by (vm_compute; reflexivity).
  apply (proj2 (proj2 (accept_notification_failure_is_500 "notif_u1_1000"
           (Ok {| http_status := 401;
                  http_body := BadText "Unauthorized" "Expecting value" |})
           {[ KStr "notif_u1_1000" := notified_record ]} notified_record
           Hreg eq_refl))
         {| http_status := 401; http_body := BadText "Unauthorized" "Expecting value" |}
         eq_refl).
  discriminate.
Defined.

(** ** The relay socket: registry and database *)

Lemma hash_key_other (real : json) (cid : string) (k : key) :
  negb (eq_str real cid) = true -> hash_key real = Ok k -> k <> KStr cid.
Proof.
  destruct real; cbn [eq_str hash_key negb]; intros Hne [= <-]; try discriminate.
  intros [= ->]. rewrite String.eqb_refl in Hne. discriminate.
Qed.

Section HandshakeState.

Variable w : nat.
Variable cid : string.
Variable conv : conversation.
Variable env : session_env.

Ltac solve_rekeyed :=
  first
    [ left; split; reflexivity
    | right; split; [eapply hash_key_other; eassumption|];
      split;
      [ rewrite ?lookup_insert_ne by (eapply hash_key_other; eassumption);
        apply lookup_delete_eq
      | intros k' Hk1 Hk2;
        rewrite ?lookup_insert_ne by congruence;
        rewrite lookup_delete_ne by congruence;
        rewrite ?lookup_insert_ne by congruence; reflexivity ] ].

(** The handshake never raises; it leaves the registry as it was, or with
    the record moved from the id of the socket to the id it adopted. *)
Lemma handshake_state (reg : gmap key conversation) :
  exists k b,
    result_of (handshake w cid conv env reg) = Ok (k, b) /\
    rekeyed_or_same cid reg k (state_of (handshake w cid conv env reg)).
Proof.
  unfold handshake, read_metadata, adopt_real_id, abort_handshake, try_except.
  unfold get_registry, modify. run_eff. unfold rekeyed_or_same.
  repeat case_inner; unfold result_of, state_of; cbn [fst snd];
    eexists _, _; (split; [reflexivity|]); solve_rekeyed.
Qed.

End HandshakeState.

(** ** The relay socket: what is left when the handler returns *)

Lemma cleanup_state (w : nat) (env : session_env) (k : key)
    (s : gmap key conversation) :
  state_of (cleanup w env k s) = delete k s.
Proof.
  unfold cleanup, modify. run_eff. unfold state_truthy, dot_CONNECTED.
  destruct (e_final_close env); reflexivity.
Qed.

Lemma rekeyed_or_same_closed (cid : string) (reg s : gmap key conversation)
    (k : key) (c : conversation) :
  rekeyed_or_same cid (<[KStr cid := c]> reg) k s ->
  delete k s ⊆ delete (KStr cid) reg.
Proof.
  intros [[-> ->] | (Hk & Hcid & Hrest)].
  - rewrite delete_insert_eq. reflexivity.
  - apply map_subseteq_spec. intros i x Hi.
    destruct (decide (i = k)) as [->|Hik].
    { rewrite lookup_delete_eq in Hi. discriminate. }
    rewrite lookup_delete_ne in Hi by congruence.
    destruct (decide (i = KStr cid)) as [->|Hic]; [congruence|].
    rewrite lookup_delete_ne by congruence.
    rewrite Hrest in Hi by assumption.
    rewrite lookup_insert_ne in Hi by congruence. exact Hi.
Qed.

Section RelayState.

Variable b64decode : json -> result (list byte).
Variable w : nat.
Variable cid : string.
Variable conv : conversation.
Variable env : session_env.

(** The pumps do not touch the registry: after [relay] it is as the
    handshake left it, and as it was if [relay] raised. *)
Lemma relay_state (reg : gmap key conversation) :
  (exists k e, result_of (relay b64decode w cid conv env reg) = Ok (k, e) /\
               rekeyed_or_same cid reg k (state_of (relay b64decode w cid conv env reg))) \/
  (exists e, result_of (relay b64decode w cid conv env reg) = Raise e /\
             state_of (relay b64decode w cid conv env reg) = reg).
Proof.
  unfold relay. destruct (signed_url conv) as [url|].
  2:{ right. eexists. split; reflexivity. }
  destruct (handshake_state w cid conv env reg) as (k & b & Hr & Hs).
  unfold bind, call, run, try_except, gather, ret.
  destruct (e_connect env) as [e|].
  { right. eexists. split; reflexivity. }
  destruct (handshake w cid conv env reg) as [[r s] t].
  unfold result_of, state_of in Hr, Hs; cbn [fst snd] in Hr, Hs. subst r.
  cbn [snd fst]. left. destruct b.
  - destruct (handle_client_audio _ _ _ tt) as [[x1 []] t1].
    destruct (handle_elevenlabs_messages _ _ _ _ _ tt) as [[x2 []] t2].
    destruct x1 as [[]|], x2 as [[]|]; unfold result_of, state_of; cbn [fst snd];
      eexists _, _; (split; [reflexivity|exact Hs]).
  - unfold result_of, state_of; cbn [fst snd].
    eexists _, _. split; [reflexivity|exact Hs].
Qed.

End RelayState.

(** X6: once the handler of the relay socket has returned or raised after
    the accept, the registry holds no record under the id the socket was
    opened with and no record that was not there before: the [finally]
    block removes the record under the current value of [conversation_id],
    which after a rekey is the upstream's id, whose former record, if any,
    is gone as well. *)
Theorem returned_endpoint_leaves_no_record
    (b64decode : json -> result (list byte)) (w : nat) (cid : string)
    (env : session_env) (reg : gmap key conversation) :
  e_accept env = None ->
  let out := websocket_endpoint b64decode w cid env reg in
  result_of out <> Ok Relaying ->
  state_of out ⊆ delete (KStr cid) reg.
Proof.
  intros Hacc. unfold websocket_endpoint.
  unfold bind, call, run, get_registry, modify, try_except, ret. rewrite Hacc.
  destruct (reg !! KStr cid) as [c|] eqn:Hc.
  2:{ intros _. destruct (e_close env);
      unfold state_of; cbn [fst snd]; rewrite delete_id by exact Hc; reflexivity. }
  destruct (relay_state b64decode w cid (set_active c w) env (<[KStr cid := set_active c w]> reg))
    as [(k & e & Hr & Hs) | (e & Hr & Hs)];
    destruct (relay b64decode w cid (set_active c w) env (<[KStr cid := set_active c w]> reg))
      as [[r s] t];
    unfold result_of, state_of in Hr, Hs; cbn [fst snd] in Hr, Hs; subst r;
    cbn [fst snd].
  - destruct e.
    + cbn. intros H. exfalso. apply H. reflexivity.
    + intros _.
      pose proof (cleanup_state w env k s) as Hcl.
      destruct (cleanup w env k s) as [[r' s'] t'].
      unfold state_of in Hcl; cbn [fst snd] in Hcl. subst s'.
      assert (Hsub := rekeyed_or_same_closed _ _ _ _ _ Hs).
      destruct r'; unfold state_of; cbn [fst snd]; exact Hsub.
  - subst s. intros _.
    pose proof (cleanup_state w env (KStr cid) (<[KStr cid := set_active c w]> reg)) as Hcl.
    destruct (cleanup w env (KStr cid) _) as [[r' s'] t'].
    unfold state_of in Hcl; cbn [fst snd] in Hcl. subst s'.
    rewrite delete_insert_eq.
    destruct r'; unfold state_of; cbn [fst snd]; reflexivity.
Qed.

Lemma returned_endpoint_leaves_no_record_witness :
  state_of (websocket_endpoint b64_unused 7 "conv_u1_1000" hangup_env
              {[ KStr "conv_u1_1000" := pending_record;
                 KStr "abc123" := notified_record ]})
  ⊆ delete (KStr "conv_u1_1000")
      {[ KStr "conv_u1_1000" := pending_record;
         KStr "abc123" := notified_record ]}.
Proof.
  apply (returned_endpoint_leaves_no_record b64_unused 7 "conv_u1_1000" hangup_env
           {[ KStr "conv_u1_1000" := pending_record;
              KStr "abc123" := notified_record ]}).
  - reflexivity.
  - vm_compute. discriminate.
Defined.

(** ** The relay socket: the upstream connection and the database *)

Lemma upstream_connects_app (t1 t2 : list event) :
  upstream_connects (t1 ++ t2) = upstream_connects t1 ++ upstream_connects t2.
Proof.
  induction t1 as [|e t1 IH]; [reflexivity|].
  destruct e; cbn [app upstream_connects]; rewrite IH; reflexivity.
Qed.

Lemma upstream_connects_silent (t : list event) :
  Forall not_connect t -> upstream_connects t = [].
Proof.
  induction 1 as [|e t He _ IH]; [reflexivity|].
  destruct e; cbn [upstream_connects]; try exact IH. destruct He.
Qed.

Lemma db_stores_app (t1 t2 : list event) :
  db_stores (t1 ++ t2) = db_stores t1 ++ db_stores t2.
Proof.
  induction t1 as [|e t1 IH]; [reflexivity|].
  destruct e; cbn [app db_stores]; rewrite IH; reflexivity.
Qed.

Lemma db_stores_silent (t : list event) :
  Forall relay_event t -> db_stores t = [].
Proof.
  induction 1 as [|e t He _ IH]; [reflexivity|].
  destruct e; cbn [db_stores]; try exact IH. destruct He.
Qed.

Lemma relay_event_not_connect (t : list event) :
  Forall relay_event t -> Forall not_connect t.
Proof.
  intros H. eapply Forall_impl; [exact H|]. intros []; cbn; tauto.
Qed.

Lemma client_loop_relay_event (steps : list client_step) :
  emits relay_event (client_loop steps).
Proof.
  induction steps as [|st steps IH]; cbn [client_loop].
  - apply emits_ret.
  - apply emits_bind.
    + unfold client_message, on_client_bytes, on_client_text.
      repeat emits_step; exact I.
    + intros []; [exact IH | apply emits_ret | apply emits_ret].
Qed.

Lemma upstream_loop_relay_event (b64decode : json -> result (list byte))
    (w : nat) (steps : list upstream_step) :
  emits relay_event (upstream_loop b64decode w steps).
Proof.
  induction steps as [|st steps IH]; cbn [upstream_loop].
  - apply emits_ret.
  - apply emits_bind.
    + unfold upstream_message, on_upstream_text.
      repeat emits_step; exact I.
    + intros []; [exact IH | apply emits_ret | apply emits_ret].
Qed.

Section SessionCalls.

Variable b64decode : json -> result (list byte).
Variable w : nat.
Variable cid : string.
Variable env : session_env.

(** The handshake makes no upstream connection. *)
Lemma handshake_not_connect (conv : conversation) :
  emits not_connect (handshake w cid conv env).
Proof.
  unfold handshake, read_metadata, adopt_real_id, abort_handshake,
    get_registry, modify.
  repeat first
    [ emits_step
    | match goal with |- emits _ (fun _ => _) => intros ?; constructor end ];
    try exact I.
Qed.

(** What runs after the handshake makes calls of the relay only. *)
Lemma pumps_relay_event (h : key * bool) :
  emits (S := gmap key conversation) relay_event
    (if snd h then
       let* ends :=
         try_except
           (gather (e_schedule env)
              (handle_client_audio (e_client_steps env)
                 (e_open_at_exit env) (e_upstream_close env))
              (handle_elevenlabs_messages b64decode w (e_upstream_steps env)
                 (e_client_state env) (e_notify env)))
           (fun _ => ret (Stopped, Stopped)) in
       match ends with
       | (Stopped, Stopped) => ret (fst h, Closed)
       | _ => ret (fst h, Relaying)
       end
     else ret (fst h, Closed)).
Proof.
  destruct (snd h); [|apply emits_ret].
  apply emits_bind.
  - apply emits_try_except; [|intros ?; apply emits_ret].
    apply gather_emits.
    + unfold handle_client_audio.
      apply emits_bind; [apply client_loop_relay_event|].
      intros ?. repeat emits_step; exact I.
    + unfold handle_elevenlabs_messages.
      apply emits_bind; [apply upstream_loop_relay_event|].
      intros ?. repeat emits_step; exact I.
  - intros [[] []]; apply emits_ret.
Qed.

(** The calls of [relay]: the connection, then the handshake, then the
    pumps. *)
Lemma relay_trace (conv : conversation) (reg : gmap key conversation) :
  exists pumps,
    Forall relay_event pumps /\
    trace_of (relay b64decode w cid conv env reg)
    = match signed_url conv with
      | None => []
      | Some url =>
          UpstreamConnect url ::
          match e_connect env with
          | Some _ => []
          | None => trace_of (handshake w cid conv env reg) ++ pumps
          end
      end.
Proof.
  unfold relay. destruct (signed_url conv) as [url|].
  2:{ exists []. split; [constructor|reflexivity]. }
  rewrite trace_bind_call. destruct (e_connect env) as [e|].
  { exists []. split; [constructor|reflexivity]. }
  rewrite trace_bind.
  destruct (result_of (handshake w cid conv env reg)) as [h|e].
  - eexists. split; [|reflexivity]. apply pumps_relay_event.
  - exists []. split; [constructor|reflexivity].
Qed.

(** The calls of the endpoint: the accept; then for an unknown id the close,
    and for a known one the calls of [relay] and at most the final close. *)
Lemma endpoint_trace (reg : gmap key conversation) :
  exists closing,
    Forall relay_event closing /\
    trace_of (websocket_endpoint b64decode w cid env reg)
    = ClientAccept w ::
      match e_accept env, reg !! KStr cid with
      | Some _, _ => []
      | None, None => [ClientClose w 1000 None]
      | None, Some c =>
          trace_of (relay b64decode w cid (set_active c w) env
                      (<[KStr cid := set_active c w]> reg)) ++ closing
      end.
Proof.
  unfold websocket_endpoint. rewrite trace_bind_call.
  destruct (e_accept env) as [e|].
  { exists []. split; [constructor|reflexivity]. }
  rewrite trace_bind_get.
  destruct (reg !! KStr cid) as [c|].
  2:{ exists []. split; [constructor|]. rewrite trace_bind_call.
      destruct (e_close env); reflexivity. }
  rewrite trace_bind_modify, trace_bind, trace_try_except.
  eexists. split; [|f_equal; rewrite <- app_assoc; reflexivity].
  apply Forall_app. split.
  - destruct (result_of (relay _ _ _ _ _ _)); constructor.
  - destruct (result_of (try_except _ _ _)) as [p|e]; [|constructor].
    destruct (snd p); [constructor|].
    refine (emits_bind relay_event _ _ _ _ _); [|intros ?; apply emits_ret].
    unfold cleanup, modify.
    apply emits_bind; [intros ?; constructor|]. intros ?.
    repeat emits_step; exact I.
Qed.

End SessionCalls.

(** X7: a session connects upstream exactly when the socket is accepted and
    the registry has a record under the socket's id that holds a signed
    URL; it then connects once, to that URL.  A record without one (a
    notification that was not accepted) is not connected. *)
Theorem session_connects_to_signed_url
    (b64decode : json -> result (list byte)) (w : nat) (cid : string)
    (env : session_env) (reg : gmap key conversation) :
  e_accept env = None ->
  upstream_connects (trace_of (websocket_endpoint b64decode w cid env reg))
  = match reg !! KStr cid with
    | Some c => match signed_url c with Some url => [url] | None => [] end
    | None => []
    end.
Proof.
  intros Hacc.
  destruct (endpoint_trace b64decode w cid env reg) as (closing & Hcl & ->).
  rewrite Hacc. cbn [upstream_connects].
  destruct (reg !! KStr cid) as [c|]; [|reflexivity].
  rewrite upstream_connects_app.
  rewrite (upstream_connects_silent closing) by (apply relay_event_not_connect, Hcl).
  rewrite app_nil_r.
  destruct (relay_trace b64decode w cid env (set_active c w)
              (<[KStr cid := set_active c w]> reg)) as (pumps & Hp & ->).
  cbn [signed_url set_active].
  destruct (signed_url c) as [url|]; [|reflexivity].
  cbn [upstream_connects]. f_equal.
  destruct (e_connect env); [reflexivity|].
  rewrite upstream_connects_app.
  rewrite (upstream_connects_silent pumps) by (apply relay_event_not_connect, Hp).
  rewrite app_nil_r. apply upstream_connects_silent, handshake_not_connect.
Qed.

Lemma session_connects_to_signed_url_witness :
  upstream_connects
    (trace_of (websocket_endpoint b64_unused 7 "conv_u1_1000" hangup_env
                 {[ KStr "conv_u1_1000" := pending_record ]}))
  = match ({[ KStr "conv_u1_1000" := pending_record ]} : gmap key conversation)
            !! KStr "conv_u1_1000" with
    | Some c => match signed_url c with Some url => [url] | None => [] end
    | None => []
    end.
Proof.
  apply (session_connects_to_signed_url b64_unused 7 "conv_u1_1000" hangup_env
           {[ KStr "conv_u1_1000" := pending_record ]}).
  reflexivity.
Defined.

Lemma py_item_inv (v : json) (k : string) (x : json) :
  py_item v k = Ok x -> exists d, v = JObj d /\ assoc k d = Some x.
Proof.
  destruct v as [| | | | | |d]; cbn [py_item]; try discriminate.
  destruct (assoc k d) as [y|] eqn:Hy; [|discriminate].
  intros [= ->]. exists d. split; [reflexivity | exact Hy].
Qed.

Lemma eq_str_inv (v : json) (s : string) : eq_str v s = true -> v = JStr s.
Proof.
  destruct v; cbn [eq_str]; try discriminate.
  intros H. apply String.eqb_eq in H. congruence.
Qed.

Section StoreCases.

Variable w : nat.
Variable cid : string.
Variable env : session_env.

(** What the handshake has read when it gets to the lookup of the id. *)
Lemma carries_of (a : text) (metadata ty event_data real : json) :
  e_first_recv env = Ok a ->
  json_loads a = Ok metadata ->
  py_get metadata "type" = Ok ty ->
  eq_str ty "conversation_initiation_metadata" = true ->
  py_item metadata "conversation_initiation_metadata_event" = Ok event_data ->
  py_item event_data "conversation_id" = Ok real ->
  carries_id env real.
Proof.
  intros Hrecv Hload Hty Heq Hev Hid.
  destruct a as [j|raw err]; [|discriminate]. injection Hload as ->.
  apply py_item_inv in Hev as (d & -> & Hev).
  apply py_item_inv in Hid as (ev & -> & Hid).
  cbn [py_get py_get_default] in Hty. injection Hty as <-.
  apply eq_str_inv in Heq.
  exists d, ev. split; [exact Hrecv|]. split; [|split; [exact Hev | exact Hid]].
  destruct (assoc "type" d) as [t|]; cbn in Heq; [congruence | discriminate].
Qed.

(** The handshake writes to the database at most once: when the record
    under [cid] is flagged and the metadata carry another id, under that
    id. *)
Lemma handshake_db_carried (conv : conversation) (reg : gmap key conversation) :
  db_stores (trace_of (handshake w cid conv env reg)) = [] \/
  exists c real k,
    reg !! KStr cid = Some c /\ needs_db_storage c = true /\
    carries_id env real /\ hash_key real = Ok k /\ k <> KStr cid /\
    db_stores (trace_of (handshake w cid conv env reg))
    = [DbStore k (user_id c) (stored_details c (e_now env))].
Proof.
  unfold handshake, read_metadata, adopt_real_id, abort_handshake, try_except.
  unfold get_registry, modify. run_eff.
  repeat case_inner; unfold trace_of; cbn [fst snd app db_stores];
    first [ left; reflexivity
          | right; eexists _, _, _;
            split; [reflexivity|];
            split; [eassumption|];
            split; [eapply carries_of; eassumption|];
            split; [eassumption|];
            split; [eapply hash_key_other; eassumption|reflexivity] ].
Qed.

(** The write is made when the metadata could be forwarded and carry
    another id than [cid], for a record that is flagged. *)
Lemma handshake_db_made (conv : conversation) (reg : gmap key conversation)
    (c : conversation) (real : json) (k : key) :
  reg !! KStr cid = Some c ->
  needs_db_storage c = true ->
  e_forward_metadata env = None ->
  carries_id env real ->
  hash_key real = Ok k ->
  k <> KStr cid ->
  db_stores (trace_of (handshake w cid conv env reg))
  = [DbStore k (user_id c) (stored_details c (e_now env))].
Proof.
  intros Hc Hflag Hfwd (d & ev & Hrecv & Hty & Hev & Hid) Hk Hne.
  assert (Hreal : eq_str real cid = false).
  { destruct (eq_str real cid) eqn:Heq; [|reflexivity].
    apply eq_str_inv in Heq. subst real. cbn in Hk. congruence. }
  unfold handshake, read_metadata, adopt_real_id, abort_handshake, try_except.
  unfold get_registry, modify. run_eff.
  rewrite Hrecv, Hfwd. cbn [json_loads py_get py_get_default py_in py_item].
  rewrite json_dumps_of_json. cbn beta iota zeta.
  rewrite Hty, Hev.
  cbn [from_option id eq_str String.eqb Ascii.eqb Bool.eqb].
  rewrite bool_decide_eq_true_2 by eauto. cbn beta iota zeta.
  cbn [py_in py_item]. rewrite Hid.
  rewrite bool_decide_eq_true_2 by eauto. cbn beta iota zeta.
  rewrite Hreal. cbn [negb]. rewrite Hc, Hk, Hflag. cbn beta iota zeta.
  repeat case_inner; reflexivity.
Qed.

End StoreCases.

(** X8: a session writes to the database at most once, and only when the
    record under the socket's id is flagged [needs_db_storage] and the
    object in the event field of the upstream's metadata carries an id
    other than the socket's: the write goes under that id, with the user of
    the record and its agent and first message.  It does make that write
    when, besides, the socket is accepted, the record holds a signed URL,
    the upstream connection is made and the metadata could be forwarded to
    the client.  When the metadata carry the socket's own id, nothing is
    written. *)
Theorem session_stores_at_most_once
    (b64decode : json -> result (list byte)) (w : nat) (cid : string)
    (env : session_env) (reg : gmap key conversation) :
  let stores := db_stores (trace_of (websocket_endpoint b64decode w cid env reg)) in
  (stores = [] \/
   exists c real k,
     reg !! KStr cid = Some c /\ needs_db_storage c = true /\
     carries_id env real /\ hash_key real = Ok k /\ k <> KStr cid /\
     stores = [DbStore k (user_id c) (stored_details c (e_now env))]) /\
  (forall c url real k,
     e_accept env = None -> reg !! KStr cid = Some c ->
     signed_url c = Some url -> e_connect env = None ->
     e_forward_metadata env = None ->
     needs_db_storage c = true ->
     carries_id env real -> hash_key real = Ok k -> k <> KStr cid ->
     stores = [DbStore k (user_id c) (stored_details c (e_now env))]) /\
  (announces env cid -> stores = []).
Proof.
  intros stores. subst stores.
  destruct (endpoint_trace b64decode w cid env reg) as (closing & Hcl & ->).
  cbn [db_stores].
  destruct (e_accept env) as [e|].
  { split; [left; reflexivity|]. split; [|reflexivity].
    intros ? ? ? ? Hf. discriminate Hf. }
  destruct (reg !! KStr cid) as [c|] eqn:Hc.
  2:{ split; [left; reflexivity|]. split; [|reflexivity].
      intros ? ? ? ? _ Hf. discriminate Hf. }
  rewrite db_stores_app, (db_stores_silent closing Hcl), app_nil_r.
  destruct (relay_trace b64decode w cid env (set_active c w)
              (<[KStr cid := set_active c w]> reg)) as (pumps & Hp & ->).
  cbn [signed_url set_active].
  destruct (signed_url c) as [url|] eqn:Hurl.
  2:{ split; [left; reflexivity|]. split; [|reflexivity].
      intros c1 ? ? ? _ [= <-] Hf. congruence. }
  cbn [db_stores].
  destruct (e_connect env).
  { split; [left; reflexivity|]. split; [|reflexivity].
    intros ? ? ? ? _ _ _ Hf. discriminate Hf. }
  rewrite db_stores_app, (db_stores_silent pumps Hp), app_nil_r.
  split; [|split].
  - destruct (handshake_db_carried w cid env (set_active c w)
                (<[KStr cid := set_active c w]> reg))
      as [Hh | (c' & real & k & Hc' & Hflag & Hcar & Hkey & Hk & Hh)];
      [left; exact Hh|].
    right. rewrite lookup_insert_eq in Hc'. injection Hc' as <-.
    exists c, real, k. repeat split; assumption.
  - intros c1 url1 real k _ [= <-] _ _ Hfwd Hflag Hcar Hkey Hk.
    exact (handshake_db_made w cid env (set_active c w) _ (set_active c w) real k
             (lookup_insert_eq _ _ _) Hflag Hfwd Hcar Hkey Hk).
  - intros (d & ev & Hrecv & Hty & Hev & Hid).
    unfold handshake, read_metadata, adopt_real_id, abort_handshake, try_except.
    unfold get_registry, modify. run_eff.
    rewrite Hrecv. cbn [json_loads py_get py_get_default py_in py_item].
    rewrite json_dumps_of_json. cbn beta iota zeta.
    rewrite Hty, Hev.
    cbn [from_option id eq_str String.eqb Ascii.eqb Bool.eqb].
    rewrite bool_decide_eq_true_2 by eauto. cbn beta iota zeta.
    cbn [py_in py_item]. rewrite Hid.
    rewrite bool_decide_eq_true_2 by eauto. cbn beta iota zeta.
    cbn [eq_str]. rewrite String.eqb_refl. cbn [negb].
    repeat case_inner; reflexivity.
Qed.

Lemma session_stores_at_most_once_witness :
  db_stores
    (trace_of (websocket_endpoint b64_unused 7 "conv_u1_1000" hangup_env
                 {[ KStr "conv_u1_1000" := pending_record ]}))
  = [DbStore (KStr "abc123") "u1"
       (stored_details pending_record (e_now hangup_env))].
Proof.
  assert (Hreg : ({[ KStr "conv_u1_1000" := pending_record ]}
                    : gmap key conversation) !! KStr "conv_u1_1000"
                 = Some pending_record) by (vm_compute; reflexivity).
  apply (proj1 (proj2 (session_stores_at_most_once b64_unused 7 "conv_u1_1000"
                         hangup_env {[ KStr "conv_u1_1000" := pending_record ]}))
           pending_record "wss://upstream/?token=t" (JStr "abc123") (KStr "abc123")
           eq_refl Hreg eq_refl eq_refl eq_refl eq_refl).
  - eexists _, _. repeat split; reflexivity.
  - reflexivity.
  - discriminate.
Defined.

(** ** The calls of the client pump *)

Lemma json_dumps_typed_text (ty : string) (k : string) (v : json) :
  json_dumps (PDict [("type", PStr ty); (k, of_json v)])
  = Ok (JObj [("type", JStr ty); (k, v)]).
Proof. unfold json_dumps. cbn [to_json]. rewrite to_json_of_json. reflexivity. Qed.

Lemma json_dumps_single (k : string) (v : json) :
  json_dumps (PDict [(k, of_json v)]) = Ok (JObj [(k, v)]).
Proof. unfold json_dumps. cbn [to_json]. rewrite to_json_of_json. reflexivity. Qed.

(** No iteration of the client pump raises. *)
Lemma client_message_returns (st : client_step) :
  exists c tr, client_message st tt = (Ok c, tt, tr).
Proof.
  unfold client_message, on_client_bytes, on_client_text, try_except. run_eff.
  repeat case_inner; clear_units; eauto.
Qed.

Lemma client_loop_returns (steps : list client_step) :
  exists p tr, client_loop steps tt = (Ok p, tt, tr).
Proof.
  induction steps as [|st steps (p & tr & IH)]; cbn [client_loop].
  - eexists _, _. reflexivity.
  - unfold bind. destruct (client_message_returns st) as (c & tr' & ->).
    destruct c; [rewrite IH|..]; eexists _, _; reflexivity.
Qed.

(** The iterations after a loop that is still waiting go on from there. *)
Lemma client_loop_app (pre rest : list client_step) :
  result_of (client_loop pre tt) = Ok Waiting ->
  client_loop (pre ++ rest) tt
  = (result_of (client_loop rest tt), tt,
     trace_of (client_loop pre tt) ++ trace_of (client_loop rest tt)).
Proof.
  induction pre as [|st pre IH].
  - intros _. cbn [app]. destruct (client_loop rest tt) as [[x []] tr].
    reflexivity.
  - change ((st :: pre) ++ rest) with (st :: (pre ++ rest)).
    cbn [client_loop]. unfold bind.
    destruct (client_message_returns st) as (c & tr & ->).
    destruct c; [|discriminate|discriminate].
    destruct (client_loop pre tt) as [[x []] tr'] eqn:Hpre.
    unfold result_of; cbn [fst snd]. intros ->.
    rewrite IH by reflexivity.
    unfold trace_of, result_of; cbn [fst snd]. rewrite app_assoc. reflexivity.
Qed.

Lemma client_message_calls (st : client_step) :
  emits client_pump_event (client_message st).
Proof.
  unfold client_message, on_client_bytes, on_client_text.
  repeat first
    [ emits_step
    | match goal with
      | H : json_dumps (PDict [("type", PStr "audio");
                               ("audio_event", PDict [("audio_base_64", PBytes _)])])
            = Ok _ |- _ => discriminate H
      | H : json_dumps (PDict [("type", PStr _); (_, of_json _)]) = Ok _ |- _ =>
          rewrite json_dumps_typed_text in H; injection H as <-
      | H : json_dumps (PDict [(_, of_json _)]) = Ok _ |- _ =>
          rewrite json_dumps_single in H; injection H as <-
      end ];
    cbn [client_pump_event]; eauto.
Qed.

(** X9: the calls of the client pump.  Whatever the client sends and however
    the sends end, the pump does nothing to the outside but send upstream a
    contextual update [{"type": "contextual_update", "text": ...}] or an
    audio chunk [{"user_audio_chunk": ...}], and close the upstream
    connection with code 1000 and the reason "Client disconnected"; it makes
    no call on the client socket and never raises. *)
Theorem client_pump_calls (steps : list client_step)
    (open_at_exit : result bool) (close : outcome) :
  exists p,
    result_of (handle_client_audio steps open_at_exit close tt) = Ok p /\
    Forall client_pump_event
      (trace_of (handle_client_audio steps open_at_exit close tt)).
Proof.
  destruct (client_loop_returns steps) as (p & tr & Hl).
  exists p. split.
  - unfold handle_client_audio, bind, try_except. rewrite Hl.
    destruct p; [reflexivity|]. unfold lift.
    destruct open_at_exit as [[]|]; [destruct close|..]; reflexivity.
  - clear. generalize tt.
    change (emits client_pump_event (handle_client_audio steps open_at_exit close)).
    unfold handle_client_audio. apply emits_bind.
    + induction steps as [|st steps IH]; cbn [client_loop].
      * apply emits_ret.
      * apply emits_bind; [apply client_message_calls|].
        intros []; [exact IH | apply emits_ret | apply emits_ret].
    + intros ?. repeat emits_step. cbn. split; reflexivity.
Qed.

(** X10: an audio message that the client sends as a text frame is passed
    upstream as [{"user_audio_chunk": chunk}], with the chunk as it came,
    and the pump goes on with the next receive whether that send returned
    or raised. *)
Theorem client_audio_text_is_forwarded
    (d ev : list (string * json)) (chunk : string) (send : outcome)
    (still_open : bool) :
  assoc "type" d = Some (JStr "audio") ->
  assoc "audio_event" d = Some (JObj ev) ->
  assoc "audio_base_64" ev = Some (JStr chunk) ->
  client_message (text_step d send still_open) tt
  = (Ok Continue, tt, [UpstreamSend (JObj [("user_audio_chunk", JStr chunk)])]).
Proof.
  intros Hty Hev Hchunk.
  unfold client_message, text_step, on_client_text, try_except. cbn [c_recv c_send].
  run_eff. cbn [json_loads py_get py_get_default py_in py_item].
  rewrite Hty. cbn [default from_option id eq_str String.eqb Ascii.eqb Bool.eqb and_then].
  rewrite Hev. rewrite bool_decide_eq_true_2 by eauto.
  cbn [py_item]. rewrite Hchunk. cbn [py_len].
  destruct send; reflexivity.
Qed.

Lemma client_audio_text_is_forwarded_witness :
  client_message audio_text_step tt
  = (Ok Continue, tt, [UpstreamSend (JObj [("user_audio_chunk", JStr "AAAA")])]).
Proof.
  apply (client_audio_text_is_forwarded
           [("type", JStr "audio");
            ("audio_event", JObj [("audio_base_64", JStr "AAAA")])]
           [("audio_base_64", JStr "AAAA")] "AAAA" None true);
    reflexivity.
Defined.

(** X11: an [end_call] message from the client ends the client pump.  After
    iterations that left the loop running, the pump makes no call for the
    message itself, reads nothing that comes after it, and reads
    [elevenlabs_ws.open]: if the read gives true it closes the upstream
    connection with 1000, if it gives false or raises (the connection object
    has no such attribute) it makes no call; either way the pump returns,
    whether the close returned or raised. *)
Theorem client_end_call_stops_pump
    (pre rest : list client_step) (d : list (string * json))
    (send : outcome) (still_open : bool) (open_at_exit : result bool)
    (close : outcome) :
  result_of (client_loop pre tt) = Ok Waiting ->
  assoc "type" d = Some (JStr "end_call") ->
  handle_client_audio (pre ++ text_step d send still_open :: rest)
    open_at_exit close tt
  = (Ok Stopped, tt,
     trace_of (client_loop pre tt)
     ++ match open_at_exit with
        | Ok true => [UpstreamClose 1000 "Client disconnected"]
        | Ok false | Raise _ => []
        end).
Proof.
  intros Hpre Hty.
  unfold handle_client_audio, bind. rewrite (client_loop_app _ _ Hpre).
  cbn [client_loop]. unfold bind at 1 2.
  assert (Hstep : client_message (text_step d send still_open) tt
                  = (Ok Return, tt, [])).
  { unfold client_message, text_step, on_client_text, try_except.
    cbn [c_recv c_send]. run_eff.
    cbn [json_loads py_get py_get_default]. rewrite Hty. reflexivity. }
  rewrite Hstep.
  unfold ret, result_of, trace_of, try_except, lift, call, run; cbn [fst snd].
  rewrite !app_nil_r.
  destruct open_at_exit as [[]|]; [destruct close|..]; rewrite ?app_nil_r; reflexivity.
Qed.

Lemma client_end_call_stops_pump_witness :
  handle_client_audio
    ([audio_text_step] ++ text_step [("type", JStr "end_call")] None true
                          :: [audio_text_step])
    (Raise (Exn AttributeError "'ClientConnection' object has no attribute 'open'"))
    None tt
  = (Ok Stopped, tt, trace_of (client_loop [audio_text_step] tt) ++ []).
Proof.
  apply (client_end_call_stops_pump [audio_text_step] [audio_text_step]
           [("type", JStr "end_call")] None true
           (Raise (Exn AttributeError "'ClientConnection' object has no attribute 'open'"))
           None);
    reflexivity.
Defined.

(** ** The calls of the upstream pump *)

Section UpstreamCalls.

Variable b64decode : json -> result (list byte).
Variable w : nat.

Lemma upstream_pump_event_mono (steps steps' : list upstream_step) (e : event) :
  (forall st, In st steps -> In st steps') ->
  upstream_pump_event b64decode w steps e ->
  upstream_pump_event b64decode w steps' e.
Proof.
  intros Hin. destruct e; cbn [upstream_pump_event]; try tauto.
  intros [-> [Hn | (st & Hst & Hr)]]; split; try reflexivity; [left; exact Hn|].
  right. exists st. split; [apply Hin, Hst | exact Hr].
Qed.

Lemma upstream_message_calls (st : upstream_step) :
  Forall (upstream_pump_event b64decode w [st])
    (trace_of (upstream_message b64decode w st tt)).
Proof.
  unfold upstream_message, on_upstream_text, try_except. run_eff.
  destruct (u_recv st) as [t|e] eqn:Hrecv; [|constructor].
  destruct t as [data|raw err]; cbn [json_loads]; [|constructor].
  change (PDict [("type", PStr "pong"); ("event_id", of_json ?x)])
    with (of_json (pong x)).
  repeat case_inner; unfold trace_of; cbn [fst snd app];
    repeat match goal with
           | |- Forall _ (_ :: _) => apply List.Forall_cons
           | |- Forall _ [] => apply List.Forall_nil
           end;
    cbn [upstream_pump_event];
    repeat match goal with
           | H : json_dumps (of_json _) = Ok _ |- _ =>
               rewrite json_dumps_of_json in H; injection H as <-
           end;
    first [ split; [reflexivity|]; first [ right; eauto using in_eq | eauto ]
          | eauto ].
Qed.

Lemma upstream_loop_calls (steps : list upstream_step) :
  Forall (upstream_pump_event b64decode w steps)
    (trace_of (upstream_loop b64decode w steps tt)).
Proof.
  induction steps as [|st steps IH]; cbn [upstream_loop].
  - constructor.
  - rewrite trace_bind. apply Forall_app. split.
    + eapply Forall_impl; [apply upstream_message_calls|].
      intros e. apply upstream_pump_event_mono.
      intros st' [->|[]]. apply in_eq.
    + destruct (result_of _) as [c|e]; [|constructor].
      assert (Hst : state_of (upstream_message b64decode w st tt) = tt)
        by (destruct (state_of _); reflexivity).
      rewrite Hst.
      destruct c; try constructor.
      eapply Forall_impl; [exact IH|].
      intros e. apply upstream_pump_event_mono.
      intros st' Hin. apply in_cons, Hin.
Qed.

(** The loop of the upstream pump never raises. *)
Lemma upstream_loop_returns (steps : list upstream_step) :
  exists p tr, upstream_loop b64decode w steps tt = (Ok p, tt, tr).
Proof.
  induction steps as [|st steps (p & tr & IH)]; cbn [upstream_loop].
  - eexists _, _. reflexivity.
  - unfold bind, upstream_message. destruct (u_recv st) as [t|e].
    + destruct (on_upstream_text_continues b64decode w t (u_send st)) as [tr' ->].
      rewrite IH. eexists _, _. reflexivity.
    + eexists _, _. reflexivity.
Qed.

End UpstreamCalls.

(** X12: the calls of the upstream pump.  Every document it hands the client
    is one it received from the upstream, unchanged, or the closing notice;
    bytes it hands the client are what [b64decode] gave; upstream it sends
    nothing but pongs; it closes neither connection and never raises. *)
Theorem upstream_pump_calls (b64decode : json -> result (list byte)) (w : nat)
    (steps : list upstream_step) (client_state : WebSocketState)
    (notify : outcome) :
  let out := handle_elevenlabs_messages b64decode w steps client_state notify tt in
  (exists p, result_of out = Ok p) /\
  Forall (upstream_pump_event b64decode w steps) (trace_of out).
Proof.
  cbn zeta. unfold handle_elevenlabs_messages.
  pose proof (upstream_loop_calls b64decode w steps) as Hloop.
  destruct (upstream_loop_returns b64decode w steps) as (p & tr & Hl).
  unfold bind. rewrite Hl in *.
  unfold trace_of in Hloop; cbn [snd] in Hloop.
  destruct p.
  - unfold ret, result_of, trace_of; cbn [fst snd]. rewrite app_nil_r.
    split; [eauto | exact Hloop].
  - unfold try_except, state_truthy, dot_CONNECTED, send_json, bind, lift, call, run.
    cbn [json_dumps to_json option_map].
    destruct notify; unfold ret, result_of, trace_of; cbn [fst snd app];
      (split; [eauto|]); rewrite ?app_nil_r; apply Forall_app;
      (split; [exact Hloop|]); apply List.Forall_cons;
      try apply List.Forall_nil; cbn [upstream_pump_event];
      (split; [reflexivity | left; reflexivity]).
Qed.

(** X13: when the receive on the upstream connection raises, after iterations
    that all received a message, the upstream pump reads no further and
    sends the client the notice [{"type": "end_call", "reason":
    "connection_closed"}], whatever state the client socket is in, and
    returns whether that send returned or raised. *)
Theorem upstream_close_is_notified
    (b64decode : json -> result (list byte)) (w : nat)
    (pre rest : list upstream_step) (e : exn) (send : outcome)
    (client_state : WebSocketState) (notify : outcome) :
  Forall received pre ->
  handle_elevenlabs_messages b64decode w (pre ++ closed_step e send :: rest)
    client_state notify tt
  = (Ok Stopped, tt,
     trace_of (upstream_loop b64decode w pre tt)
     ++ [ClientSendJson w connection_closed_notice]).
Proof.
  intros Hpre. unfold handle_elevenlabs_messages, bind.
  rewrite (upstream_loop_app b64decode w pre _ Hpre).
  cbn [upstream_loop]. unfold bind, upstream_message, closed_step. cbn [u_recv].
  unfold ret, result_of, trace_of; cbn [fst snd].
  unfold try_except, state_truthy, dot_CONNECTED, send_json, bind, lift, call, run.
  cbn [json_dumps to_json option_map]. rewrite !app_nil_r.
  destruct notify; rewrite ?app_nil_r; reflexivity.
Qed.

Lemma upstream_close_is_notified_witness :
  handle_elevenlabs_messages b64_unused 7
    ([transcript_step] ++ closed_step (Exn ConnectionClosed "1006") None :: [transcript_step])
    DISCONNECTED (Some send_after_close) tt
  = (Ok Stopped, tt,
     trace_of (upstream_loop b64_unused 7 [transcript_step] tt)
     ++ [ClientSendJson 7 connection_closed_notice]).
Proof.
  apply (upstream_close_is_notified b64_unused 7 [transcript_step] [transcript_step]
           (Exn ConnectionClosed "1006") None DISCONNECTED (Some send_after_close)).
  repeat constructor. eexists. reflexivity.
Defined.

(** ** The notification socket *)

Lemma notification_loop_run {S : Type} (steps : list (result string)) (s : S) :
  exists p, notification_loop steps s = (Ok p, s, []).
Proof.
  induction steps as [|[t|e] steps [p IH]]; cbn [notification_loop].
  - eexists. reflexivity.
  - eexists. exact IH.
  - eexists. reflexivity.
Qed.

Lemma notification_loop_app {S : Type} (pre rest : list (result string)) (s : S) :
  Forall (fun r => exists t, r = Ok t) pre ->
  notification_loop (pre ++ rest) s = notification_loop rest s.
Proof.
  induction 1 as [|r pre [t ->] _ IH]; [reflexivity|].
  cbn [app notification_loop]. exact IH.
Qed.

(** A handler that was accepted, could greet and then received [pre] is a
    handler suspended in its receive; receiving [rest] from there is
    [notification_resume]. *)
Lemma notification_websocket_resumes (user : string) (w : nat)
    (pre rest : list (result string)) (conns : gmap string nat) :
  Forall (fun r => exists t, r = Ok t) pre ->
  notification_websocket user w None None pre conns
  = (Ok Waiting, <[user := w]> conns,
     [ClientAccept w; ClientSendJson w (JObj [
        ("type", JStr "connection_established");
        ("message", JStr "WebSocket connection established successfully")])]) /\
  result_of (notification_websocket user w None None (pre ++ rest) conns)
  = result_of (notification_resume user rest (<[user := w]> conns)) /\
  state_of (notification_websocket user w None None (pre ++ rest) conns)
  = state_of (notification_resume user rest (<[user := w]> conns)).
Proof.
  intros Hpre.
  unfold notification_websocket, notification_resume, notification_open,
    notification_finally.
  run_eff. cbn [json_dumps to_json connection_established option_map].
  rewrite (notification_loop_app pre rest _ Hpre).
  rewrite <- (app_nil_r pre) at 1. rewrite (notification_loop_app pre [] _ Hpre).
  cbn [notification_loop]. unfold ret.
  split; [reflexivity|].
  destruct (notification_loop_run rest (<[user := w]> conns)) as [p ->].
  destruct p; split; reflexivity.
Qed.

(** X14: the registry of notification sockets after a run of the handler.
    While the handler is suspended in a receive, its socket is the one
    registered for the user, in place of any socket registered before; once
    the handler has returned or raised (the accept or the greeting failed,
    or a receive raised), no socket is registered for the user any more,
    not even one that another handler had registered: the [finally] block
    unregisters whatever is under the user.  Other users are not
    touched. *)
Theorem notification_socket_registration (user : string) (w : nat)
    (accept greet : outcome) (steps : list (result string))
    (conns : gmap string nat) :
  let out := notification_websocket user w accept greet steps conns in
  state_of out
  = match result_of out with
    | Ok Waiting => <[user := w]> conns
    | _ => delete user conns
    end.
Proof.
  cbn zeta.
  unfold notification_websocket, notification_open, notification_finally.
  run_eff. cbn [json_dumps to_json connection_established option_map].
  destruct accept as [e|]; [reflexivity|].
  destruct greet as [e|].
  { unfold state_of, result_of; cbn [fst snd]. apply delete_insert_eq. }
  destruct (notification_loop_run steps (<[user := w]> conns)) as [p ->].
  destruct p; unfold state_of, result_of; cbn [fst snd];
    [reflexivity | apply delete_insert_eq].
Qed.

(** X15: a reconnect loses the user's notifications.  When a user opens a
    second notification socket while the handler of the first one is still
    suspended, the second socket replaces the first in the registry; when
    the first socket then disconnects, the [finally] block of its handler
    unregisters the user, that is the second socket.  A notification
    triggered for the user after that is recorded and answered 200, and
    pushed to no socket, although the second socket is open. *)
Theorem stale_handler_unregisters_newer_socket
    (user : string) (w1 w2 : nat) (e : exn) (rest : list (result string))
    (conns : gmap string nat)
    (request : NotificationRequest) (now1 now2 : Q) (push : outcome)
    (reg : gmap key conversation) :
  req_user_id request = user ->
  let first := notification_websocket user w1 None None [] conns in
  let second := notification_websocket user w2 None None [] (state_of first) in
  let gone := notification_resume user (Raise e :: rest) (state_of second) in
  let out := trigger_notification request now1 now2 (state_of gone) push reg in
  result_of first = Ok Waiting /\ result_of second = Ok Waiting /\
  state_of second !! user = Some w2 /\
  result_of gone = Ok Stopped /\
  state_of gone !! user = None /\
  trace_of out = [] /\
  exists body, result_of out = Ok (JSONResponse body 200).
Proof.
  intros Huser. cbn zeta.
  destruct (notification_websocket_resumes user w1 [] [] conns (List.Forall_nil _))
    as (-> & _).
  unfold state_of at 2 3 4; cbn [fst snd].
  destruct (notification_websocket_resumes user w2 [] [] (<[user := w1]> conns)
              (List.Forall_nil _)) as (-> & _).
  unfold state_of at 1 2 3 4; cbn [fst snd].
  unfold result_of at 1 2; cbn [fst snd].
  split; [reflexivity|]. split; [reflexivity|].
  split; [apply lookup_insert_eq|].
  unfold notification_resume, notification_finally. cbn [notification_loop].
  unfold bind, ret. unfold result_of at 1; unfold state_of; cbn [fst snd].
  split; [reflexivity|].
  split; [apply lookup_delete_eq|].
  unfold trigger_notification, try_except. unfold bind at 1. unfold modify.
  unfold bind at 1. rewrite Huser, lookup_delete_eq.
  unfold ret, bind, trace_of, result_of; cbn [fst snd].
  split; [reflexivity | eexists; reflexivity].
Qed.

Lemma stale_handler_unregisters_newer_socket_witness :
  let request := {| req_user_id := "u1"; req_notification_title := "Incoming Call";
                    req_notification_body := "Click to answer";
                    req_first_message := None; req_system_prompt := None |} in
  let first := notification_websocket "u1" 1%nat None None [] ∅ in
  let second := notification_websocket "u1" 2%nat None None [] (state_of first) in
  let gone := notification_resume "u1" [Raise (Exn WebSocketDisconnect "1001")]
                (state_of second) in
  let out := trigger_notification request (inject_Z 1000) (inject_Z 1000)
               (state_of gone) None ∅ in
  result_of first = Ok Waiting /\ result_of second = Ok Waiting /\
  state_of second !! "u1" = Some 2%nat /\
  result_of gone = Ok Stopped /\
  state_of gone !! "u1" = None /\
  trace_of out = [] /\
  exists body, result_of out = Ok (JSONResponse body 200).
Proof.
  apply (stale_handler_unregisters_newer_socket "u1" 1%nat 2%nat
           (Exn WebSocketDisconnect "1001") [] ∅
           {| req_user_id := "u1"; req_notification_title := "Incoming Call";
              req_notification_body := "Click to answer";
              req_first_message := None; req_system_prompt := None |}
           (inject_Z 1000) (inject_Z 1000) None ∅).
  reflexivity.
Defined.

(** X16: a socket that is registered for the user gets the notification
    pushed, once, with the id under which the record is kept; whether the
    push returns or raises, the record is kept and the answer is 200 with
    that id. *)
Theorem trigger_notification_pushes_to_registered_socket
    (request : NotificationRequest) (now1 now2 : Q)
    (notification_connections : gmap string nat) (w : nat) (push : outcome)
    (reg : gmap key conversation) :
  notification_connections !! req_user_id request = Some w ->
  let out := trigger_notification request now1 now2 notification_connections push reg in
  exists j d,
    trace_of out = [ClientSendJson w (JObj j)] /\
    assoc "type" j = Some (JStr "notification") /\
    assoc "notification_id" j = Some (JStr (notification_id_of request now1)) /\
    result_of out = Ok (JSONResponse (PDict d) 200) /\
    assoc "notification_id" d = Some (PStr (notification_id_of request now1)) /\
    state_of out = <[KStr (notification_id_of request now1) :=
                       notification_record request now2]> reg.
Proof.
  intros Hw. cbn zeta.
  unfold trigger_notification, try_except. unfold bind at 1. unfold modify.
  unfold bind at 1. rewrite Hw.
  unfold try_except, send_json, bind, lift, call, run, json_dumps.
  destruct (req_first_message request), (req_system_prompt request), push;
    cbn [to_json opt_str option_map];
    unfold ret, trace_of, result_of, state_of; cbn [fst snd app];
    eexists _, _; repeat split; reflexivity.
Qed.

Lemma trigger_notification_pushes_to_registered_socket_witness :
  let request := {| req_user_id := "u1"; req_notification_title := "Incoming Call";
                    req_notification_body := "Click to answer";
                    req_first_message := None; req_system_prompt := None |} in
  let out := trigger_notification request (inject_Z 1000) (inject_Z 1000)
               {[ "u1" := 3%nat ]} (Some send_after_close) ∅ in
  exists j d,
    trace_of out = [ClientSendJson 3%nat (JObj j)] /\
    assoc "type" j = Some (JStr "notification") /\
    assoc "notification_id" j = Some (JStr (notification_id_of request (inject_Z 1000))) /\
    result_of out = Ok (JSONResponse (PDict d) 200) /\
    assoc "notification_id" d = Some (PStr (notification_id_of request (inject_Z 1000))) /\
    state_of out = <[KStr (notification_id_of request (inject_Z 1000)) :=
                       notification_record request (inject_Z 1000)]> ∅.
Proof.
  apply (trigger_notification_pushes_to_registered_socket
           {| req_user_id := "u1"; req_notification_title := "Incoming Call";
              req_notification_body := "Click to answer";
              req_first_message := None; req_system_prompt := None |}
           (inject_Z 1000) (inject_Z 1000) {[ "u1" := 3%nat ]} 3%nat
           (Some send_after_close) ∅).
  vm_compute. reflexivity.
Defined.

(** ** The conversation history *)

Lemma assoc_dict_set_eq (k : string) (v : json) (d : list (string * json)) :
  assoc k (dict_set k v d) = Some v.
Proof.
  induction d as [|[k' x] d IH]; cbn [dict_set assoc].
  - rewrite String.eqb_refl. reflexivity.
  - destruct (String.eqb k k') eqn:Hk; cbn [assoc]; rewrite Hk; [reflexivity|exact IH].
Qed.

Lemma assoc_dict_set_ne (k k0 : string) (v : json) (d : list (string * json)) :
  k0 <> k -> assoc k0 (dict_set k v d) = assoc k0 d.
Proof.
  intros Hne. induction d as [|[k' x] d IH]; cbn [dict_set assoc].
  - rewrite (proj2 (String.eqb_neq k0 k) Hne). reflexivity.
  - destruct (String.eqb k k') eqn:Hk; cbn [assoc].
    + apply String.eqb_eq in Hk. subst k'.
      rewrite (proj2 (String.eqb_neq k0 k) Hne). reflexivity.
    + rewrite IH. reflexivity.
Qed.

(** Every item the comprehension returns is an entry of [role] and
    [message]. *)
Lemma simplify_transcript_entries (items out : list json) :
  simplify_transcript items = Ok out -> Forall transcript_entry out.
Proof.
  revert out. induction items as [|item items IH]; intros out; cbn [simplify_transcript].
  - intros [= <-]. constructor.
  - unfold rbind.
    destruct (py_item item "message") as [m|e]; [|discriminate].
    destruct m; [apply IH|..];
      (destruct (py_item item "role") as [r|e]; [|discriminate];
       destruct (simplify_transcript items) as [tl|e']; [|discriminate];
       intros [= <-]; constructor;
       [ eexists _, _; split; [reflexivity|discriminate]
       | apply IH; reflexivity ]).
Qed.

(** X17: the simplified transcript.  When the comprehension returns, every
    item of its result is a [dict] of exactly [role] and [message] with a
    message that is not [None], there are no more items than went in, and
    simplifying the result again changes nothing. *)
Theorem simplify_transcript_idempotent (items out : list json) :
  simplify_transcript items = Ok out ->
  Forall transcript_entry out /\
  (length out <= length items)%nat /\
  simplify_transcript out = Ok out.
Proof.
  intros Hout. split; [exact (simplify_transcript_entries items out Hout)|].
  revert out Hout.
  induction items as [|item items IH]; intros out; cbn [simplify_transcript].
  - intros [= <-]. split; reflexivity.
  - unfold rbind at 1.
    destruct (py_item item "message") as [m|e] eqn:Hm; [|discriminate].
    assert (Hkeep : m <> JNull ->
              (let? role := py_item item "role" in
               let? message := Ok m in
               let? tail := simplify_transcript items in
               Ok (JObj [("role", role); ("message", message)] :: tail)) = Ok out ->
              (length out <= length (item :: items))%nat /\
              simplify_transcript out = Ok out).
    { intros Hnn. unfold rbind.
      destruct (py_item item "role") as [r|e]; [|discriminate].
      destruct (simplify_transcript items) as [tl|e]; [|discriminate].
      intros [= <-]. destruct (IH tl eq_refl) as (Hlen & Hidem).
      split; [cbn [length]; lia|].
      cbn [simplify_transcript]. unfold rbind.
      cbn [py_item assoc String.eqb Ascii.eqb Bool.eqb].
      rewrite Hidem. destruct m; try reflexivity. contradiction. }
    destruct m; try (apply Hkeep; discriminate).
    intros Hout. destruct (IH out Hout) as (Hlen & Hidem).
    split; [cbn [length]; lia | exact Hidem].
Qed.

Lemma simplify_transcript_idempotent_witness :
  let out := [JObj [("role", JStr "user"); ("message", JStr "hello")]] in
  Forall transcript_entry out /\
  (length out <= 2)%nat /\
  simplify_transcript out = Ok out.
Proof.
  apply (simplify_transcript_idempotent
           [JObj [("role", JStr "agent"); ("message", JNull); ("time_in_call_secs", JInt 0)];
            JObj [("role", JStr "user"); ("message", JStr "hello");
                  ("time_in_call_secs", JInt 3)]]
           [JObj [("role", JStr "user"); ("message", JStr "hello")]]).
  reflexivity.
Defined.

Section HistoryProperties.

Variable analyze : list json -> json -> json -> result json.

(** X18: what the details of a conversation become when their processing
    returns.  A document without a transcript is passed on as it is.  In a
    document with a transcript, the transcript is replaced by what the
    comprehension gives on its items; the entry [claude_analysis] is set to
    what the analysis returns for that simplified transcript, the agent id
    found under [conversation_initiation_client_data], [dynamic_variables],
    [system__agent_id] and the criteria found under [platform_settings],
    [evaluation], or, when that agent id is missing or false, to the error
    "No agent ID found"; and every other field is as it came. *)
Theorem details_keep_other_fields (d d' : list (string * json)) :
  details_of_data analyze (JObj d) = Ok (JObj d') ->
  match assoc "transcript" d with
  | None => d' = d
  | Some transcript =>
      exists items simplified analysis,
        py_iter transcript = Ok items /\
        simplify_transcript items = Ok simplified /\
        assoc "transcript" d' = Some (JArr simplified) /\
        assoc "claude_analysis" d' = Some analysis /\
        (forall k, k <> "transcript" -> k <> "claude_analysis" ->
                   assoc k d' = assoc k d) /\
        exists client_data variables agent_id,
          py_get_default (JObj d) "conversation_initiation_client_data" (JObj [])
          = Ok client_data /\
          py_get_default client_data "dynamic_variables" (JObj []) = Ok variables /\
          py_get variables "system__agent_id" = Ok agent_id /\
          if json_truthy agent_id
          then exists settings evaluation,
                 py_get_default (JObj d) "platform_settings" (JObj []) = Ok settings /\
                 py_get_default settings "evaluation" (JObj []) = Ok evaluation /\
                 analyze simplified agent_id evaluation = Ok analysis
          else analysis = JObj [("error", JStr "No agent ID found")]
  end.
Proof.
  unfold details_of_data. unfold rbind at 1. cbn [py_in].
  destruct (assoc "transcript" d) as [tr|] eqn:Htr.
  2:{ rewrite bool_decide_eq_false_2 by (intros [? ?]; discriminate).
      intros [= <-]. reflexivity. }
  rewrite bool_decide_eq_true_2 by eauto.
  unfold rbind at 1. cbn [py_item]. rewrite Htr.
  unfold rbind at 1. destruct (py_iter tr) as [items|e] eqn:Hit; [|discriminate].
  unfold rbind at 1.
  destruct (simplify_transcript items) as [simplified|e] eqn:Hs; [|discriminate].
  assert (Hsame : forall k dflt, k <> "transcript" ->
            py_get_default (JObj (dict_set "transcript" (JArr simplified) d)) k dflt
            = py_get_default (JObj d) k dflt).
  { intros k dflt Hk. cbn [py_get_default].
    rewrite assoc_dict_set_ne by exact Hk. reflexivity. }
  rewrite !Hsame by discriminate.
  unfold rbind at 1.
  destruct (py_get_default (JObj d) "conversation_initiation_client_data" (JObj []))
    as [client_data|e] eqn:Hcd; [|discriminate].
  unfold rbind at 1.
  destruct (py_get_default client_data "dynamic_variables" (JObj []))
    as [variables|e] eqn:Hv; [|discriminate].
  unfold rbind at 1.
  destruct (py_get variables "system__agent_id") as [agent_id|e] eqn:Ha; [|discriminate].
  intros Hres.
  assert (Hd' : exists analysis,
            d' = dict_set "claude_analysis" analysis
                   (dict_set "transcript" (JArr simplified) d) /\
            if json_truthy agent_id
            then exists settings evaluation,
                   py_get_default (JObj d) "platform_settings" (JObj []) = Ok settings /\
                   py_get_default settings "evaluation" (JObj []) = Ok evaluation /\
                   analyze simplified agent_id evaluation = Ok analysis
            else analysis = JObj [("error", JStr "No agent ID found")]).
  { destruct (json_truthy agent_id).
    - revert Hres. unfold rbind.
      destruct (py_get_default (JObj d) "platform_settings" (JObj []))
        as [settings|e] eqn:Hset; [|discriminate].
      destruct (py_get_default settings "evaluation" (JObj []))
        as [evaluation|e] eqn:Hev; [|discriminate].
      destruct (analyze simplified agent_id evaluation) as [analysis|e] eqn:Han;
        [|discriminate].
      intros [= <-]. exists analysis. split; [reflexivity|].
      exists settings, evaluation.
      split; [first [exact Hset | reflexivity]|].
      split; [first [exact Hev | reflexivity] | first [exact Han | reflexivity]].
    - injection Hres as <-. eexists. split; reflexivity. }
  destruct Hd' as (analysis & -> & Han).
  exists items, simplified, analysis.
  split; [first [exact Hit | reflexivity]|]. split; [first [exact Hs | reflexivity]|].
  split; [rewrite assoc_dict_set_ne by discriminate; apply assoc_dict_set_eq|].
  split; [apply assoc_dict_set_eq|].
  split; [intros k Hk1 Hk2; rewrite !assoc_dict_set_ne by assumption; reflexivity|].
  exists client_data, variables, agent_id.
  split; [first [exact Hcd | reflexivity]|]. split; [first [exact Hv | reflexivity]|].
  split; [first [exact Ha | reflexivity] | exact Han].
Qed.

(** Every row has its id. *)
Lemma history_ids_ok (l : list (list (string * json) * result http_reply)) :
  Forall (fun cr => is_Some (assoc "conversation_id" (fst cr))) l ->
  (fix ids (l : list (list (string * json) * result http_reply)) : result unit :=
     match l with
     | [] => Ok tt
     | (conv, _) :: l' =>
         let? _ := py_item (JObj conv) "conversation_id" in ids l'
     end) l = Ok tt.
Proof.
  induction 1 as [|[conv r] l [x Hx] _ IH]; [reflexivity|].
  cbn [fst] in Hx. cbn [py_item]. rewrite Hx. exact IH.
Qed.

(** X19: failures stay with their row.  When every row of the user has its
    id, the request is answered 200 with every row, in the order of the
    database, each with an entry [elevenlabs_details], whatever happened to
    the requests for the details: a request that raised leaves
    [{"error": str(e)}] in its row, an answer with another status than 200
    leaves the status and the text of the answer, and a body that does not
    decode leaves the decoder's message.  When the query itself raises, the
    answer is 500 with the message. *)
Theorem history_failures_stay_with_their_row
    (l : list (list (string * json) * result http_reply)) :
  (forall e, get_conversation_history analyze (Raise e)
             = JSONResponse (PDict [("error", PStr (str_exn e))]) 500) /\
  (Forall (fun cr => is_Some (assoc "conversation_id" (fst cr))) l ->
   exists details,
     get_conversation_history analyze (Ok l)
     = history_response (zip_with history_entry (map fst l) details) /\
     Forall2
       (fun cr dt =>
          (forall e, snd cr = Raise e ->
                     dt = JObj [("error", JStr (str_exn e))]) /\
          (forall resp, snd cr = Ok resp -> http_status (reply resp) <> 200%Z ->
                        dt = JObj [("error", JStr ("API error: "
                                                   +:+ str_int (http_status (reply resp))));
                                   ("details", JStr (reply_text resp))]) /\
          (forall resp raw err,
             snd cr = Ok resp -> http_status (reply resp) = 200%Z ->
             http_body (reply resp) = BadText raw err ->
             dt = JObj [("error", JStr err)]))
       l details).
Proof.
  split; [reflexivity|].
  intros Hids. exists (map (fun cr => elevenlabs_details analyze (snd cr)) l).
  split.
  - unfold get_conversation_history, history_response. unfold rbind at 1 2.
    rewrite (history_ids_ok l Hids).
    assert (Heq : map (fun cr => JObj (dict_set "elevenlabs_details"
                                         (elevenlabs_details analyze (snd cr)) (fst cr))) l
                  = zip_with history_entry (map fst l)
                      (map (fun cr => elevenlabs_details analyze (snd cr)) l)).
    { clear Hids. induction l as [|[conv r] l IH]; [reflexivity|].
      cbn [map zip_with fst snd]. rewrite IH. reflexivity. }
    rewrite Heq. reflexivity.
  - clear Hids. induction l as [|[conv r] l IH]; [constructor|].
    cbn [map]. constructor; [|exact IH]. cbn [snd].
    split; [|split].
    + intros e ->. reflexivity.
    + intros resp -> Hne. unfold elevenlabs_details.
      rewrite (proj2 (Z.eqb_neq _ _) Hne). reflexivity.
    + intros resp raw err -> Hs Hbody. unfold elevenlabs_details.
      rewrite (proj2 (Z.eqb_eq _ _) Hs), Hbody. reflexivity.
Qed.

End HistoryProperties.

Lemma details_keep_other_fields_witness :
  let d := [("status", JStr "done");
            ("transcript", JArr [
               JObj [("role", JStr "agent"); ("message", JNull)];
               JObj [("role", JStr "user"); ("message", JStr "hello");
                     ("time_in_call_secs", JInt 3)]]);
            ("conversation_initiation_client_data",
             JObj [("dynamic_variables",
                    JObj [("system__agent_id", JStr "agent_a")])])] in
  let d' := [("status", JStr "done");
             ("transcript", JArr [
                JObj [("role", JStr "user"); ("message", JStr "hello")]]);
             ("conversation_initiation_client_data",
              JObj [("dynamic_variables",
                     JObj [("system__agent_id", JStr "agent_a")])]);
             ("claude_analysis", JObj [("items", JInt 1)])] in
  exists items simplified analysis,
    py_iter (JArr [
               JObj [("role", JStr "agent"); ("message", JNull)];
               JObj [("role", JStr "user"); ("message", JStr "hello");
                     ("time_in_call_secs", JInt 3)]]) = Ok items /\
    simplify_transcript items = Ok simplified /\
    assoc "transcript" d' = Some (JArr simplified) /\
    assoc "claude_analysis" d' = Some analysis /\
    (forall k, k <> "transcript" -> k <> "claude_analysis" ->
               assoc k d' = assoc k d) /\
    exists client_data variables agent_id,
      py_get_default (JObj d) "conversation_initiation_client_data" (JObj [])
      = Ok client_data /\
      py_get_default client_data "dynamic_variables" (JObj []) = Ok variables /\
      py_get variables "system__agent_id" = Ok agent_id /\
      if json_truthy agent_id
      then exists settings evaluation,
             py_get_default (JObj d) "platform_settings" (JObj []) = Ok settings /\
             py_get_default settings "evaluation" (JObj []) = Ok evaluation /\
             count_items simplified agent_id evaluation = Ok analysis
      else analysis = JObj [("error", JStr "No agent ID found")].
Proof.
  apply (details_keep_other_fields count_items
           [("status", JStr "done");
            ("transcript", JArr [
               JObj [("role", JStr "agent"); ("message", JNull)];
               JObj [("role", JStr "user"); ("message", JStr "hello");
                     ("time_in_call_secs", JInt 3)]]);
            ("conversation_initiation_client_data",
             JObj [("dynamic_variables",
                    JObj [("system__agent_id", JStr "agent_a")])])]).
  reflexivity.
Defined.

Lemma history_failures_stay_with_their_row_witness :
  let l := [([("conversation_id", JStr "abc123"); ("user_id", JStr "u1")],
             Raise (Exn OtherException "connect timeout"));
            ([("conversation_id", JStr "def456"); ("user_id", JStr "u1")],
             Ok {| reply := {| http_status := 404;
                               http_body := BadText "Not Found" "Expecting value" |};
                   reply_text := "Not Found" |})] in
  exists details,
    get_conversation_history count_items (Ok l)
    = history_response (zip_with history_entry (map fst l) details) /\
    Forall2
      (fun cr dt =>
         (forall e, snd cr = Raise e ->
                    dt = JObj [("error", JStr (str_exn e))]) /\
         (forall resp, snd cr = Ok resp -> http_status (reply resp) <> 200%Z ->
                       dt = JObj [("error", JStr ("API error: "
                                                  +:+ str_int (http_status (reply resp))));
                                  ("details", JStr (reply_text resp))]) /\
         (forall resp raw err,
            snd cr = Ok resp -> http_status (reply resp) = 200%Z ->
            http_body (reply resp) = BadText raw err ->
            dt = JObj [("error", JStr err)]))
      l details.
Proof.
  apply (proj2 (history_failures_stay_with_their_row count_items
                  [([("conversation_id", JStr "abc123"); ("user_id", JStr "u1")],
                    Raise (Exn OtherException "connect timeout"));
                   ([("conversation_id", JStr "def456"); ("user_id", JStr "u1")],
                    Ok {| reply := {| http_status := 404;
                                      http_body := BadText "Not Found" "Expecting value" |};
                          reply_text := "Not Found" |})])).
  repeat constructor; cbn [fst assoc String.eqb Ascii.eqb Bool.eqb]; eauto.
Defined.

(** ** The loggers *)

(** X20: setting a logger up again.  A logger that had no handler gets its
    two handlers, the rotating file and the console, from a first call that
    could open the log file.  A second call for the same logger (the same
    name, or the empty name and [root], which are both the root logger)
    opens no file, cannot fail, adds no handler and leaves the two as they
    are, at the level of the first call, while the level of the logger
    itself becomes that of the second call.  Other loggers are not touched.
    A first call that cannot open the log file raises, with the level
    already set and no handler attached. *)
Theorem setup_logger_again (name name2 : string) (level1 level2 : Z)
    (open2 : outcome) (loggers : gmap string logger) :
  l_handlers (getLogger name loggers) = [] ->
  logger_key name2 = logger_key name ->
  let once := setup_logger name level1 None loggers in
  let twice := setup_logger name2 level2 open2 (snd once) in
  (exists lg, fst once = Ok lg) /\
  (exists lg, fst twice = Ok lg) /\
  l_handlers (getLogger name (snd twice)) = l_handlers (getLogger name (snd once)) /\
  map h_kind (l_handlers (getLogger name (snd twice)))
  = [RotatingFile (path_join LOGS_DIR (name +:+ ".log")) MAX_BYTES BACKUP_COUNT "utf-8";
     Console] /\
  Forall (fun h => h_level h = level1) (l_handlers (getLogger name (snd twice))) /\
  l_level (getLogger name (snd twice)) = level2 /\
  (forall other, logger_key other <> logger_key name ->
     getLogger other (snd twice) = getLogger other loggers) /\
  (forall e,
     let failed := setup_logger name level1 (Some e) loggers in
     fst failed = Raise e /\
     l_level (getLogger name (snd failed)) = level1 /\
     l_handlers (getLogger name (snd failed)) = []).
Proof.
  intros Hnone Hkey. cbn zeta.
  assert (Hget : forall n lg (m : gmap string logger),
            logger_key n = logger_key name ->
            getLogger n (<[logger_key name := lg]> m) = lg).
  { intros n lg m Hn. unfold getLogger. rewrite Hn, lookup_insert_eq. reflexivity. }
  set (handlers :=
         [{| h_kind := RotatingFile (path_join LOGS_DIR (name +:+ ".log"))
                         MAX_BYTES BACKUP_COUNT "utf-8";
             h_level := level1; h_format := LOG_FORMAT;
             h_datefmt := Some DATE_FORMAT |};
          {| h_kind := Console; h_level := level1;
             h_format := "%(levelname)s - %(message)s"; h_datefmt := None |}]).
  assert (Honce : setup_logger name level1 None loggers
                  = (Ok {| l_level := level1; l_handlers := handlers |},
                     <[logger_key name := {| l_level := level1; l_handlers := handlers |}]>
                       (<[logger_key name := {| l_level := level1; l_handlers := [] |}]>
                          loggers))).
  { unfold setup_logger. rewrite Hnone. reflexivity. }
  rewrite Honce. cbn [fst snd].
  assert (Htwice : setup_logger name2 level2 open2
                     (<[logger_key name := {| l_level := level1; l_handlers := handlers |}]>
                        (<[logger_key name := {| l_level := level1; l_handlers := [] |}]>
                           loggers))
                   = (Ok {| l_level := level2; l_handlers := handlers |},
                      <[logger_key name := {| l_level := level2; l_handlers := handlers |}]>
                        (<[logger_key name := {| l_level := level1; l_handlers := handlers |}]>
                           (<[logger_key name := {| l_level := level1; l_handlers := [] |}]>
                              loggers)))).
  { unfold setup_logger. rewrite (Hget name2 _ _ Hkey).
    cbn [l_handlers handlers length Nat.eqb negb]. rewrite Hkey. reflexivity. }
  rewrite Htwice. cbn [fst snd].
  rewrite !(Hget name _ _ eq_refl). cbn [l_handlers l_level].
  split; [eauto|]. split; [eauto|]. split; [reflexivity|].
  split; [reflexivity|]. split; [repeat constructor|]. split; [reflexivity|].
  split.
  - intros other Hne. unfold getLogger.
    rewrite !lookup_insert_ne by congruence. reflexivity.
  - intros e. unfold setup_logger. rewrite Hnone.
    cbn [length Nat.eqb negb fst snd]. rewrite (Hget name _ _ eq_refl).
    split; [reflexivity|]. split; reflexivity.
Qed.

Lemma setup_logger_again_witness :
  let once := setup_logger "" 20 None ∅ in
  let twice := setup_logger "root" 10 (Some (Exn OtherException "Permission denied"))
                 (snd once) in
  (exists lg, fst once = Ok lg) /\
  (exists lg, fst twice = Ok lg) /\
  l_handlers (getLogger "" (snd twice)) = l_handlers (getLogger "" (snd once)) /\
  map h_kind (l_handlers (getLogger "" (snd twice)))
  = [RotatingFile (path_join LOGS_DIR ("" +:+ ".log")) MAX_BYTES BACKUP_COUNT "utf-8";
     Console] /\
  Forall (fun h => h_level h = 20%Z) (l_handlers (getLogger "" (snd twice))) /\
  l_level (getLogger "" (snd twice)) = 10%Z /\
  (forall other, logger_key other <> logger_key "" ->
     getLogger other (snd twice) = getLogger other ∅) /\
  (forall e,
     let failed := setup_logger "" 20 (Some e) ∅ in
     fst failed = Raise e /\
     l_level (getLogger "" (snd failed)) = 20%Z /\
     l_handlers (getLogger "" (snd failed)) = []).
Proof.
  apply (setup_logger_again "" "root" 20 10
           (Some (Exn OtherException "Permission denied")) ∅);
    reflexivity.
Defined.


(** ** A notification that is opened as a call before it is accepted *)

Lemma trigger_notification_state (request : NotificationRequest) (now1 now2 : Q)
    (notification_connections : gmap string nat) (push : outcome)
    (reg : gmap key conversation) :
  state_of (trigger_notification request now1 now2 notification_connections push reg)
  = <[KStr (notification_id_of request now1) := notification_record request now2]> reg.
Proof.
  unfold trigger_notification, try_except. unfold bind at 1. unfold modify.
  unfold bind at 1.
  destruct (notification_connections !! req_user_id request) as [w|].
  - unfold try_except, send_json, bind, lift, call, run, json_dumps.
    destruct (req_first_message request), (req_system_prompt request), push;
      reflexivity.
  - reflexivity.
Qed.

(** X21: opening the relay socket with the id of a notification that has not
    been accepted destroys the notification.  Its record holds no signed
    URL, so the handler connects to nothing, closes the client socket and
    removes the record in its [finally] block; accepting the notification
    afterwards is answered 404. *)
Theorem relay_socket_destroys_unaccepted_notification
    (request : NotificationRequest) (now1 now2 : Q)
    (notification_connections : gmap string nat) (push : outcome)
    (reg : gmap key conversation)
    (b64decode : json -> result (list byte)) (w : nat) (env : session_env)
    (get : result http_response) :
  e_accept env = None ->
  let notification_id := notification_id_of request now1 in
  let triggered := trigger_notification request now1 now2
                     notification_connections push reg in
  let session := websocket_endpoint b64decode w notification_id env
                   (state_of triggered) in
  let accepted := accept_notification notification_id get (state_of session) in
  trace_of session = [ClientAccept w; ClientClose w 1000 None] /\
  state_of session = delete (KStr notification_id) reg /\
  result_of accepted = Raise (Exn (HTTPException 404) "Notification not found") /\
  state_of accepted = delete (KStr notification_id) reg.
Proof.
  intros Hacc. cbn zeta. rewrite trigger_notification_state.
  assert (Hs : websocket_endpoint b64decode w (notification_id_of request now1) env
                 (<[KStr (notification_id_of request now1) :=
                      notification_record request now2]> reg)
               = (match e_final_close env with None => Ok Closed | Some e => Raise e end,
                  delete (KStr (notification_id_of request now1)) reg,
                  [ClientAccept w; ClientClose w 1000 None])).
  { unfold websocket_endpoint, relay, cleanup, try_except, get_registry, modify.
    run_eff. rewrite Hacc, lookup_insert_eq. cbn [signed_url set_active notification_record].
    cbn [fst snd]. unfold state_truthy, dot_CONNECTED.
    rewrite !delete_insert_eq.
    destruct (e_final_close env); reflexivity. }
  rewrite Hs.
  unfold accept_notification, get_registry, bind, trace_of, state_of, result_of;
    cbn [fst snd].
  rewrite lookup_delete_eq.
  split; [reflexivity|]. split; [reflexivity|]. split; reflexivity.
Qed.

Lemma relay_socket_destroys_unaccepted_notification_witness :
  let request := {| req_user_id := "u1"; req_notification_title := "Incoming Call";
                    req_notification_body := "Click to answer";
                    req_first_message := Some "Time for your walk";
                    req_system_prompt := None |} in
  let notification_id := notification_id_of request (inject_Z 1000) in
  let triggered := trigger_notification request (inject_Z 1000) (inject_Z 1000)
                     ∅ None ∅ in
  let session := websocket_endpoint b64_unused 7 notification_id hangup_env
                   (state_of triggered) in
  let accepted := accept_notification notification_id
                    (Ok {| http_status := 200;
                           http_body := JsonText (JObj [("signed_url", JStr "wss://x")]) |})
                    (state_of session) in
  trace_of session = [ClientAccept 7; ClientClose 7 1000 None] /\
  state_of session = delete (KStr notification_id) ∅ /\
  result_of accepted = Raise (Exn (HTTPException 404) "Notification not found") /\
  state_of accepted = delete (KStr notification_id) ∅.
Proof.
  apply (relay_socket_destroys_unaccepted_notification
           {| req_user_id := "u1"; req_notification_title := "Incoming Call";
              req_notification_body := "Click to answer";
              req_first_message := Some "Time for your walk";
              req_system_prompt := None |}
           (inject_Z 1000) (inject_Z 1000) ∅ None ∅ b64_unused 7 hangup_env
           (Ok {| http_status := 200;
                  http_body := JsonText (JObj [("signed_url", JStr "wss://x")]) |})).
  reflexivity.
Defined.

(** X22: two notifications for one user within the same second share their
    id.  The id is made of the user and the whole seconds of the clock, so
    the second request overwrites the record of the first: both callers are
    answered with the same id, and under it the registry holds the texts of
    the second request only. *)
Theorem notifications_in_one_second_collide
    (request1 request2 : NotificationRequest) (now1 now1' now2 now2' : Q)
    (notification_connections : gmap string nat) (push1 push2 : outcome)
    (reg : gmap key conversation) :
  req_user_id request1 = req_user_id request2 ->
  int_float now1 = int_float now2 ->
  let first := trigger_notification request1 now1 now1'
                 notification_connections push1 reg in
  let second := trigger_notification request2 now2 now2'
                  notification_connections push2 (state_of first) in
  notification_id_of request1 now1 = notification_id_of request2 now2 /\
  state_of second
  = <[KStr (notification_id_of request1 now1) := notification_record request2 now2']> reg.
Proof.
  intros Huser Hnow. cbn zeta.
  assert (Hid : notification_id_of request1 now1 = notification_id_of request2 now2).
  { unfold notification_id_of. rewrite Huser, Hnow. reflexivity. }
  split; [exact Hid|].
  rewrite !trigger_notification_state. rewrite <- Hid.
  apply insert_insert_eq.
Qed.

Lemma notifications_in_one_second_collide_witness :
  let request1 := {| req_user_id := "u1"; req_notification_title := "Incoming Call";
                     req_notification_body := "Click to answer";
                     req_first_message := Some "Time for your walk";
                     req_system_prompt := None |} in
  let request2 := {| req_user_id := "u1"; req_notification_title := "Incoming Call";
                     req_notification_body := "Click to answer";
                     req_first_message := Some "Time for your pills";
                     req_system_prompt := None |} in
  let first := trigger_notification request1 (1000 # 1) (1001 # 1) ∅ None ∅ in
  let second := trigger_notification request2 (2001 # 2) (2003 # 2) ∅ None
                  (state_of first) in
  notification_id_of request1 (1000 # 1) = notification_id_of request2 (2001 # 2) /\
  state_of second
  = <[KStr (notification_id_of request1 (1000 # 1)) :=
        notification_record request2 (2003 # 2)]> ∅.
Proof.
  apply (notifications_in_one_second_collide
           {| req_user_id := "u1"; req_notification_title := "Incoming Call";
              req_notification_body := "Click to answer";
              req_first_message := Some "Time for your walk";
              req_system_prompt := None |}
           {| req_user_id := "u1"; req_notification_title := "Incoming Call";
              req_notification_body := "Click to answer";
              req_first_message := Some "Time for your pills";
              req_system_prompt := None |}
           (1000 # 1) (1001 # 1) (2001 # 2) (2003 # 2) ∅ None None ∅);
    reflexivity.
Defined.
